(** * cnp-copilot-backend: a shallow embedding of the relay's core

    The backend is a TypeScript/Express relay.  This development embeds the
    parts of it that carry logic: the directory scanner and its ignore policy
    ([scanDirectory], [shouldIgnoreFile]), the relevance filter of
    [fetchCodebaseFiles], the reply parser [parseFileAnalysis], the GitLab
    controller ([connectToGitLab], [getRepositoryFiles],
    [getRepositoryFileContent]) and the chat handler with the AI service
    ([chatWithAI], [processDocumentRequest], [processWithSelectedFiles]).

    Conventions.
    - A JavaScript string is modelled by [string]: one [ascii] per UTF-16
      code unit, so the model covers the strings whose code units are below
      256; [length] is then the JavaScript [length].
    - Regular expressions are kept as syntax ([regex]) and run by a
      backtracking matcher that returns the successes in priority order.
    - The file system under the codebase root is a tree ([fsnode]); a node can
      be a file, a directory whose listing may fail, or an entry whose [stat]
      fails.
    - Handlers are state-passing functions that also return the list of
      effects they performed ([event]). *)

From Stdlib Require Import String Ascii List Bool Arith Lia DecimalString Permutation.
Import ListNotations.
Open Scope string_scope.
Open Scope list_scope.

(* ================================================================== *)
(** * JavaScript string primitives *)
(* ================================================================== *)

Module JS.

(** White space as [String.prototype.trim] and the regex class [\s] see it,
    restricted to code units below 256: TAB, LF, VT, FF, CR, SPACE, NBSP. *)
Definition isSpace (c : ascii) : bool :=
  let n := nat_of_ascii c in
  (((9 <=? n) && (n <=? 13)) || (n =? 32) || (n =? 160))%nat.

(** [toLowerCase] on one code unit (A-Z and the Latin-1 capitals). *)
Definition lowerChar (c : ascii) : ascii :=
  let n := nat_of_ascii c in
  if (((65 <=? n) && (n <=? 90)) || ((192 <=? n) && (n <=? 222) && negb (n =? 215)))%nat
  then ascii_of_nat (n + 32) else c.

(** The [Canonicalize] operation of a case-insensitive, non-unicode regex
    (simple upper-casing), on code units below 256. *)
Definition canonicalize (c : ascii) : ascii :=
  let n := nat_of_ascii c in
  if (((97 <=? n) && (n <=? 122)) || ((224 <=? n) && (n <=? 254) && negb (n =? 247)))%nat
  then ascii_of_nat (n - 32) else c.

Fixpoint toLowerCase (s : string) : string :=
  match s with
  | EmptyString => EmptyString
  | String c s' => String (lowerChar c) (toLowerCase s')
  end.

Fixpoint trimStart (s : string) : string :=
  match s with
  | EmptyString => EmptyString
  | String c s' => if isSpace c then trimStart s' else s
  end.

Fixpoint trimEnd (s : string) : string :=
  match s with
  | EmptyString => EmptyString
  | String c s' =>
      match trimEnd s' with
      | EmptyString => if isSpace c then EmptyString else String c EmptyString
      | t => String c t
      end
  end.

Definition trim (s : string) : string := trimEnd (trimStart s).

Definition startsWith (s p : string) : bool := prefix p s.

(** [s.includes(w)] *)
Fixpoint includes (s w : string) : bool :=
  prefix w s ||
  match s with
  | EmptyString => false
  | String _ s' => includes s' w
  end.

(** [s.split(sep)] for a one-character separator; the empty string splits
    into one empty piece. *)
Fixpoint split (sep : ascii) (s : string) : list string :=
  match s with
  | EmptyString => [EmptyString]
  | String c s' =>
      if Ascii.eqb c sep then EmptyString :: split sep s'
      else match split sep s' with
           | [] => [String c EmptyString]
           | p :: ps => String c p :: ps
           end
  end.

(** Truthiness of a string: the empty string is falsy. *)
Definition truthy (s : string) : bool :=
  match s with EmptyString => false | _ => true end.

(** [a || b] on strings *)
Definition orElse (a b : string) : string := if truthy a then a else b.

End JS.

(* ================================================================== *)
(** * Regular expressions *)
(* ================================================================== *)

Module Regex.

(** The fragment of the JavaScript regex syntax that the sources use. *)
Inductive regex : Type :=
| Eps
| Chr (ci : bool) (c : ascii)        (* a literal; [ci] is the [i] flag *)
| Cls (p : ascii -> bool)            (* a class such as [\s] or [[\s\S]] *)
| Seq (r1 r2 : regex)
| Alt (r1 r2 : regex)
| Star (greedy : bool) (r : regex)   (* [r*] and [r*?] *)
| Bol                                (* [^], no [m] flag *)
| Eol                                (* [$], no [m] flag *)
| Look (r : regex)                   (* [(?=r)] *)
| Grp (r : regex).                   (* capturing group number 1 *)

(** A matcher state: the index reached, the input still to read, and the
    text captured by group 1 (if the group took part). *)
Record mstate : Type := MState {
  pos : nat;
  rest : string;
  cap : option string
}.

Definition charMatches (ci : bool) (c a : ascii) : bool :=
  if ci then Ascii.eqb (JS.canonicalize c) (JS.canonicalize a) else Ascii.eqb c a.

Definition advance (st : mstate) (s' : string) : mstate :=
  MState (S (pos st)) s' (cap st).

(** The text read between two states of one run. *)
Definition consumed (st st' : mstate) : string :=
  substring 0 (pos st' - pos st) (rest st).

(** Iteration: an iteration that reads nothing is rejected, as in
    ECMAScript, so each round shortens the input and [fuel] above the length
    of the input is never exhausted. *)
Fixpoint star (greedy : bool) (step : mstate -> list mstate) (fuel : nat)
    (st : mstate) : list mstate :=
  match fuel with
  | 0 => [st]
  | S n =>
      let more :=
        flat_map (fun st' =>
                    if (pos st <? pos st')%nat
                    then star greedy step n st' else [])
                 (step st) in
      if greedy then more ++ [st] else st :: more
  end.

(** All the ways [r] matches at [st], in the order backtracking tries them. *)
Fixpoint run (r : regex) (st : mstate) : list mstate :=
  match r with
  | Eps => [st]
  | Chr ci c =>
      match rest st with
      | String a s' => if charMatches ci c a then [advance st s'] else []
      | EmptyString => []
      end
  | Cls p =>
      match rest st with
      | String a s' => if p a then [advance st s'] else []
      | EmptyString => []
      end
  | Seq r1 r2 => flat_map (run r2) (run r1 st)
  | Alt r1 r2 => run r1 st ++ run r2 st
  | Star g r1 => star g (run r1) (S (String.length (rest st))) st
  | Bol => if (pos st =? 0)%nat then [st] else []
  | Eol => match rest st with EmptyString => [st] | _ => [] end
  | Look r1 => match run r1 st with [] => [] | _ :: _ => [st] end
  | Grp r1 => map (fun st' => MState (pos st') (rest st') (Some (consumed st st')))
                  (run r1 st)
  end.

(** Leftmost match: try the index [i], then [i+1], and so on. *)
Fixpoint searchFrom (r : regex) (i : nat) (s : string) : option mstate :=
  match run r (MState i s None) with
  | st :: _ => Some st
  | [] =>
      match s with
      | EmptyString => None
      | String _ s' => searchFrom r (S i) s'
      end
  end.

(** [s.match(r)] without the [g] flag: [None] is [null], [Some m] is the
    match array, of which only [m[1]] is kept ([None] for [undefined]). *)
Definition exec (r : regex) (s : string) : option (option string) :=
  match searchFrom r 0 s with
  | Some st => Some (cap st)
  | None => None
  end.

(** [r.test(s)] *)
Definition test (r : regex) (s : string) : bool :=
  match searchFrom r 0 s with Some _ => true | None => false end.

(** A literal word. *)
Fixpoint lit (ci : bool) (w : string) : regex :=
  match w with
  | EmptyString => Eps
  | String c w' => Seq (Chr ci c) (lit ci w')
  end.

Fixpoint alts (rs : list regex) : regex :=
  match rs with
  | [] => Cls (fun _ => false)
  | [r] => r
  | r :: rs' => Alt r (alts rs')
  end.

Definition ws : regex := Cls JS.isSpace.                 (* [\s] *)
Definition any : regex := Cls (fun _ => true).           (* [[\s\S]] *)

End Regex.
Import Regex.

(* ================================================================== *)
(** * Directory scanner (aiController) *)
(* ================================================================== *)

Inductive FileType : Type := TFile | TFolder.

(** [CodebaseFile] of aiService.ts *)
Record CodebaseFile : Type := mkFile {
  path : string;
  name : string;
  type : FileType;
  size : option nat
}.

(** [shouldIgnoreFile]: the pattern table, in source order. *)
Definition ignorePatterns : list regex :=
  [ Seq Bol (Chr false ".");                       (* /^\./ *)
    lit false "node_modules";
    lit false "vendor";
    lit false "venv";
    lit false "__pycache__";
    lit false "dist";
    lit false "build";
    lit false "out";
    lit false "target";
    lit false ".vscode";                           (* /\.vscode/ *)
    lit false ".idea";
    lit false ".DS_Store";
    lit false "Thumbs.db";
    Seq (lit false ".log") Eol;                    (* /\.log$/ *)
    Seq (lit false "package-lock.json") Eol;
    Seq (lit false "yarn.lock") Eol;
    Seq (lit false "composer.lock") Eol;
    Seq (Chr true ".")                              (* /\.(exe|...|iso)$/i *)
        (Seq (Grp (alts (map (lit true) ["exe"; "dll"; "so"; "dylib"; "bin"; "img"; "iso"])))
             Eol);
    Seq (Chr true ".")                              (* /\.(jpg|...|avi)$/i *)
        (Seq (Grp (alts (map (lit true)
                ["jpg"; "jpeg"; "png"; "gif"; "bmp"; "svg"; "ico"; "mp4"; "mp3"; "wav"; "avi"])))
             Eol) ].

Definition shouldIgnoreFile (fileName relativePath : string) : bool :=
  existsb (fun pattern => test pattern fileName || test pattern relativePath)
          ignorePatterns.

(** The codebase tree.  [FsDir None] is a directory whose [readdirSync]
    throws; [FsBad] is an entry whose [statSync] throws.  A directory lists
    its entries in the order [readdirSync] returns them. *)
#[warnings="-register-all"] Inductive fsnode : Type :=
| FsFile (bytes : nat)
| FsDir (listing : option (list (string * fsnode)))
| FsBad.

(** [path.relative(basePath, path.join(dirPath, item))], where [rel] is the
    path of [dirPath] relative to [basePath] (empty for the base itself). *)
Definition relativeOf (rel item : string) : string :=
  match rel with
  | EmptyString => item
  | _ => (rel ++ "/" ++ item)%string
  end.

(** [scanDirectory(dirPath, basePath)].  The [try] encloses the whole loop:
    an exception of [readdirSync] or [statSync] ends the loop and the entries
    pushed so far are returned. *)
Fixpoint scanDirectory (dir : fsnode) (rel : string) {struct dir} : list CodebaseFile :=
  match dir with
  | FsDir (Some items) =>
      (fix loop (items : list (string * fsnode)) : list CodebaseFile :=
         match items with
         | [] => []
         | (item, node) :: more =>
             let relativePath := relativeOf rel item in
             if shouldIgnoreFile item relativePath then loop more
             else
               match node with
               | FsBad => []
               | FsDir _ =>
                   mkFile relativePath item TFolder None
                     :: scanDirectory node relativePath ++ loop more
               | FsFile bytes =>
                   mkFile relativePath item TFile (Some bytes) :: loop more
               end
         end) items
  | _ => []
  end.

(* ================================================================== *)
(** * Relevance filter (aiController, fetchCodebaseFiles) *)
(* ================================================================== *)

Module Path.

(** Node's POSIX [path.extname]: the text from the last dot of the last
    segment of the path, or the empty string when that segment has no dot,
    starts with its only dot, or is [".."]. *)
Fixpoint stripTrailingSlashes (p : string) : string :=
  match p with
  | EmptyString => EmptyString
  | String c p' =>
      match stripTrailingSlashes p' with
      | EmptyString => if Ascii.eqb c "/" then EmptyString else String c EmptyString
      | t => String c t
      end
  end.

Fixpoint lastSegment (p : string) : string :=
  match p with
  | EmptyString => EmptyString
  | String c p' =>
      if JS.includes p' "/" then lastSegment p'
      else if Ascii.eqb c "/" then p' else p
  end.

Fixpoint fromLastDot (seg : string) : option string :=
  match seg with
  | EmptyString => None
  | String c seg' =>
      match fromLastDot seg' with
      | Some t => Some t
      | None => if Ascii.eqb c "." then Some seg else None
      end
  end.

Definition extname (p : string) : string :=
  let seg := lastSegment (stripTrailingSlashes p) in
  match fromLastDot seg with
  | None => EmptyString
  | Some t => if String.eqb t seg || String.eqb seg ".." then EmptyString else t
  end.

End Path.

Definition relevantExtensions : list string :=
  [ ".js"; ".jsx"; ".ts"; ".tsx"; ".py"; ".java"; ".cpp"; ".c"; ".h";
    ".cs"; ".php"; ".rb"; ".go"; ".rs"; ".swift"; ".kt"; ".scala";
    ".json"; ".yaml"; ".yml"; ".toml"; ".xml"; ".md"; ".txt";
    ".sql"; ".sh"; ".bat"; ".ps1"; ".dockerfile"; ".env" ].

Definition isFile (t : FileType) : bool :=
  match t with TFile => true | TFolder => false end.

(** [relevantExtensions.includes(ext)] *)
Definition arrayIncludes (xs : list string) (x : string) : bool :=
  existsb (String.eqb x) xs.

(** The predicate handed to [files.filter] in [fetchCodebaseFiles]. *)
Definition isRelevant (file : CodebaseFile) : bool :=
  let ext := JS.toLowerCase (Path.extname (path file)) in
  isFile (type file) &&
  (arrayIncludes relevantExtensions ext
   || JS.includes (JS.toLowerCase (name file)) "readme"
   || JS.includes (JS.toLowerCase (name file)) "config"
   || JS.includes (JS.toLowerCase (name file)) "package"
   || JS.includes (JS.toLowerCase (name file)) "makefile"
   || negb (JS.truthy ext)).

Definition relevantFilter (files : list CodebaseFile) : list CodebaseFile :=
  filter isRelevant files.

(** An exception carrying its message. *)
Inductive result (A : Type) : Type :=
| Ok (a : A)
| Throw (message : string).
Arguments Ok {A} a.
Arguments Throw {A} message.

(** [fetchCodebaseFiles]: [root] is the node at docs/codebase, [None] when
    [existsSync] answers false.  Every exception is replaced by one message. *)
Definition fetchCodebaseFiles (root : option fsnode) : result (list CodebaseFile) :=
  match root with
  | None => Throw "Could not fetch codebase files from local folder"
  | Some dir => Ok (relevantFilter (scanDirectory dir ""))
  end.

(* ================================================================== *)
(** * Reply parsers (aiService) *)
(* ================================================================== *)

Record FileAnalysis : Type := mkAnalysis {
  relevantFiles : list string;
  reasoning : string;
  confidence : string
}.

(** /REASONING:\s*([\s\S]*?)(?=RELEVANT_FILES:|$)/ and its two siblings *)
Definition section (marker next : string) : regex :=
  Seq (lit false marker)
      (Seq (Star true ws)
           (Seq (Grp (Star false any))
                (Look (Alt (lit false next) Eol)))).

Definition reasoningRe : regex := section "REASONING:" "RELEVANT_FILES:".
Definition filesRe : regex := section "RELEVANT_FILES:" "CONFIDENCE:".

(** /CONFIDENCE:\s*(high|medium|low)/i *)
Definition confidenceRe : regex :=
  Seq (lit true "CONFIDENCE:")
      (Seq (Star true ws)
           (Grp (alts (map (lit true) ["high"; "medium"; "low"])))).

Definition newline : ascii := ascii_of_nat 10.

(** The predicate of the [filter] over the lines. *)
Definition keepLine (line : string) : bool :=
  JS.truthy line && negb (JS.startsWith line "[") && negb (JS.startsWith line "//").

(** [m ? f(m[1]) : dflt]; reading a method of [undefined] throws, which is
    [None] here. *)
Definition onGroup1 (m : option (option string)) (f : string -> string)
    (dflt : string) : option string :=
  match m with
  | None => Some dflt
  | Some (Some g) => Some (f g)
  | Some None => None
  end.

(** [parseFileAnalysis]; [None] stands for a raised [TypeError]. *)
Definition parseFileAnalysis (response : string) : option FileAnalysis :=
  let reasoningMatch := exec reasoningRe response in
  let filesMatch := exec filesRe response in
  let confidenceMatch := exec confidenceRe response in
  match onGroup1 reasoningMatch JS.trim "Analysis completed" with
  | None => None
  | Some reasoning =>
      match onGroup1 filesMatch JS.trim "" with
      | None => None
      | Some filesText =>
          match onGroup1 confidenceMatch JS.toLowerCase "medium" with
          | None => None
          | Some confidence =>
              let relevantFiles :=
                firstn 15 (filter keepLine (map JS.trim (JS.split newline filesText))) in
              Some (mkAnalysis relevantFiles reasoning confidence)
          end
      end
  end.

(** /EXPLANATION:\s*([\s\S]*?)(?=CONTENT:|$)/ *)
Definition explanationRe : regex := section "EXPLANATION:" "CONTENT:".

(** /CONTENT:\s*```markdown\s*([\s\S]*?)\s*```/ *)
Definition contentRe : regex :=
  Seq (lit false "CONTENT:")
      (Seq (Star true ws)
           (Seq (lit false "```markdown")
                (Seq (Star true ws)
                     (Seq (Grp (Star false any))
                          (Seq (Star true ws) (lit false "```")))))).

Record Parsed : Type := mkParsed {
  explanation : string;
  content : option string
}.

(** [parseAIResponse]; [None] stands for a raised [TypeError]. *)
Definition parseAIResponse (text action : string) : option Parsed :=
  if String.eqb action "chat" then Some (mkParsed text None)
  else
    match onGroup1 (exec explanationRe text) JS.trim text with
    | None => None
    | Some expl =>
        match exec contentRe text with
        | None => Some (mkParsed expl None)
        | Some (Some g) => Some (mkParsed expl (Some (JS.trim g)))
        | Some None => None
        end
    end.

(* ================================================================== *)
(** * HTTP vocabulary shared by the handlers *)
(* ================================================================== *)

#[warnings="-register-all"] Inductive json : Type :=
| JNull
| JBool (b : bool)
| JNum (n : nat)
| JStr (s : string)
| JArr (items : list json)
| JObj (fields : list (string * json)).

(** What a handler sends: [res.status(code).json(body)]. *)
Record response : Type := mkResponse {
  status : nat;
  body : json
}.

Definition headers : Type := list (string * string).

(** The effects a handler performs, in order.  Console lines are kept
    without the pictographs that decorate them in the source.  No handler
    writes to the disk, so there is no effect for it: the codebase folder is
    the same before and after every request. *)
Inductive event : Type :=
| Log (line : string)
| HttpGet (url : string) (hs : headers)
| FsExists (p : string)
| FsScan (p : string)
| FsStat (p : string)
| FsReadFile (p : string)
| Generate (prompt : string).

(** What [await axios.get(...)] does: it resolves with the reply's data, or
    rejects with an axios error (with or without an upstream reply), or with
    something else. *)
Record AxiosResponse : Type := mkAxiosResponse {
  upstreamStatus : nat;
  upstreamMessage : option string       (* [data?.message] *)
}.

Record AxiosError : Type := mkAxiosError {
  errResponse : option AxiosResponse;
  errMessage : string
}.

Inductive reply (D : Type) : Type :=
| Resolved (data : D)
| RejectedAxios (e : AxiosError)
| RejectedOther.
Arguments Resolved {D} data.
Arguments RejectedAxios {D} e.
Arguments RejectedOther {D}.

Definition natToString (n : nat) : string := NilEmpty.string_of_uint (Nat.to_uint n).

(* ================================================================== *)
(** * GitLab controller *)
(* ================================================================== *)

(** The fields of the platform's [URL] objects that the controller reads. *)
Record URL : Type := mkURL {
  protocol : string;
  hostname : string;
  host : string;
  pathname : string
}.

(** [GitLabConnectRequest]; a missing JSON field is [None]. *)
Record GitLabConnectRequest : Type := mkConnect {
  repoUrl : option string;
  accessToken : option string
}.

(** The value of [currentConnection] when it is not [null]. *)
Record Connection : Type := mkConnection {
  connRepoUrl : string;
  connAccessToken : string
}.

(** [GitLabFile] as the upstream tree endpoint returns it. *)
Record GitLabFile : Type := mkGitLabFile {
  gl_id : string;
  gl_name : string;
  gl_path : string;
  gl_type : string;                     (* "blob" or "tree" *)
  gl_size : option nat;
  gl_mode : string
}.

Record FilesQuery : Type := mkFilesQuery {
  q_path : option string;
  q_ref : option string;
  q_recursive : option string
}.

Record ContentRequest : Type := mkContentRequest {
  p_filePath : option string;           (* [req.params.filePath] *)
  c_ref : option string;
  c_lfs : option string
}.

(** Truthiness of an optional string field. *)
Definition present (o : option string) : bool :=
  match o with Some s => JS.truthy s | None => false end.

(** [x = dflt] in a destructuring pattern: only [undefined] takes the default. *)
Definition withDefault (o : option string) (dflt : string) : string :=
  match o with Some s => s | None => dflt end.

(** [s.replace(/^\//, '')] *)
Definition dropLeadingSlash (s : string) : string :=
  match s with
  | String c s' => if Ascii.eqb c "/" then s' else s
  | EmptyString => EmptyString
  end.

(** [s.replace(/\.git$/, '')] *)
Fixpoint dropGitSuffix (s : string) : string :=
  match s with
  | EmptyString => EmptyString
  | String c s' => if String.eqb s ".git" then EmptyString else String c (dropGitSuffix s')
  end.

Definition errorBody (error message : string) : json :=
  JObj [("error", JStr error); ("message", JStr message)].

(** [status === code], where [status] may be [undefined] *)
Definition statusIs (st : option nat) (code : nat) : bool :=
  match st with
  | Some n => (n =? code)%nat
  | None => false
  end.

(** [status || 500] *)
Definition statusOr500 (st : option nat) : nat :=
  match st with
  | Some 0 | None => 500
  | Some n => n
  end.

(** The selected-file view of the codebase folder, as [fetchFileContents]
    probes it: [existsSync], then [statSync], then [readFileSync]. *)
Inductive FileStatus : Type :=
| Absent                                     (* [existsSync] answers false *)
| StatThrows
| Directory
| Regular (bytes : nat) (text : option string). (* [None]: [readFileSync] throws *)

(** Everything outside the process: the platform functions ([new URL(s)],
    [None] when it throws; [encodeURIComponent];
    [URLSearchParams.prototype.toString]), the upstream service as the three
    [axios.get] calls see it, the clock ([new Date().toISOString()]), the
    language model ([None] when the call rejects), the codebase folder and
    the [NODE_ENV === 'development'] flag. *)
Record World : Type := mkWorld {
  parseURL : string -> option URL;
  encodeURIComponent : string -> string;
  searchParams : list (string * string) -> string;
  probeGet : string -> headers -> reply string;
  treeGet : string -> headers -> reply (list GitLabFile);
  rawGet : string -> headers -> reply string;
  now : string;
  generateContent : string -> option string;
  codebaseRoot : option fsnode;
  lookupFile : string -> FileStatus;
  development : bool
}.

Section GitLabController.

Variable w : World.

Definition isValidGitLabUrl (url : string) : bool :=
  match parseURL w url with
  | Some urlObj =>
      String.eqb (protocol urlObj) "https:" &&
      (JS.includes (hostname urlObj) "gitlab" || JS.includes url "gitlab")
  | None => false
  end.

Definition extractProjectIdFromUrl (repoUrl : string) : option string :=
  match parseURL w repoUrl with
  | Some url =>
      let pathname := dropGitSuffix (dropLeadingSlash (pathname url)) in
      if JS.truthy pathname then Some pathname else None
  | None => None
  end.

Definition getGitLabApiUrl (repoUrl : string) : string :=
  match parseURL w repoUrl with
  | Some url => (protocol url ++ "//" ++ host url ++ "/api/v4")%string
  | None => "https://gitlab.com/api/v4"
  end.

(** The outcome of a handler: the new [currentConnection], the reply sent
    and the effects performed. *)
Definition outcome : Type := (option Connection * response * list event)%type.

Definition connectToGitLab (currentConnection : option Connection)
    (req : GitLabConnectRequest) : outcome :=
  match repoUrl req, accessToken req with
  | Some repoUrl, Some accessToken =>
      if negb (JS.truthy repoUrl) || negb (JS.truthy accessToken) then
        (currentConnection,
         mkResponse 400 (errorBody "Missing required fields"
                                   "Both repoUrl and accessToken are required"), [])
      else if negb (JS.truthy (JS.trim repoUrl)) || negb (isValidGitLabUrl repoUrl) then
        (currentConnection,
         mkResponse 400 (errorBody "Invalid repository URL"
                                   "Please provide a valid GitLab repository URL"), [])
      else if negb (JS.truthy (JS.trim accessToken)) || (String.length accessToken <? 10)%nat then
        (currentConnection,
         mkResponse 400 (errorBody "Invalid access token"
                                   "Please provide a valid GitLab access token"), [])
      else
        let conn := mkConnection (JS.trim repoUrl) (JS.trim accessToken) in
        let hs := [("PRIVATE-TOKEN", connAccessToken conn)] in
        let announced :=
          [ Log "GitLab connection received:";
            Log ("   Repository: " ++ connRepoUrl conn);
            Log ("   Token: " ++ substring 0 8 (connAccessToken conn) ++ "...");
            HttpGet (connRepoUrl conn) hs ] in
        let probed :=
          match probeGet w (connRepoUrl conn) hs with
          | Resolved data => [Log ("GitLab API test successful: " ++ data)]
          | _ => [Log "GitLab API test failed, but connection stored"]
          end in
        (Some conn,
         mkResponse 200
           (JObj [("success", JBool true);
                  ("message", JStr "GitLab connection details received successfully");
                  ("data", JObj [("repoUrl", JStr (connRepoUrl conn));
                                 ("connected", JBool true);
                                 ("timestamp", JStr (now w))])]),
         announced ++ probed)
  | _, _ =>
      (currentConnection,
       mkResponse 400 (errorBody "Missing required fields"
                                 "Both repoUrl and accessToken are required"), [])
  end.

Definition disconnectFromGitLab (currentConnection : option Connection) : outcome :=
  match currentConnection with
  | None =>
      (None, mkResponse 400 (errorBody "Not connected" "No active GitLab connection found"), [])
  | Some _ =>
      (None,
       mkResponse 200
         (JObj [("success", JBool true);
                ("message", JStr "Disconnected from GitLab successfully");
                ("data", JObj [("connected", JBool false); ("timestamp", JStr (now w))])]),
       [Log "Disconnecting from GitLab repository"])
  end.

Definition notConnected : response :=
  mkResponse 400 (errorBody "Not connected" "Please connect to a GitLab repository first").

Definition noProjectId : response :=
  mkResponse 400 (errorBody "Invalid repository URL"
                            "Could not extract project ID from repository URL").

(** The [catch] of [getRepositoryFiles], applied to an axios error. *)
Definition filesError (error : AxiosError) : response :=
  let status := option_map upstreamStatus (errResponse error) in
  let message :=
    match errResponse error with
    | Some r => if present (upstreamMessage r)
                then withDefault (upstreamMessage r) "" else errMessage error
    | None => errMessage error
    end in
  if statusIs status 401 then
    mkResponse 401 (errorBody "Authentication failed"
                              "Invalid access token or insufficient permissions")
  else if statusIs status 404 then
    mkResponse 404 (errorBody "Repository not found" "Repository or branch not found")
  else if statusIs status 403 then
    mkResponse 403 (errorBody "Access denied"
                              "Insufficient permissions to access this repository")
  else
    mkResponse (statusOr500 status)
               (errorBody "GitLab API error" ("GitLab API request failed: " ++ message)).

(** The [catch] of [getRepositoryFileContent], applied to an axios error. *)
Definition contentError (error : AxiosError) : response :=
  let status := option_map upstreamStatus (errResponse error) in
  let message :=
    match errResponse error with
    | Some r => if present (upstreamMessage r)
                then withDefault (upstreamMessage r) "" else errMessage error
    | None => errMessage error
    end in
  if statusIs status 401 then
    mkResponse 401 (errorBody "Authentication failed"
                              "Invalid access token or insufficient permissions")
  else if statusIs status 404 then
    mkResponse 404 (errorBody "File not found" "File not found in repository or branch")
  else
    mkResponse (statusOr500 status)
               (errorBody "GitLab API error" ("Failed to fetch file content: " ++ message)).

(** A key whose value is [undefined] is left out of the reply. *)
Definition optNum (key : string) (o : option nat) : list (string * json) :=
  match o with Some n => [(key, JNum n)] | None => [] end.

Definition transformFile (file : GitLabFile) : json :=
  JObj ([("id", JStr (gl_id file));
         ("name", JStr (gl_name file));
         ("path", JStr (gl_path file));
         ("type", JStr (if String.eqb (gl_type file) "blob" then "file" else "folder"))]
        ++ optNum "size" (gl_size file)
        ++ [("mode", JStr (gl_mode file))]).

Definition getRepositoryFiles (currentConnection : option Connection)
    (query : FilesQuery) : outcome :=
  match currentConnection with
  | None => (currentConnection, notConnected, [])
  | Some conn =>
      let path := withDefault (q_path query) "" in
      let ref := withDefault (q_ref query) "main" in
      let recursive := withDefault (q_recursive query) "false" in
      match extractProjectIdFromUrl (connRepoUrl conn) with
      | None => (currentConnection, noProjectId, [])
      | Some projectId =>
          let gitlabApiUrl := getGitLabApiUrl (connRepoUrl conn) in
          let apiUrl := (gitlabApiUrl ++ "/projects/" ++ encodeURIComponent w projectId
                           ++ "/repository/tree")%string in
          let params :=
            [("ref", ref); ("recursive", recursive); ("per_page", "100")]
              ++ (if JS.truthy path && JS.truthy (JS.trim path) then [("path", path)] else []) in
          let url := (apiUrl ++ "?" ++ searchParams w params)%string in
          let hs := [("PRIVATE-TOKEN", connAccessToken conn); ("Accept", "application/json")] in
          let before := [Log ("Fetching GitLab repository files from: " ++ url); HttpGet url hs] in
          match treeGet w url hs with
          | Resolved gitlabFiles =>
              let transformedFiles := map transformFile gitlabFiles in
              let count := natToString (List.length transformedFiles) in
              (currentConnection,
               mkResponse 200
                 (JObj [("success", JBool true);
                        ("message", JStr ("Successfully fetched " ++ count ++ " files"));
                        ("data", JObj [("repoUrl", JStr (connRepoUrl conn));
                                       ("projectId", JStr projectId);
                                       ("ref", JStr ref);
                                       ("path", JStr (JS.orElse path "/"));
                                       ("files", JArr transformedFiles);
                                       ("timestamp", JStr (now w))])]),
               before ++ [Log ("Successfully fetched " ++ count ++ " files from GitLab")])
          | RejectedAxios error =>
              (currentConnection, filesError error,
               before ++ [Log "Error in getRepositoryFiles"])
          | RejectedOther =>
              (currentConnection,
               mkResponse 500 (errorBody "Internal server error"
                                         "Failed to fetch repository files"),
               before ++ [Log "Error in getRepositoryFiles"])
          end
      end
  end.

(** [getRepositoryFileContent].  The upstream body is taken as text, as the
    raw endpoint sends it for a file that is not itself JSON. *)
Definition getRepositoryFileContent (currentConnection : option Connection)
    (req : ContentRequest) : outcome :=
  match currentConnection with
  | None => (currentConnection, notConnected, [])
  | Some conn =>
      let ref := withDefault (c_ref req) "main" in
      let lfs := withDefault (c_lfs req) "false" in
      if negb (present (p_filePath req)) then
        (currentConnection,
         mkResponse 400 (errorBody "Missing file path" "File path parameter is required"), [])
      else
        let filePath := withDefault (p_filePath req) "" in
        match extractProjectIdFromUrl (connRepoUrl conn) with
        | None => (currentConnection, noProjectId, [])
        | Some projectId =>
            let gitlabApiUrl := getGitLabApiUrl (connRepoUrl conn) in
            let encodedFilePath := encodeURIComponent w filePath in
            let apiUrl := (gitlabApiUrl ++ "/projects/" ++ encodeURIComponent w projectId
                             ++ "/repository/files/" ++ encodedFilePath ++ "/raw")%string in
            let params :=
              [("ref", ref)] ++ (if String.eqb lfs "true" then [("lfs", "true")] else []) in
            let url := (apiUrl ++ "?" ++ searchParams w params)%string in
            let hs := [("PRIVATE-TOKEN", connAccessToken conn)] in
            let before := [Log ("Fetching file content from: " ++ url); HttpGet url hs] in
            match rawGet w url hs with
            | Resolved data =>
                (currentConnection,
                 mkResponse 200
                   (JObj [("success", JBool true);
                          ("message", JStr "File content retrieved successfully");
                          ("data", JObj [("filePath", JStr filePath);
                                         ("ref", JStr ref);
                                         ("content", JStr data);
                                         ("size", JNum (String.length data));
                                         ("timestamp", JStr (now w))])]),
                 before ++ [Log ("Successfully fetched content for file: " ++ filePath)])
            | RejectedAxios error =>
                (currentConnection, contentError error,
                 before ++ [Log "Error in getRepositoryFileContent"])
            | RejectedOther =>
                (currentConnection,
                 mkResponse 500 (errorBody "Internal server error"
                                           "Failed to fetch file content"),
                 before ++ [Log "Error in getRepositoryFileContent"])
            end
        end
  end.

End GitLabController.

(* ================================================================== *)
(** * AI service *)
(* ================================================================== *)

(** Code that performs effects and may throw: the value or the exception,
    with the effects performed up to that point. *)
Definition M (A : Type) : Type := (result A * list event)%type.

Definition ret {A : Type} (a : A) : M A := (Ok a, []).

Definition throw {A : Type} (message : string) : M A := (Throw message, []).

Definition emit (e : event) : M unit := (Ok tt, [e]).

Definition bind {A B : Type} (m : M A) (k : A -> M B) : M B :=
  match m with
  | (Ok a, t) => let (r, t') := k a in (r, t ++ t')
  | (Throw e, t) => (Throw e, t)
  end.

(** [try { m } catch (error) { handler(error.message) }] *)
Definition tryCatch {A : Type} (m : M A) (handler : string -> M A) : M A :=
  match m with
  | (Ok a, t) => (Ok a, t)
  | (Throw e, t) => let (r, t') := handler e in (r, t ++ t')
  end.

Notation "x <- m ;; k" := (bind m (fun x => k))
  (at level 61, m at next level, right associativity).
Notation "m ;; k" := (bind m (fun _ => k))
  (at level 61, right associativity).

(** [ChatRequest] once the handler has checked [message] and [action]. *)
Record ChatRequest : Type := mkChat {
  message : string;
  currentContent : option string;
  filePath : option string;
  action : string;
  selectedFiles : option (list string);
  codebaseFiles : option (list CodebaseFile)
}.

Record ChatResponse : Type := mkChatResponse {
  responseText : string;                  (* [response] *)
  suggestedContent : option string;
  responseAction : string;                (* [action] *)
  fileAnalysis : option FileAnalysis;
  needsUserConfirmation : option bool
}.

Definition nl : string := String newline EmptyString.

(** [o || dflt] for an optional string. *)
Definition orDefault (o : option string) (dflt : string) : string :=
  match o with
  | Some s => JS.orElse s dflt
  | None => dflt
  end.

(** [o ? f(o) : ''] *)
Definition whenPresent (o : option string) (f : string -> string) : string :=
  match o with
  | Some s => if JS.truthy s then f s else EmptyString
  | None => EmptyString
  end.

(** The prompt of [analyzeCodebaseForTask]. *)
Definition analyzePrompt (request : ChatRequest) (filesList : string) : string :=
  ("You are an expert technical documentation analyst. I need to create comprehensive technical documentation and I want you to analyze which files from the codebase would be most relevant for the following documentation task:

DOCUMENTATION TASK: "
   ++ message request
   ++ "

CURRENT DOCUMENT: "
   ++ orDefault (filePath request) "Unknown"
   ++ "

AVAILABLE CODEBASE FILES:
"
   ++ filesList
   ++ "

Please analyze the task and determine which files would be most relevant to create accurate and comprehensive technical documentation. Consider:

1. **Core Application Files**: Main entry points, core logic, and primary functionality
2. **Configuration Files**: Setup, environment, and configuration files (package.json, config files, etc.)
3. **Component/Module Files**: Key components, services, utilities, and modules
4. **API/Interface Files**: Routes, controllers, API definitions, and interfaces
5. **Documentation Files**: Existing README files, comments, and documentation
6. **Build/Deployment Files**: Build scripts, deployment configurations, and setup files
7. **Test Files**: Unit tests, integration tests that show expected behavior and usage

Focus on files that will help create documentation that explains:
- What the application/system does
- How to set it up and use it
- Architecture and key components
- API endpoints and interfaces
- Configuration options
- Examples and usage patterns

Respond in this exact format:

REASONING:
[Explain your analysis of the codebase and why these specific files are most relevant for creating comprehensive technical documentation]

RELEVANT_FILES:
[List the file paths, one per line, in order of importance for documentation]

CONFIDENCE:
[high/medium/low - based on how certain you are about the file selection for documentation purposes]")%string.

(** The prompt of [processWithSelectedFiles]. *)
Definition filesPrompt (request : ChatRequest) (fileContents : string) : string :=
  ("You are an expert technical documentation writer. I need you to create/update comprehensive technical documentation based on the provided codebase files.

DOCUMENTATION TASK: "
   ++ message request
   ++ "

CURRENT DOCUMENT CONTENT:
```markdown
"
   ++ orDefault (currentContent request) ""
   ++ "
```

CURRENT DOCUMENT PATH: "
   ++ orDefault (filePath request) "Unknown"
   ++ "

SELECTED CODEBASE FILES AND THEIR CONTENT:
"
   ++ fileContents
   ++ "

Please analyze the code and create comprehensive technical documentation. Focus on:

1. **Project Overview**: What the application/system does, its purpose and main features
2. **Architecture**: High-level architecture, key components, and how they interact
3. **Setup & Installation**: How to set up, install dependencies, and configure the project
4. **Usage**: How to use the application, key features, and common workflows
5. **API Documentation**: If applicable, document API endpoints, parameters, and responses
6. **Configuration**: Available configuration options and environment variables
7. **Code Examples**: Practical examples showing how to use key features
8. **File Structure**: Explanation of important directories and files
9. **Development**: How to contribute, build, test, and deploy

Create documentation that is:
- **Accurate**: Reflects the actual code implementation
- **Complete**: Covers all important aspects shown in the code
- **Clear**: Easy to understand for developers at different skill levels
- **Practical**: Includes real examples from the codebase
- **Well-structured**: Uses proper markdown formatting and logical organization

Format your response as:
EXPLANATION:
[Brief explanation of what documentation you're creating and the key insights from the codebase analysis]

CONTENT:
```markdown
[Complete technical documentation in markdown format]
```")%string.

(** [buildEditPrompt] *)
Definition buildEditPrompt (request : ChatRequest) : string :=
  ("You are an expert technical documentation editor. The user wants to edit their markdown documentation.

Current document content:
```markdown
"
   ++ orDefault (currentContent request) ""
   ++ "
```

File path: "
   ++ orDefault (filePath request) "Unknown"
   ++ "

User request: "
   ++ message request
   ++ "

Please provide:
1. A brief explanation of what changes you're making
2. The complete updated markdown content

Format your response as:
EXPLANATION:
[Your explanation here]

CONTENT:
```markdown
[Updated markdown content here]
```

Focus on maintaining proper markdown formatting, improving clarity, and following technical documentation best practices.")%string.

(** [buildGeneratePrompt] *)
Definition buildGeneratePrompt (request : ChatRequest) : string :=
  ("You are an expert technical documentation writer. The user wants you to generate new markdown documentation.

"
   ++ whenPresent (filePath request) (fun p => "File path: " ++ p)
   ++ "

User request: "
   ++ message request
   ++ "

Please provide:
1. A brief explanation of what you're creating
2. Complete markdown documentation content

Format your response as:
EXPLANATION:
[Your explanation here]

CONTENT:
```markdown
[New markdown content here]
```

Create comprehensive, well-structured technical documentation with:
- Clear headings and sections
- Code examples where appropriate
- Proper markdown formatting
- Professional tone suitable for technical documentation")%string.

(** [buildChatPrompt] *)
Definition buildChatPrompt (request : ChatRequest) : string :=
  ("You are a helpful assistant for technical documentation. The user is working on a markdown document and has a question or needs guidance.

"
   ++ whenPresent (currentContent request)
     (fun c => "Current document content:" ++ nl ++ "```markdown" ++ nl ++ c ++ nl ++ "```")
   ++ "

"
   ++ whenPresent (filePath request) (fun p => "File path: " ++ p)
   ++ "

User question: "
   ++ message request
   ++ "

Provide helpful guidance, suggestions, or answers related to their documentation. If they're asking for specific changes, explain what you would recommend and why.")%string.


Definition typeName (t : FileType) : string :=
  match t with TFile => "file" | TFolder => "folder" end.

(** One line of [filesList]. *)
Definition describeEntry (file : CodebaseFile) : string :=
  (path file ++ " (" ++ typeName (type file)
   ++ match size file with
      | Some (S n) => ", " ++ natToString (S n) ++ " bytes"
      | _ => ""
      end
   ++ ")")%string.

(** [request.codebaseFiles?.map(...).join('\n') || ''] *)
Definition listFiles (files : option (list CodebaseFile)) : string :=
  match files with
  | Some fs => String.concat nl (map describeEntry fs)
  | None => EmptyString
  end.

(** [getLanguageFromExtension] *)
Definition languageMap : list (string * string) :=
  [ (".js", "javascript"); (".jsx", "jsx"); (".ts", "typescript"); (".tsx", "tsx");
    (".py", "python"); (".java", "java"); (".cpp", "cpp"); (".c", "c"); (".h", "c");
    (".cs", "csharp"); (".php", "php"); (".rb", "ruby"); (".go", "go"); (".rs", "rust");
    (".swift", "swift"); (".kt", "kotlin"); (".scala", "scala"); (".json", "json");
    (".yaml", "yaml"); (".yml", "yaml"); (".toml", "toml"); (".xml", "xml");
    (".md", "markdown"); (".sql", "sql"); (".sh", "bash"); (".bat", "batch");
    (".ps1", "powershell"); (".dockerfile", "dockerfile"); (".env", "bash") ].

Definition getLanguageFromExtension (ext : string) : string :=
  match find (fun kv => String.eqb (fst kv) ext) languageMap with
  | Some kv => snd kv
  | None => "text"
  end.

(** One element of [fileContents]: the label line and what follows it. *)
Definition fileBlock (filePath text : string) : string :=
  (nl ++ "FILE: " ++ filePath ++ nl ++ text ++ nl)%string.

Section AIService.

Variable w : World.

(** The body of the loop of [fetchFileContents], with its own [try]. *)
Definition fetchOne (filePath : string) : M string :=
  tryCatch
    (emit (FsExists filePath) ;;
     match lookupFile w filePath with
     | Absent => ret (fileBlock filePath "[Error: File not found]")
     | StatThrows => emit (FsStat filePath) ;; throw "statSync"
     | Directory => emit (FsStat filePath) ;; ret (fileBlock filePath "[Directory - skipped]")
     | Regular bytes text =>
         emit (FsStat filePath) ;;
         if (1024 * 1024 <? bytes)%nat then
           ret (fileBlock filePath
                  ("[File too large (" ++ natToString ((bytes + 512) / 1024) ++ "KB) - skipped]"))
         else
           emit (FsReadFile filePath) ;;
           match text with
           | None => throw "readFileSync"
           | Some content =>
               let fileExtension := JS.toLowerCase (Path.extname filePath) in
               let language := getLanguageFromExtension fileExtension in
               ret (fileBlock filePath ("```" ++ language ++ nl ++ content ++ nl ++ "```"))
           end
     end)
    (fun _ =>
       emit (Log ("Error reading file " ++ filePath)) ;;
       ret (fileBlock filePath "[Error: Could not read file content]")).

Fixpoint fetchEach (filePaths : list string) : M (list string) :=
  match filePaths with
  | [] => ret []
  | filePath :: more =>
      block <- fetchOne filePath ;;
      blocks <- fetchEach more ;;
      ret (block :: blocks)
  end.

Definition fetchFileContents (filePaths : list string) : M string :=
  fileContents <- fetchEach filePaths ;;
  ret (String.concat nl fileContents).

(** [model.generateContent(prompt)] followed by [response.text()] *)
Definition generate (prompt : string) : M string :=
  emit (Generate prompt) ;;
  match generateContent w prompt with
  | Some text => ret text
  | None => throw "generateContent"
  end.

(** A parser's [TypeError] becomes an exception of the caller. *)
Definition orTypeError {A : Type} (o : option A) : M A :=
  match o with
  | Some a => ret a
  | None => throw "TypeError"
  end.

Definition analyzeCodebaseForTask (request : ChatRequest) : M ChatResponse :=
  tryCatch
    (let filesList := listFiles (codebaseFiles request) in
     let prompt := analyzePrompt request filesList in
     response <- generate prompt ;;
     fileAnalysis <- orTypeError (parseFileAnalysis response) ;;
     ret (mkChatResponse
            ("I've analyzed your codebase and identified "
               ++ natToString (List.length (relevantFiles fileAnalysis))
               ++ " files that would be most helpful for creating comprehensive technical documentation. Please review my suggestions below.")
            None "analyze_codebase" (Some fileAnalysis) (Some true)))
    (fun _ =>
       emit (Log "Codebase Analysis Error") ;;
       throw "Failed to analyze codebase").

Definition processWithSelectedFiles (request : ChatRequest) : M ChatResponse :=
  tryCatch
    (match selectedFiles request with
     | None | Some [] => throw "No files selected for processing"
     | Some files =>
         fileContents <- fetchFileContents files ;;
         let prompt := filesPrompt request fileContents in
         response <- generate prompt ;;
         parsedResponse <- orTypeError (parseAIResponse response "edit") ;;
         ret (mkChatResponse (explanation parsedResponse) (content parsedResponse)
                             "process_with_files" None None)
     end)
    (fun _ =>
       emit (Log "File Processing Error") ;;
       throw "Failed to process selected files").

Definition processDocumentRequest (request : ChatRequest) : M ChatResponse :=
  tryCatch
    (if String.eqb (action request) "analyze_codebase" then analyzeCodebaseForTask request
     else if String.eqb (action request) "process_with_files" then
       processWithSelectedFiles request
     else
       prompt <-
         (if String.eqb (action request) "edit" then ret (buildEditPrompt request)
          else if String.eqb (action request) "generate" then ret (buildGeneratePrompt request)
          else if String.eqb (action request) "chat" then ret (buildChatPrompt request)
          else throw "Invalid action type") ;;
       text <- generate prompt ;;
       parsedResponse <- orTypeError (parseAIResponse text (action request)) ;;
       ret (mkChatResponse (explanation parsedResponse) (content parsedResponse)
                           (action request) None None))
    (fun _ =>
       emit (Log "AI Service Error") ;;
       throw "Failed to process AI request").

(* ================================================================== *)
(** * Chat handler (aiController) *)
(* ================================================================== *)

(** The JSON body of POST /api/ai/chat; a missing field is [None]. *)
Record ChatBody : Type := mkChatBody {
  b_message : option string;
  b_currentContent : option string;
  b_filePath : option string;
  b_action : option string;
  b_selectedFiles : option (list string)
}.

Definition validActions : list string :=
  ["edit"; "generate"; "chat"; "analyze_codebase"; "process_with_files"].

(** [JSON.stringify] drops the fields whose value is [undefined]. *)
Definition field {A : Type} (key : string) (f : A -> json) (o : option A)
  : list (string * json) :=
  match o with
  | Some a => [(key, f a)]
  | None => []
  end.

Definition analysisJson (a : FileAnalysis) : json :=
  JObj [("relevantFiles", JArr (map JStr (relevantFiles a)));
        ("reasoning", JStr (reasoning a));
        ("confidence", JStr (confidence a))].

Definition chatResponseJson (r : ChatResponse) : json :=
  JObj ([("response", JStr (responseText r))]
          ++ field "suggestedContent" JStr (suggestedContent r)
          ++ [("action", JStr (responseAction r))]
          ++ field "fileAnalysis" analysisJson (fileAnalysis r)
          ++ field "needsUserConfirmation" JBool (needsUserConfirmation r)).

(** The handler's scan of the codebase folder, with the effects it stands for. *)
Definition fetchCodebase : M (list CodebaseFile) :=
  emit (FsExists "docs/codebase") ;;
  match fetchCodebaseFiles (codebaseRoot w) with
  | Ok files =>
      emit (FsScan "docs/codebase") ;;
      emit (Log ("Found " ++ natToString (List.length files) ++ " relevant files in codebase")) ;;
      ret files
  | Throw e => emit (Log "Error in fetchCodebaseFiles") ;; throw e
  end.

Definition chatWithAI (body : ChatBody) : response * list event :=
  if negb (present (b_message body)) || negb (present (b_action body)) then
    (mkResponse 400
       (JObj [("error", JStr "Missing required fields: message and action are required")]),
     [])
  else
    let message := withDefault (b_message body) "" in
    let action := withDefault (b_action body) "" in
    if negb (arrayIncludes validActions action) then
      (mkResponse 400
         (JObj [("error", JStr "Invalid action. Must be one of: edit, generate, chat, analyze_codebase, process_with_files")]),
       [])
    else
      let requestData :=
        mkChat message (b_currentContent body) (b_filePath body) action
               (b_selectedFiles body) None in
      let fetched : M ChatRequest :=
        if String.eqb action "analyze_codebase" then
          codebaseFiles <- fetchCodebase ;;
          ret (mkChat message (b_currentContent body) (b_filePath body) action
                      (b_selectedFiles body) (Some codebaseFiles))
        else ret requestData in
      match fetched with
      | (Throw _, t) =>
          (mkResponse 500
             (JObj [("success", JBool false);
                    ("error", JStr "Failed to fetch codebase files");
                    ("details", JStr "Please ensure the codebase folder exists and contains files")]),
           t ++ [Log "Error fetching codebase files"])
      | (Ok request, t) =>
          match processDocumentRequest request with
          | (Ok result, t') =>
              (mkResponse 200 (JObj [("success", JBool true); ("data", chatResponseJson result)]),
               t ++ t')
          | (Throw errorMessage, t') =>
              (mkResponse 500
                 (JObj ([("success", JBool false);
                         ("error", JStr "Failed to process AI request")]
                          ++ (if development w then [("details", JStr errorMessage)] else []))),
               t ++ t' ++ [Log "AI Controller Error"])
          end
      end.

End AIService.

(* ================================================================== *)
(** * Routing (routes and index) *)
(* ================================================================== *)

Inductive request : Type :=
| GetHealth
| PostConnect (body : GitLabConnectRequest)
| PostDisconnect
| GetFiles (query : FilesQuery)
| GetFileContent (req : ContentRequest)
| PostChat (body : ChatBody)
| Unmatched.

(** One request against the process: the controller's [currentConnection]
    before and after, the reply, and the effects.  The chat handler lives in
    another module and cannot reach [currentConnection]. *)
Definition serve (w : World) (currentConnection : option Connection) (rq : request)
  : outcome :=
  match rq with
  | GetHealth =>
      (currentConnection,
       mkResponse 200 (JObj [("status", JStr "OK"); ("timestamp", JStr (now w));
                             ("service", JStr "docs-copilot-backend")]), [])
  | PostConnect body => connectToGitLab w currentConnection body
  | PostDisconnect => disconnectFromGitLab w currentConnection
  | GetFiles query => getRepositoryFiles w currentConnection query
  | GetFileContent req => getRepositoryFileContent w currentConnection req
  | PostChat body =>
      let (res, t) := chatWithAI w body in (currentConnection, res, t)
  | Unmatched =>
      (currentConnection, mkResponse 404 (JObj [("error", JStr "Route not found")]), [])
  end.

(* ================================================================== *)
(** * A model of the platform, for running the handlers *)
(* ================================================================== *)

Module Platform.

(** The general statements below hold for every [World].  To run the
    handlers on concrete requests the platform functions get a model here.
    The URL model follows the WHATWG parser on absolute URLs of the shape
    [scheme://user@host:port/path?query#fragment] with a registered-name or
    dotted host; it neither resolves dot segments nor percent-encodes. *)

Definition between (lo hi : nat) (c : ascii) : bool :=
  let n := nat_of_ascii c in ((lo <=? n) && (n <=? hi))%nat.

Definition isAlpha (c : ascii) : bool := between 65 90 c || between 97 122 c.
Definition isDigit (c : ascii) : bool := between 48 57 c.

Definition isSchemeChar (c : ascii) : bool :=
  isAlpha c || isDigit c || Ascii.eqb c "+" || Ascii.eqb c "-" || Ascii.eqb c ".".

(** The scheme and what follows the colon. *)
Fixpoint splitScheme (s : string) : option (string * string) :=
  match s with
  | EmptyString => None
  | String c s' =>
      if Ascii.eqb c ":" then Some (EmptyString, s')
      else if isSchemeChar c then
        match splitScheme s' with
        | Some (sch, after) => Some (String (JS.lowerChar c) sch, after)
        | None => None
        end
      else None
  end.

Definition isSlash (c : ascii) : bool := Ascii.eqb c "/" || Ascii.eqb c "\".

Fixpoint skipSlashes (s : string) : string :=
  match s with
  | String c s' => if isSlash c then skipSlashes s' else s
  | EmptyString => EmptyString
  end.

(** The text before the first character satisfying [stop], and the rest. *)
Fixpoint span (stop : ascii -> bool) (s : string) : string * string :=
  match s with
  | EmptyString => (EmptyString, EmptyString)
  | String c s' =>
      if stop c then (EmptyString, s)
      else let (a, b) := span stop s' in (String c a, b)
  end.

(** The text after the last occurrence of [c], if there is one. *)
Fixpoint afterLast (c : ascii) (s : string) : option string :=
  match s with
  | EmptyString => None
  | String a s' =>
      match afterLast c s' with
      | Some t => Some t
      | None => if Ascii.eqb a c then Some s' else None
      end
  end.

(** The text before the last occurrence of [c] (all of it if there is none). *)
Fixpoint beforeLast (c : ascii) (s : string) : string :=
  match s with
  | EmptyString => EmptyString
  | String a s' =>
      if JS.includes s' (String c EmptyString) then String a (beforeLast c s')
      else if Ascii.eqb a c then EmptyString else s
  end.

Fixpoint allChars (p : ascii -> bool) (s : string) : bool :=
  match s with
  | EmptyString => true
  | String c s' => p c && allChars p s'
  end.

Definition forbiddenHostChar (c : ascii) : bool :=
  between 0 32 c || existsb (Ascii.eqb c)
    ["#"; "%"; "/"; ":"; "<"; ">"; "?"; "@"; "["; "\"; "]"; "^"; "|"]%char.

Definition specialSchemes : list (string * string) :=
  [("http", "80"); ("https", "443"); ("ws", "80"); ("wss", "443"); ("ftp", "21")].

Definition parseURL (input : string) : option URL :=
  match splitScheme (JS.trim input) with
  | None => None
  | Some (EmptyString, _) => None
  | Some (String c0 sch, after) =>
      let scheme := String c0 sch in
      if negb (isAlpha c0) then None
      else
        match find (fun kv => String.eqb (fst kv) scheme) specialSchemes with
        | None =>
            let (p, _) := span (fun c => Ascii.eqb c "?" || Ascii.eqb c "#") after in
            Some (mkURL (scheme ++ ":") "" "" p)
        | Some (_, defaultPort) =>
            let (authority, tail) :=
              span (fun c => isSlash c || Ascii.eqb c "?" || Ascii.eqb c "#")
                   (skipSlashes after) in
            let hostport :=
              match afterLast "@" authority with Some t => t | None => authority end in
            let port := afterLast ":" hostport in
            let hostname := JS.toLowerCase (beforeLast ":" hostport) in
            let (p, _) := span (fun c => Ascii.eqb c "?" || Ascii.eqb c "#") tail in
            if negb (JS.truthy hostname) || negb (allChars (fun c => negb (forbiddenHostChar c)) hostname)
            then None
            else
              match port with
              | Some digits =>
                  if negb (allChars isDigit digits) then None
                  else
                    Some (mkURL (scheme ++ ":") hostname
                                (if JS.truthy digits && negb (String.eqb digits defaultPort)
                                 then hostname ++ ":" ++ digits else hostname)
                                (JS.orElse p "/"))
              | None => Some (mkURL (scheme ++ ":") hostname hostname (JS.orElse p "/"))
              end
        end
  end.

Definition hexDigit (n : nat) : ascii :=
  if (n <? 10)%nat then ascii_of_nat (48 + n) else ascii_of_nat (55 + n).

Definition percent (n : nat) : string :=
  String "%" (String (hexDigit (n / 16)) (String (hexDigit (n mod 16)) EmptyString)).

(** The UTF-8 bytes of a code unit below 256, percent-encoded. *)
Definition percentEncode (c : ascii) : string :=
  let n := nat_of_ascii c in
  if (n <? 128)%nat then percent n
  else (percent (192 + n / 64) ++ percent (128 + n mod 64))%string.

Fixpoint encodeWith (keep : ascii -> bool) (space : string) (s : string) : string :=
  match s with
  | EmptyString => EmptyString
  | String c s' =>
      ((if keep c then String c EmptyString
        else if Ascii.eqb c " " then space
        else percentEncode c) ++ encodeWith keep space s')%string
  end.

Definition encodeURIComponent (s : string) : string :=
  encodeWith (fun c => isAlpha c || isDigit c ||
                       existsb (Ascii.eqb c) ["-"; "_"; "."; "!"; "~"; "*"; "'"; "("; ")"]%char)
             "%20" s.

Definition formEncode (s : string) : string :=
  encodeWith (fun c => isAlpha c || isDigit c ||
                       existsb (Ascii.eqb c) ["*"; "-"; "."; "_"]%char)
             "+" s.

Definition searchParams (params : list (string * string)) : string :=
  String.concat "&" (map (fun kv => (formEncode (fst kv) ++ "=" ++ formEncode (snd kv))%string)
                         params).

(** A world on this platform: the upstream and the model are given by the
    caller, the codebase folder is the one of the scanner example. *)
Definition sampleListing : list (string * fsnode) :=
  [ (".git", FsDir (Some [("HEAD", FsFile 23); ("objects", FsDir (Some []))]));
    ("node_modules", FsDir (Some [("express", FsDir (Some [("index.js", FsFile 224)]))]));
    ("src", FsDir (Some [("index.ts", FsFile 1270)]));
    ("README.md", FsFile 512) ].

Definition sampleTree : fsnode := FsDir (Some sampleListing).

Definition world (probe : reply string) (tree : reply (list GitLabFile))
    (raw : reply string) (model : string -> option string) : World :=
  mkWorld parseURL encodeURIComponent searchParams
          (fun _ _ => probe) (fun _ _ => tree) (fun _ _ => raw)
          "2025-06-16T05:51:53.835Z"
          model
          (Some sampleTree)
          (fun p => if String.eqb p "src/index.ts" then Regular 1270 (Some "export {};")
                    else if String.eqb p "src" then Directory else Absent)
          true.

End Platform.

(* ================================================================== *)
(** * Vocabulary of the statements *)
(* ================================================================== *)

(** [w] occurs in [s]. *)
Definition Contains (s w : string) : Prop :=
  exists a b : string, s = (a ++ w ++ b)%string.

(** [w] occurs in [s] up to letter case. *)
Definition ContainsCI (s w : string) : Prop := Contains (JS.toLowerCase s) w.

(** The text after the leftmost occurrence of [marker]. *)
Fixpoint textAfter (marker s : string) : option string :=
  if prefix marker s then Some (substring (String.length marker) (String.length s) s)
  else match s with
       | EmptyString => None
       | String _ s' => textAfter marker s'
       end.

(** The text before the leftmost occurrence of [marker], all of the text
    when there is none. *)
Fixpoint textBefore (marker s : string) : string :=
  match s with
  | EmptyString => EmptyString
  | String c s' => if prefix marker s then EmptyString else String c (textBefore marker s')
  end.

(** The section of a reply that starts after [marker] and ends before
    [next] or with the text, without the white space around it. *)
Definition sectionText (marker next reply : string) : option string :=
  match textAfter marker reply with
  | Some t => Some (JS.trim (textBefore next (JS.trimStart t)))
  | None => None
  end.

(** The section, or [dflt] when the marker is absent. *)
Definition sectionOr (marker next reply dflt : string) : string :=
  match sectionText marker next reply with
  | Some t => t
  | None => dflt
  end.

(** The list of files that the specification reads off a reply. *)
Definition listedFiles (reply : string) : list string :=
  firstn 15
    (filter keepLine
       (map JS.trim
          (JS.split newline (sectionOr "RELEVANT_FILES:" "CONFIDENCE:" reply EmptyString)))).





(** Reading a word off the front of the input, as a run of [Chr] does. *)
Fixpoint stripWord (ci : bool) (w s : string) : option string :=
  match w with
  | EmptyString => Some s
  | String c w' =>
      match s with
      | String a s' => if charMatches ci c a then stripWord ci w' s' else None
      | EmptyString => None
      end
  end.

(** The states a lazy [[\s\S]*?] offers, shortest first. *)
Fixpoint suffixStates (p : nat) (s : string) (c : option string) : list mstate :=
  MState p s c ::
  match s with
  | EmptyString => []
  | String _ s' => suffixStates (S p) s' c
  end.

(** Every code unit of the model. *)
Definition allAscii : list ascii := map ascii_of_nat (seq 0 256).

(** [marker] occurs in [a ++ marker] at the end only: the occurrence that
    follows [a] is the leftmost one. *)
Definition FirstAt (a marker : string) : Prop :=
  forall x y : string, (a ++ marker)%string = (x ++ marker ++ y)%string -> x = a.


(** Twenty listed files, and two replies that list them. *)
Definition twentyFiles : list string :=
  [ "package.json"; "README.md"; "src/index.ts"; "src/routes/gitlab.ts";
    "src/routes/ai.ts"; "src/controllers/gitlabController.ts";
    "src/controllers/aiController.ts"; "src/services/aiService.ts";
    "src/types/index.ts"; "tsconfig.json"; "Dockerfile"; "docs/setup.md";
    "docs/api.md"; "scripts/deploy.sh"; "test/gitlab.test.ts"; "test/ai.test.ts";
    "LICENSE"; "Makefile"; "jest.config.js"; "nodemon.json" ].


Definition reasoningPart : string := (nl ++ "Core files first. " ++ nl ++ nl)%string.

Definition fullReply : string :=
  ("REASONING:" ++ reasoningPart ++ "RELEVANT_FILES:"
     ++ (nl ++ String.concat nl twentyFiles ++ nl ++ nl ++ "CONFIDENCE:" ++ nl ++ "High"))%string.

(** [l] keeps some of the elements of [l'], in their order. *)
Inductive Subseq {A : Type} : list A -> list A -> Prop :=
| Subseq_nil : Subseq [] []
| Subseq_keep : forall x l l', Subseq l l' -> Subseq (x :: l) (x :: l')
| Subseq_skip : forall x l l', Subseq l l' -> Subseq l (x :: l').

(** The loop of [scanDirectory] over the entries still to visit. *)
Definition scanLoop (rel : string) (items : list (string * fsnode)) : list CodebaseFile :=
  scanDirectory (FsDir (Some items)) rel.

(** The entry a scan pushes for [item]. *)
Definition entryOf (rel item : string) (node : fsnode) : CodebaseFile :=
  match node with
  | FsFile bytes => mkFile (relativeOf rel item) item TFile (Some bytes)
  | _ => mkFile (relativeOf rel item) item TFolder None
  end.

(** No [stat] fails among the entries that the scan visits at this level. *)
Definition statsSucceed (rel : string) (items : list (string * fsnode)) : Prop :=
  forall item, In (item, FsBad) items -> shouldIgnoreFile item (relativeOf rel item) = true.

(** What one entry contributes to the scan of its directory when its
    [stat] succeeds. *)
Definition scanEntry (rel : string) (entry : string * fsnode) : list CodebaseFile :=
  let (item, node) := entry in
  if shouldIgnoreFile item (relativeOf rel item) then []
  else match node with
       | FsBad => []
       | FsDir _ => entryOf rel item node :: scanDirectory node (relativeOf rel item)
       | FsFile _ => [entryOf rel item node]
       end.

(** What the scan of the sample tree must give. *)
Definition sampleScan : list CodebaseFile :=
  [ mkFile "src" "src" TFolder None;
    mkFile "src/index.ts" "index.ts" TFile (Some 1270);
    mkFile "README.md" "README.md" TFile (Some 512) ].

(** A directory in which the [stat] of the second of three entries fails. *)
Definition brokenListing : list (string * fsnode) :=
  [ ("a.ts", FsFile 10); ("b.ts", FsBad); ("c.ts", FsFile 20) ].

(** The substrings of the ignore table that are matched anywhere. *)
Definition looseWords : list string :=
  ["out"; "dist"; "build"; "target"; "vendor"; "venv"; "node_modules"].

(** The relevance rule: the extension is compared in lower case, the name
    is searched in lower case. *)
Definition Relevant (file : CodebaseFile) : Prop :=
  type file = TFile /\
  (In (JS.toLowerCase (Path.extname (path file))) relevantExtensions
   \/ ContainsCI (name file) "readme"
   \/ ContainsCI (name file) "config"
   \/ ContainsCI (name file) "package"
   \/ ContainsCI (name file) "makefile"
   \/ Path.extname (path file) = EmptyString).

(** The relevance rule with the extension compared as it is written: only
    the test of the name is up to letter case. *)
Definition RelevantAsWritten (file : CodebaseFile) : Prop :=
  type file = TFile /\
  (In (Path.extname (path file)) relevantExtensions
   \/ ContainsCI (name file) "readme"
   \/ ContainsCI (name file) "config"
   \/ ContainsCI (name file) "package"
   \/ ContainsCI (name file) "makefile"
   \/ Path.extname (path file) = EmptyString).

(** The same world with another answer to the probe of [connectToGitLab]. *)
Definition withProbe (probe : string -> headers -> reply string) (w : World) : World :=
  mkWorld (parseURL w) (encodeURIComponent w) (searchParams w)
          probe (treeGet w) (rawGet w) (now w) (generateContent w)
          (codebaseRoot w) (lookupFile w) (development w).

(** The three guards of [connectToGitLab], in the words of the contract. *)
Definition passesValidation (w : World) (req : GitLabConnectRequest) : Prop :=
  exists url token,
    repoUrl req = Some url /\ accessToken req = Some token /\
    url <> EmptyString /\ token <> EmptyString /\
    JS.trim url <> EmptyString /\ isValidGitLabUrl w url = true /\
    JS.trim token <> EmptyString /\ 10 <= String.length token.

(** The parts of an outcome. *)
Definition stored (o : outcome) : option Connection := fst (fst o).
Definition sent (o : outcome) : response := snd (fst o).
Definition effects (o : outcome) : list event := snd o.

(** A connection made earlier, and an upstream refusal with status 403. *)
Definition earlier : Connection :=
  mkConnection "https://gitlab.com/team/docs.git" "glpat-0123456789abcdef".

Definition forbidden : AxiosError :=
  mkAxiosError (Some (mkAxiosResponse 403 (Some "403 Forbidden")))
               "Request failed with status code 403".

(** An effect that touches neither the disk, the upstream nor the model. *)
Definition isLog (e : event) : Prop :=
  match e with Log _ => True | _ => False end.

(* ================================================================== *)
(** * Vocabulary of the further statements *)
(* ================================================================== *)

(** [s] ends with [w]. *)
Definition EndsWith (s w : string) : Prop := exists a : string, s = (a ++ w)%string.

(** A text of white space only. *)
Definition Blank (s : string) : Prop := JS.trimStart s = EmptyString.

(** Kinds of effects, to count them in a trace. *)
Definition isHttpGet (e : event) : bool :=
  match e with HttpGet _ _ => true | _ => false end.

Definition isGenerate (e : event) : bool :=
  match e with Generate _ => true | _ => false end.

Definition isFs (e : event) : bool :=
  match e with
  | FsExists _ | FsScan _ | FsStat _ | FsReadFile _ => true
  | _ => false
  end.

Definition count (f : event -> bool) (t : list event) : nat := List.length (filter f t).

(** The paths that a trace probes with [existsSync], in order. *)
Fixpoint existsProbes (t : list event) : list string :=
  match t with
  | [] => []
  | FsExists p :: t' => p :: existsProbes t'
  | _ :: t' => existsProbes t'
  end.

(** The stored connection holds trimmed, non-empty texts. *)
Definition Trimmed (cur : option Connection) : Prop :=
  match cur with
  | None => True
  | Some conn =>
      JS.trim (connRepoUrl conn) = connRepoUrl conn /\ connRepoUrl conn <> EmptyString /\
      JS.trim (connAccessToken conn) = connAccessToken conn /\
      connAccessToken conn <> EmptyString
  end.

(** A session: requests served one after the other, each in the world of
    its moment, starting from [cur]. *)
Fixpoint serveAll (cur : option Connection) (session : list (World * request))
  : option Connection :=
  match session with
  | [] => cur
  | (w, rq) :: more => serveAll (stored (serve w cur rq)) more
  end.

(** What [fetchFileContents] writes for one selected path, by the state of
    the path on disk. *)
Inductive Describes (w : World) (filePath : string) : string -> Prop :=
| Describes_absent :
    lookupFile w filePath = Absent ->
    Describes w filePath (fileBlock filePath "[Error: File not found]")
| Describes_directory :
    lookupFile w filePath = Directory ->
    Describes w filePath (fileBlock filePath "[Directory - skipped]")
| Describes_large : forall bytes text,
    lookupFile w filePath = Regular bytes text -> 1024 * 1024 < bytes ->
    Describes w filePath
      (fileBlock filePath
         ("[File too large (" ++ natToString ((bytes + 512) / 1024) ++ "KB) - skipped]"))
| Describes_content : forall bytes content,
    lookupFile w filePath = Regular bytes (Some content) -> bytes <= 1024 * 1024 ->
    Describes w filePath
      (fileBlock filePath
         ("```" ++ getLanguageFromExtension (JS.toLowerCase (Path.extname filePath))
            ++ nl ++ content ++ nl ++ "```"))
| Describes_unreadable :
    (lookupFile w filePath = StatThrows \/
     exists bytes, lookupFile w filePath = Regular bytes None /\ bytes <= 1024 * 1024) ->
    Describes w filePath (fileBlock filePath "[Error: Could not read file content]").

(** The entries that a walk reaches: those of the listing whose [stat]
    succeeds and that are not ignored, and the entries reached below a
    listed directory that is not ignored. *)
Inductive Listed : list (string * fsnode) -> string -> CodebaseFile -> Prop :=
| Listed_here : forall items rel item node,
    In (item, node) items -> node <> FsBad ->
    shouldIgnoreFile item (relativeOf rel item) = false ->
    Listed items rel (entryOf rel item node)
| Listed_below : forall items rel item sub e,
    In (item, FsDir (Some sub)) items ->
    shouldIgnoreFile item (relativeOf rel item) = false ->
    Listed sub (relativeOf rel item) e ->
    Listed items rel e.

(** Every [stat] succeeds, at this level and below the directories that the
    walk enters. *)
Inductive Healthy : list (string * fsnode) -> string -> Prop :=
| Healthy_level : forall items rel,
    statsSucceed rel items ->
    (forall item sub,
        In (item, FsDir (Some sub)) items ->
        shouldIgnoreFile item (relativeOf rel item) = false ->
        Healthy sub (relativeOf rel item)) ->
    Healthy items rel.

(** Endings of names that the ignore table anchors at the end. *)
Definition ignoredEndings : list string :=
  [".log"; "package-lock.json"; "yarn.lock"; "composer.lock"].

(** Extensions that the ignore table matches in any letter case. *)
Definition ignoredExtensions : list string :=
  [ "exe"; "dll"; "so"; "dylib"; "bin"; "img"; "iso";
    "jpg"; "jpeg"; "png"; "gif"; "bmp"; "svg"; "ico"; "mp4"; "mp3"; "wav"; "avi" ].

(** The text before the first place from which white space and then the
    closing fence follow; [None] when there is no such place. *)
Fixpoint beforeFence (s : string) : option string :=
  if prefix "```" (JS.trimStart s) then Some EmptyString
  else match s with
       | EmptyString => None
       | String a s' => option_map (String a) (beforeFence s')
       end.

(* ================================================================== *)
(** * Strings *)
(* ================================================================== *)

Section StringFacts.

Lemma append_nil_r (s : string) : (s ++ "")%string = s.
Proof. induction s as [|c s IH]; simpl; [reflexivity | now rewrite IH]. Qed.

Lemma append_assoc (a b c : string) : ((a ++ b) ++ c)%string = (a ++ b ++ c)%string.
Proof. induction a as [|x a IH]; simpl; [reflexivity | now rewrite IH]. Qed.

Lemma length_append (a b : string) :
  String.length (a ++ b) = String.length a + String.length b.
Proof. induction a as [|x a IH]; simpl; [reflexivity | now rewrite IH]. Qed.

Lemma prefix_append (w t : string) : prefix w (w ++ t) = true.
Proof.
  induction w as [|c w IH]; simpl.
  - now destruct t.
  - destruct (ascii_dec c c) as [_|n]; [exact IH | now elim n].
Qed.

Lemma prefix_split (w s : string) :
  prefix w s = true -> exists t, s = (w ++ t)%string.
Proof.
  revert s; induction w as [|c w IH]; intros s H.
  - now exists s.
  - destruct s as [|a s]; simpl in H; [discriminate|].
    destruct (ascii_dec c a) as [->|_]; [|discriminate].
    destruct (IH s H) as [t ->]. now exists t.
Qed.

Lemma prefix_iff (w s : string) :
  prefix w s = true <-> exists t, s = (w ++ t)%string.
Proof.
  split; [apply prefix_split | intros [t ->]; apply prefix_append].
Qed.

Lemma substring_skip (w t : string) (n : nat) :
  String.length t <= n -> substring (String.length w) n (w ++ t) = t.
Proof.
  induction w as [|c w IH]; simpl; intros H.
  - revert n H. induction t as [|a t IHt]; intros [|n] H; simpl in *; try reflexivity; try lia.
    f_equal. apply IHt. lia.
  - now apply IH.
Qed.

Lemma substring_take (a b : string) :
  substring 0 (String.length a) (a ++ b) = a.
Proof.
  induction a as [|c a IH]; simpl.
  - now destruct b.
  - now rewrite IH.
Qed.

Lemma includes_cons (c : ascii) (s w : string) :
  JS.includes (String c s) w = prefix w (String c s) || JS.includes s w.
Proof. reflexivity. Qed.

Lemma includes_nil (w : string) : JS.includes EmptyString w = prefix w EmptyString.
Proof. simpl. apply orb_false_r. Qed.

(** [includes] finds exactly the occurrences. *)
Lemma includes_Contains (s w : string) : JS.includes s w = true <-> Contains s w.
Proof.
  split.
  - induction s as [|c s IH]; intros H.
    + rewrite includes_nil in H. apply prefix_split in H as [t H].
      exists EmptyString, t. exact H.
    + rewrite includes_cons in H. apply orb_true_iff in H as [H|H].
      * apply prefix_split in H as [t H]. exists EmptyString, t. exact H.
      * destruct (IH H) as (a & b & ->). exists (String c a), b. reflexivity.
  - intros (a & b & ->). induction a as [|c a IH].
    + change (EmptyString ++ w ++ b)%string with (w ++ b)%string.
      destruct (w ++ b)%string eqn:E.
      * rewrite includes_nil, <- E. apply prefix_append.
      * rewrite includes_cons, <- E, prefix_append. reflexivity.
    + change (String c a ++ w ++ b)%string with (String c (a ++ w ++ b)).
      rewrite includes_cons, IH. apply orb_true_r.
Qed.

Lemma includes_false (s w : string) : JS.includes s w = false <-> ~ Contains s w.
Proof.
  rewrite <- includes_Contains. destruct (JS.includes s w); split; intros H;
    try reflexivity; try discriminate; try (intros; discriminate); now elim H.
Qed.

Lemma Contains_append_l (p s w : string) : Contains s w -> Contains (p ++ s) w.
Proof.
  intros (a & b & ->). exists (p ++ a)%string, b. now rewrite append_assoc.
Qed.

Lemma Contains_append_r (s q w : string) : Contains s w -> Contains (s ++ q) w.
Proof.
  intros (a & b & ->). exists a, (b ++ q)%string. now rewrite !append_assoc.
Qed.

Lemma toLowerCase_empty (s : string) : JS.toLowerCase s = EmptyString <-> s = EmptyString.
Proof. destruct s; simpl; split; intros H; try reflexivity; discriminate. Qed.

Lemma truthy_iff (s : string) : JS.truthy s = true <-> s <> EmptyString.
Proof. destruct s; simpl; split; intros H; try discriminate; try reflexivity; now elim H. Qed.

Lemma truthy_false (s : string) : JS.truthy s = false <-> s = EmptyString.
Proof. destruct s; simpl; split; intros H; try discriminate; reflexivity. Qed.

End StringFacts.

(* ================================================================== *)
(** * The matcher *)
(* ================================================================== *)

Section MatcherFacts.

(** A literal word reads itself off the input, in one way at most. *)
Lemma run_lit (ci : bool) (w s : string) (p : nat) (c : option string) :
  run (lit ci w) (MState p s c) =
  match stripWord ci w s with
  | Some t => [MState (p + String.length w) t c]
  | None => []
  end.
Proof.
  revert s p; induction w as [|x w IH]; intros s p; simpl.
  - now rewrite Nat.add_0_r.
  - destruct s as [|a s]; [reflexivity|].
    destruct (charMatches ci x a); [|reflexivity].
    simpl. unfold advance; simpl. rewrite IH, app_nil_r.
    destruct (stripWord ci w s); [|reflexivity].
    now rewrite Nat.add_succ_r.
Qed.

Lemma stripWord_exact (w s : string) :
  stripWord false w s = if prefix w s then Some (substring (String.length w) (String.length s) s) else None.
Proof.
  revert s; induction w as [|x w IH]; intros s.
  - simpl. destruct s as [|a s]; simpl.
    + reflexivity.
    + f_equal. f_equal. symmetry. apply (substring_skip EmptyString s). lia.
  - destruct s as [|a s]; simpl; [reflexivity|].
    destruct (ascii_dec x a) as [->|n].
    + rewrite Ascii.eqb_refl, IH. destruct (prefix w s) eqn:E; [|reflexivity].
      apply prefix_split in E as [t ->].
      rewrite !substring_skip; [reflexivity| |]; rewrite length_append; lia.
    + apply Ascii.eqb_neq in n. now rewrite n.
Qed.

Lemma stripWord_append (w t : string) : stripWord false w (w ++ t) = Some t.
Proof.
  rewrite stripWord_exact, prefix_append, substring_skip; [reflexivity|].
  rewrite length_append; lia.
Qed.

(** Searching for a literal word is [includes]. *)
Lemma searchFrom_lit (w s : string) (i : nat) :
  match searchFrom (lit false w) i s with Some _ => true | None => false end
  = JS.includes s w.
Proof.
  revert i; induction s as [|a s IH]; intros i.
  - rewrite includes_nil. cbn [searchFrom]. rewrite run_lit, stripWord_exact.
    destruct (prefix w EmptyString); reflexivity.
  - rewrite includes_cons. cbn [searchFrom]. rewrite run_lit, stripWord_exact.
    destruct (prefix w (String a s)); [reflexivity|]. apply IH.
Qed.

Lemma test_lit (w s : string) : test (lit false w) s = JS.includes s w.
Proof. unfold test. apply searchFrom_lit. Qed.

(** A match found by the search is one of the runs from some suffix. *)
Lemma searchFrom_run (r : regex) (s : string) (i : nat) (st : mstate) :
  searchFrom r i s = Some st ->
  exists pre s' j, s = (pre ++ s')%string /\ In st (run r (MState j s' None)).
Proof.
  revert i; induction s as [|a s IH]; intros i; cbn [searchFrom].
  - destruct (run r (MState i EmptyString None)) as [|x l] eqn:E; [discriminate|].
    intros [= <-]. exists EmptyString, EmptyString, i. rewrite E. split; [reflexivity|now left].
  - destruct (run r (MState i (String a s) None)) as [|x l] eqn:E.
    + intros H. destruct (IH _ H) as (pre & s' & j & -> & Hin).
      exists (String a pre), s', j. split; [reflexivity|exact Hin].
    + intros [= <-]. exists EmptyString, (String a s), i. rewrite E.
      split; [reflexivity|now left].
Qed.

Lemma star_step (g : bool) (step : mstate -> list mstate) (n : nat) (st : mstate) :
  star g step (S n) st =
  let more := flat_map (fun st' => if (pos st <? pos st')%nat then star g step n st' else [])
                       (step st) in
  if g then more ++ [st] else st :: more.
Proof. reflexivity. Qed.

Lemma run_cls (f : ascii -> bool) (a : ascii) (s : string) (p : nat) (c : option string) :
  run (Cls f) (MState p (String a s) c) = if f a then [MState (S p) s c] else [].
Proof. reflexivity. Qed.

(** Greedy [\s*] first offers the input without its leading white space. *)
Lemma star_ws_head (fuel : nat) (s : string) (p : nat) (c : option string) :
  String.length s < fuel ->
  exists p' tl, star true (run ws) fuel (MState p s c) = MState p' (JS.trimStart s) c :: tl.
Proof.
  revert s p; induction fuel as [|n IH]; intros s p H; [lia|].
  destruct s as [|a s].
  - exists p, []. reflexivity.
  - rewrite star_step. unfold ws at 2. rewrite run_cls. cbn [JS.trimStart].
    destruct (JS.isSpace a) eqn:E.
    + cbn [flat_map pos].
      replace (p <? S p)%nat with true by (symmetry; apply Nat.ltb_lt; lia).
      destruct (IH s (S p)) as (p' & tl & ->); [simpl in H; lia|].
      exists p', ((tl ++ []) ++ [MState p (String a s) c]). reflexivity.
    + exists p, []. reflexivity.
Qed.

(** Lazy [[\s\S]*?] offers every suffix of the input, shortest match first. *)
Lemma star_any_lazy (fuel : nat) (s : string) (p : nat) (c : option string) :
  String.length s < fuel ->
  star false (run any) fuel (MState p s c) = suffixStates p s c.
Proof.
  revert s p; induction fuel as [|n IH]; intros s p H; [lia|].
  destruct s as [|a s]; [reflexivity|].
  rewrite star_step. unfold any at 2. rewrite run_cls. cbn [flat_map pos suffixStates].
  replace (p <? S p)%nat with true by (symmetry; apply Nat.ltb_lt; lia).
  rewrite app_nil_r, IH; [reflexivity | simpl in H; lia].
Qed.

(** The lookahead [(?=next|$)] holds where [next] starts or the input ends. *)
Lemma run_lookahead (next s : string) (p : nat) (c : option string) :
  run (Look (Alt (lit false next) Eol)) (MState p s c) =
  if prefix next s || negb (JS.truthy s) then [MState p s c] else [].
Proof.
  simpl. rewrite run_lit, stripWord_exact.
  destruct (prefix next s); [reflexivity|].
  destruct s; reflexivity.
Qed.

(** The lazy group followed by the lookahead stops at the first place where
    the lookahead holds: the capture is the text before [next]. *)
Lemma capture_until (next pre s : string) (p0 : nat) (c : option string) :
  exists st tl,
    flat_map (run (Look (Alt (lit false next) Eol)))
      (map (fun st' => MState (pos st') (rest st')
                         (Some (substring 0 (pos st' - p0) (pre ++ s))))
           (suffixStates (p0 + String.length pre) s c))
    = st :: tl /\ cap st = Some (pre ++ textBefore next s)%string.
Proof.
  revert pre; induction s as [|a s IH]; intros pre.
  - simpl. rewrite run_lit, stripWord_exact.
    replace (p0 + String.length pre - p0) with (String.length pre) by lia.
    rewrite substring_take, append_nil_r.
    destruct (prefix next EmptyString); eexists; eexists; split; reflexivity.
  - cbn [suffixStates map flat_map pos rest].
    rewrite run_lookahead.
    replace (p0 + String.length pre - p0) with (String.length pre) by lia.
    rewrite substring_take. cbn [textBefore].
    destruct (prefix next (String a s)) eqn:E.
    + simpl. eexists; eexists; split; [reflexivity|]. simpl. now rewrite append_nil_r.
    + simpl.
      destruct (IH (pre ++ String a EmptyString)%string) as (st & tl & H1 & H2).
      rewrite length_append in H1. simpl in H1.
      replace (p0 + (String.length pre + 1)) with (S (p0 + String.length pre)) in H1 by lia.
      rewrite append_assoc in H1. simpl in H1.
      exists st, tl. split; [exact H1|].
      rewrite H2, append_assoc. reflexivity.
Qed.

Lemma run_seq (r1 r2 : regex) (st : mstate) :
  run (Seq r1 r2) st = flat_map (run r2) (run r1 st).
Proof. reflexivity. Qed.

Lemma run_star (g : bool) (r : regex) (st : mstate) :
  run (Star g r) st = star g (run r) (S (String.length (rest st))) st.
Proof. reflexivity. Qed.

Lemma run_grp (r : regex) (st : mstate) :
  run (Grp r) st =
  map (fun st' => MState (pos st') (rest st') (Some (consumed st st'))) (run r st).
Proof. reflexivity. Qed.

(** A section pattern run where its marker starts. *)
Lemma run_section (marker next t : string) (i : nat) :
  exists st tl,
    run (section marker next) (MState i (marker ++ t) None) = st :: tl /\
    cap st = Some (textBefore next (JS.trimStart t)).
Proof.
  unfold section.
  rewrite run_seq, run_lit, stripWord_append. cbn [flat_map]. rewrite app_nil_r.
  rewrite run_seq, run_star. cbn [rest].
  destruct (star_ws_head (S (String.length t)) t (i + String.length marker) None)
    as (p' & tl & ->); [lia|].
  cbn [flat_map].
  rewrite run_seq, run_grp, run_star. cbn [rest].
  rewrite star_any_lazy by lia.
  unfold consumed. cbn [pos rest].
  destruct (capture_until next EmptyString (JS.trimStart t) p' None) as (st & tl' & H1 & H2).
  simpl String.length in H1. rewrite Nat.add_0_r in H1.
  change (EmptyString ++ JS.trimStart t)%string with (JS.trimStart t) in H1.
  rewrite H1. exists st. eexists. split; [reflexivity|exact H2].
Qed.

Lemma run_section_none (marker next s : string) (i : nat) :
  prefix marker s = false -> run (section marker next) (MState i s None) = [].
Proof.
  intros H. unfold section. rewrite run_seq, run_lit, stripWord_exact, H. reflexivity.
Qed.

Lemma run_section_some (marker next s : string) (i : nat) :
  prefix marker s = true ->
  exists st tl,
    run (section marker next) (MState i s None) = st :: tl /\
    cap st = Some (textBefore next
                     (JS.trimStart (substring (String.length marker) (String.length s) s))).
Proof.
  intros H. apply prefix_split in H as [t ->].
  rewrite substring_skip by (rewrite length_append; lia).
  apply run_section.
Qed.

(** What [match] returns for a section pattern. *)
Lemma exec_section (marker next s : string) :
  exec (section marker next) s =
  match textAfter marker s with
  | Some t => Some (Some (textBefore next (JS.trimStart t)))
  | None => None
  end.
Proof.
  unfold exec. generalize 0 as i.
  induction s as [|a s IH]; intros i.
  - cbn [searchFrom textAfter]. destruct (prefix marker EmptyString) eqn:E.
    + destruct (run_section_some marker next EmptyString i E) as (st & tl & -> & ->).
      reflexivity.
    + rewrite run_section_none by exact E. reflexivity.
  - cbn [searchFrom textAfter]. destruct (prefix marker (String a s)) eqn:E.
    + destruct (run_section_some marker next (String a s) i E) as (st & tl & -> & ->).
      reflexivity.
    + rewrite run_section_none by exact E. apply IH.
Qed.

Lemma in_allAscii (a : ascii) : In a allAscii.
Proof.
  unfold allAscii. apply in_map_iff. exists (nat_of_ascii a). split.
  - apply ascii_nat_embedding.
  - apply in_seq. pose proof (nat_ascii_bounded a). lia.
Qed.

(** Letters that a case-insensitive pattern identifies have the same
    lower-case form, and conversely. *)
Lemma charMatches_lower (c a : ascii) :
  charMatches true c a = Ascii.eqb (JS.lowerChar c) (JS.lowerChar a).
Proof.
  assert (H : forallb (fun c => forallb (fun a =>
            Bool.eqb (charMatches true c a) (Ascii.eqb (JS.lowerChar c) (JS.lowerChar a)))
            allAscii) allAscii = true) by (vm_compute; reflexivity).
  rewrite forallb_forall in H. specialize (H c (in_allAscii c)).
  rewrite forallb_forall in H. specialize (H a (in_allAscii a)).
  now apply Bool.eqb_prop in H.
Qed.

Lemma toLowerCase_append (a b : string) :
  JS.toLowerCase (a ++ b) = (JS.toLowerCase a ++ JS.toLowerCase b)%string.
Proof. induction a as [|c a IH]; simpl; [reflexivity | now rewrite IH]. Qed.

(** What a case-insensitive word reads has the lower-case form of the word. *)
Lemma stripWord_ci (w s t : string) :
  stripWord true w s = Some t ->
  exists x, s = (x ++ t)%string /\ String.length x = String.length w /\
            JS.toLowerCase x = JS.toLowerCase w.
Proof.
  revert s; induction w as [|c w IH]; intros s H.
  - injection H as ->. now exists EmptyString.
  - destruct s as [|a s]; cbn [stripWord] in H; [discriminate|].
    destruct (charMatches true c a) eqn:E; [|discriminate].
    destruct (IH s H) as (x & -> & Hl & Hx).
    exists (String a x). split; [reflexivity|]. split; [simpl; now rewrite Hl|].
    simpl. rewrite Hx. f_equal.
    rewrite charMatches_lower in E. apply Ascii.eqb_eq in E. now symmetry.
Qed.

(** Every match of the confidence pattern starts at an occurrence of the
    marker in any letter case and captures one of the three words. *)
Lemma run_confidence (p : nat) (s : string) (st : mstate) :
  In st (run confidenceRe (MState p s None)) ->
  (exists x t, s = (x ++ t)%string /\ JS.toLowerCase x = "confidence:")
  /\ exists g, cap st = Some g /\ In (JS.toLowerCase g) ["high"; "medium"; "low"].
Proof.
  unfold confidenceRe. rewrite run_seq, run_lit.
  destruct (stripWord true "CONFIDENCE:" s) as [t|] eqn:E; [|intros []].
  apply stripWord_ci in E as (x & -> & _ & Hx).
  cbn [flat_map]. rewrite app_nil_r, run_seq. intros H.
  split; [now exists x, t|].
  apply in_flat_map in H as (st2 & _ & H). rewrite run_grp in H.
  apply in_map_iff in H as (st3 & <- & H). cbn [cap].
  eexists; split; [reflexivity|].
  destruct st2 as [p2 s2 c2]. unfold consumed. cbn [pos rest].
  cbn [alts map] in H. cbn [run] in H.
  rewrite !in_app_iff in H.
  assert (K : forall w, In st3 (run (lit true w) (MState p2 s2 c2)) ->
              JS.toLowerCase (substring 0 (pos st3 - p2) s2) = JS.toLowerCase w).
  { intros w Hw. rewrite run_lit in Hw.
    destruct (stripWord true w s2) as [t2|] eqn:E2; [|destruct Hw].
    destruct Hw as [<-|[]]. cbn [pos].
    apply stripWord_ci in E2 as (y & -> & Hl & Hy).
    replace (p2 + String.length w - p2) with (String.length y) by lia.
    now rewrite substring_take. }
  destruct H as [H|[H|H]]; apply K in H; rewrite H; simpl; auto.
Qed.

Lemma trimStart_or_space (s : string) :
  s = JS.trimStart s \/ exists a r, s = String a r /\ JS.isSpace a = true.
Proof.
  destruct s as [|a r]; [now left|]. simpl. destruct (JS.isSpace a) eqn:E.
  - right. now exists a, r.
  - now left.
Qed.

(** Greedy [\s*] offers the input without its leading white space, or a
    rest that still starts with white space. *)
Lemma star_ws_rest (fuel : nat) (s : string) (p : nat) (c : option string) (st' : mstate) :
  In st' (star true (run ws) fuel (MState p s c)) ->
  rest st' = JS.trimStart s \/ exists a r, rest st' = String a r /\ JS.isSpace a = true.
Proof.
  revert s p; induction fuel as [|n IH]; intros s p H.
  - destruct H as [<-|[]]. apply trimStart_or_space.
  - rewrite star_step in H. cbv zeta in H. apply in_app_iff in H as [H|[<-|[]]].
    + apply in_flat_map in H as (s1 & H1 & H2).
      destruct s as [|a s]; [destruct H1|].
      unfold ws in H1. rewrite run_cls in H1. destruct (JS.isSpace a) eqn:E; [|destruct H1].
      destruct H1 as [<-|[]]. cbn [pos] in H2.
      destruct (p <? S p)%nat; [|destruct H2].
      apply IH in H2. simpl. now rewrite E.
    + apply trimStart_or_space.
Qed.

Lemma flat_map_nil {A B : Type} (f : A -> list B) (l : list A) :
  (forall x, In x l -> f x = []) -> flat_map f l = [].
Proof.
  induction l as [|x l IH]; intros H; [reflexivity|].
  simpl. rewrite (H x) by now left. apply IH. intros y Hy. apply H. now right.
Qed.

End MatcherFacts.

(* ================================================================== *)
(** * Sections of a reply *)
(* ================================================================== *)

Section ReplyFacts.

Lemma textAfter_eq (m s : string) :
  textAfter m s =
  if prefix m s then Some (substring (String.length m) (String.length s) s)
  else match s with
       | EmptyString => None
       | String _ s' => textAfter m s'
       end.
Proof. destruct s; reflexivity. Qed.

Lemma textAfter_includes (m s : string) :
  textAfter m s = None <-> JS.includes s m = false.
Proof.
  induction s as [|c s IH].
  - rewrite textAfter_eq, includes_nil. destruct (prefix m EmptyString); split; congruence.
  - rewrite textAfter_eq, includes_cons. destruct (prefix m (String c s)); simpl.
    + split; congruence.
    + exact IH.
Qed.

(** Without the marker there is no section. *)
Lemma textAfter_absent (m s : string) : ~ Contains s m -> textAfter m s = None.
Proof. intros H. apply textAfter_includes, includes_false, H. Qed.

Lemma textAfter_present (m s t : string) : textAfter m s = Some t -> Contains s m.
Proof.
  intros H. apply includes_Contains.
  destruct (JS.includes s m) eqn:E; [reflexivity|].
  apply textAfter_includes in E. congruence.
Qed.


(** A word at the front of [u ++ v] that fits in [u] is at the front of [u]. *)
Lemma prefix_shorten (m u v : string) :
  prefix m (u ++ v) = true -> String.length m <= String.length u ->
  exists y, u = (m ++ y)%string.
Proof.
  revert u; induction m as [|c m IH]; intros u H L.
  - now exists u.
  - destruct u as [|a u]; [simpl in L; lia|].
    simpl in H. destruct (ascii_dec c a) as [->|_]; [|discriminate].
    destruct (IH u H) as [y ->]; [simpl in L; lia|]. now exists y.
Qed.

Lemma FirstAt_nil (m : string) : FirstAt EmptyString m.
Proof.
  intros x y H. apply (f_equal String.length) in H.
  rewrite !length_append in H. simpl in H.
  destruct x; [reflexivity | simpl in H; lia].
Qed.

Lemma FirstAt_tail (c : ascii) (a m : string) : FirstAt (String c a) m -> FirstAt a m.
Proof.
  intros H x y E. specialize (H (String c x) y). simpl in H.
  rewrite E in H. specialize (H eq_refl). now injection H.
Qed.

Lemma FirstAt_no_early (c : ascii) (a m b : string) :
  FirstAt (String c a) m -> prefix m (String c a ++ m ++ b) = false.
Proof.
  intros H. destruct (prefix m (String c a ++ m ++ b)) eqn:E; [|reflexivity].
  rewrite <- append_assoc in E.
  apply prefix_shorten in E as [y Hy]; [|rewrite length_append; lia].
  specialize (H EmptyString y Hy). discriminate.
Qed.



(** The text before the leftmost marker. *)
Lemma textBefore_first (a m b : string) :
  FirstAt a m -> textBefore m (a ++ m ++ b) = a.
Proof.
  induction a as [|c a IH]; intros H.
  - change (EmptyString ++ m ++ b)%string with (m ++ b)%string.
    destruct (m ++ b)%string eqn:E; [reflexivity|].
    cbn [textBefore]. now rewrite <- E, prefix_append.
  - change (String c a ++ m ++ b)%string with (String c (a ++ m ++ b)).
    cbn [textBefore].
    change (String c (a ++ m ++ b)) with (String c a ++ m ++ b)%string.
    rewrite (FirstAt_no_early _ _ _ _ H). f_equal. apply IH. eapply FirstAt_tail, H.
Qed.


Lemma trimStart_length (s : string) : String.length (JS.trimStart s) <= String.length s.
Proof.
  induction s as [|c s IH]; simpl; [lia|]. destruct (JS.isSpace c); simpl; lia.
Qed.

Lemma trimEnd_length (s : string) : String.length (JS.trimEnd s) <= String.length s.
Proof.
  induction s as [|c s IH]; simpl; [lia|].
  destruct (JS.trimEnd s); [destruct (JS.isSpace c)|]; simpl in *; lia.
Qed.

Lemma trimStart_split (s : string) : exists sp, s = (sp ++ JS.trimStart s)%string.
Proof.
  induction s as [|c s [sp IH]]; [now exists EmptyString|].
  simpl. destruct (JS.isSpace c).
  - exists (String c sp). simpl. now rewrite <- IH.
  - now exists EmptyString.
Qed.

Lemma trimStart_idem (s : string) : JS.trimStart (JS.trimStart s) = JS.trimStart s.
Proof.
  induction s as [|c s IH]; [reflexivity|].
  simpl. destruct (JS.isSpace c) eqn:E; [exact IH|]. simpl. now rewrite E.
Qed.

(** Leading white space is dropped before what follows it. *)
Lemma trimStart_append (a : string) (c : ascii) (b : string) :
  JS.isSpace c = false ->
  JS.trimStart (a ++ String c b) = (JS.trimStart a ++ String c b)%string.
Proof.
  intros H. induction a as [|x a IH]; simpl.
  - now rewrite H.
  - destruct (JS.isSpace x); [exact IH | reflexivity].
Qed.

Lemma trimStart_blank (a : string) (c : ascii) (b : string) :
  Blank a -> JS.isSpace c = false -> JS.trimStart (a ++ String c b) = String c b.
Proof. intros Ha Hc. rewrite trimStart_append by exact Hc. now rewrite Ha. Qed.


(** A text that [trim] leaves alone has white space at neither end. *)
Lemma trim_fixed (s : string) :
  JS.trim s = s -> JS.trimStart s = s /\ JS.trimEnd s = s.
Proof.
  unfold JS.trim. intros H.
  assert (L : String.length (JS.trimStart s) = String.length s).
  { pose proof (trimStart_length s). pose proof (trimEnd_length (JS.trimStart s)).
    rewrite H in *. lia. }
  assert (K : JS.trimStart s = s).
  { destruct s as [|c s]; [reflexivity|]. simpl in *.
    destruct (JS.isSpace c); [|reflexivity].
    pose proof (trimStart_length s). lia. }
  split; [exact K | now rewrite K in H].
Qed.


End ReplyFacts.

(* ================================================================== *)
(** * File-analysis parsing *)
(* ================================================================== *)

Section ParserFacts.

(** What [match] returns for the confidence pattern. *)
Lemma exec_confidence (s : string) :
  exec confidenceRe s = None \/
  exists g, exec confidenceRe s = Some (Some g) /\
            In (JS.toLowerCase g) ["high"; "medium"; "low"] /\
            ContainsCI s "confidence:".
Proof.
  unfold exec. destruct (searchFrom confidenceRe 0 s) as [st|] eqn:E; [right|now left].
  apply searchFrom_run in E as (pre & s' & j & -> & Hin).
  apply run_confidence in Hin as [(x & t & -> & Hx) (g & Hg & Hw)].
  exists g. rewrite Hg. split; [reflexivity|]. split; [exact Hw|].
  exists (JS.toLowerCase pre), (JS.toLowerCase t).
  now rewrite !toLowerCase_append, Hx.
Qed.

(** The parser never raises, and its three fields are the sections of the
    reply. *)
Lemma parseFileAnalysis_shape (response : string) :
  exists conf,
    parseFileAnalysis response =
      Some (mkAnalysis (listedFiles response)
                       (sectionOr "REASONING:" "RELEVANT_FILES:" response "Analysis completed")
                       conf)
    /\ In conf ["high"; "medium"; "low"]
    /\ (~ ContainsCI response "confidence:" -> conf = "medium").
Proof.
  unfold parseFileAnalysis, listedFiles, sectionOr, sectionText, reasoningRe, filesRe.
  rewrite !exec_section.
  destruct (exec_confidence response) as [->|(g & -> & Hg & Hc)].
  - exists "medium".
    destruct (textAfter "REASONING:" response), (textAfter "RELEVANT_FILES:" response);
      cbn [onGroup1]; (split; [reflexivity|]); simpl; auto.
  - exists (JS.toLowerCase g).
    destruct (textAfter "REASONING:" response), (textAfter "RELEVANT_FILES:" response);
      cbn [onGroup1]; (split; [reflexivity|]); (split; [exact Hg|]); intros H; now elim H.
Qed.

Lemma firstn_le {A : Type} (n : nat) (l : list A) : List.length (firstn n l) <= n.
Proof. rewrite length_firstn. lia. Qed.































Lemma textBefore_bound (m x y : string) :
  String.length (textBefore m (x ++ m ++ y)) <= String.length x.
Proof.
  induction x as [|c x IH].
  - rewrite (textBefore_first EmptyString m y (FirstAt_nil m)). simpl. lia.
  - change (String c x ++ m ++ y)%string with (String c (x ++ m ++ y)).
    cbn [textBefore]. destruct (prefix m (String c (x ++ m ++ y))); simpl; lia.
Qed.

Lemma append_same_length (a x m n : string) :
  (a ++ m)%string = (x ++ n)%string -> String.length a = String.length x -> a = x.
Proof.
  revert x; induction a as [|c a IH]; intros [|d x] H L; simpl in *; try lia.
  - reflexivity.
  - injection H as -> H. f_equal. apply IH; [exact H | lia].
Qed.

(** A test for [FirstAt] that computes. *)
Lemma FirstAt_check (a m : string) :
  String.eqb (textBefore m (a ++ m)) a = true -> FirstAt a m.
Proof.
  intros H x y E. apply String.eqb_eq in H. symmetry.
  assert (L1 : String.length a <= String.length x).
  { pose proof (textBefore_bound m x y) as B. rewrite <- E, H in B. exact B. }
  assert (L2 : String.length a + String.length m
               = String.length x + (String.length m + String.length y)).
  { apply (f_equal String.length) in E. now rewrite !length_append in E. }
  apply (append_same_length a x m (m ++ y) E). lia.
Qed.


(** The reply with three sections, run through the parser. *)
Example parseFileAnalysis_fullReply :
  parseFileAnalysis fullReply =
  Some (mkAnalysis (firstn 15 twentyFiles) "Core files first." "high").
Proof. vm_compute. reflexivity. Qed.

End ParserFacts.

(* ================================================================== *)
(** * Directory scanner *)
(* ================================================================== *)

Section ScannerFacts.

(** Induction over a tree, with the hypothesis for every listed entry. *)
Lemma fsnode_induction (P : fsnode -> Prop) :
  (forall bytes, P (FsFile bytes)) ->
  P FsBad ->
  P (FsDir None) ->
  (forall items, Forall (fun entry => P (snd entry)) items -> P (FsDir (Some items))) ->
  forall node, P node.
Proof.
  intros Hf Hb Hn Hd. fix IH 1. intros [bytes|[items|]|].
  - apply Hf.
  - apply Hd. induction items as [|[item node] items IHitems].
    + constructor.
    + constructor; [apply IH | exact IHitems].
  - apply Hn.
  - apply Hb.
Qed.

Lemma scanLoop_nil (rel : string) : scanLoop rel [] = [].
Proof. reflexivity. Qed.

(** One round of the loop of [scanDirectory]. *)
Lemma scanLoop_cons (rel item : string) (node : fsnode) (more : list (string * fsnode)) :
  scanLoop rel ((item, node) :: more) =
  if shouldIgnoreFile item (relativeOf rel item) then scanLoop rel more
  else match node with
       | FsBad => []
       | FsDir _ => mkFile (relativeOf rel item) item TFolder None
                      :: scanDirectory node (relativeOf rel item) ++ scanLoop rel more
       | FsFile bytes => mkFile (relativeOf rel item) item TFile (Some bytes)
                           :: scanLoop rel more
       end.
Proof. reflexivity. Qed.

(** An ignored entry is skipped before it is looked at: the scan is the
    scan of the directory without it. *)
Lemma scanLoop_ignored (rel item : string) (node : fsnode) (pre post : list (string * fsnode)) :
  shouldIgnoreFile item (relativeOf rel item) = true ->
  scanLoop rel (pre ++ (item, node) :: post) = scanLoop rel (pre ++ post).
Proof.
  intros H. induction pre as [|[i n] pre IH]; cbn [app].
  - now rewrite scanLoop_cons, H.
  - rewrite !scanLoop_cons, IH. reflexivity.
Qed.

(** A failing [stat] ends the loop over its directory. *)
Lemma scanLoop_stat_failure (rel item : string) (pre post : list (string * fsnode)) :
  shouldIgnoreFile item (relativeOf rel item) = false ->
  scanLoop rel (pre ++ (item, FsBad) :: post) = scanLoop rel pre.
Proof.
  intros H. induction pre as [|[i n] pre IH]; cbn [app].
  - now rewrite scanLoop_cons, H.
  - rewrite !scanLoop_cons, IH. reflexivity.
Qed.

(** Where every [stat] succeeds the loop is a [flat_map] over the listing. *)
Lemma scanLoop_flat_map (rel : string) (items : list (string * fsnode)) :
  statsSucceed rel items -> scanLoop rel items = flat_map (scanEntry rel) items.
Proof.
  induction items as [|[item node] items IH]; intros H; [reflexivity|].
  rewrite scanLoop_cons. cbn [flat_map scanEntry].
  rewrite IH by (intros i Hi; apply H; now right).
  destruct (shouldIgnoreFile item (relativeOf rel item)) eqn:E; [reflexivity|].
  destruct node as [bytes|listing|]; try reflexivity.
  rewrite (H item) in E by now left. discriminate.
Qed.

(** No entry of a scan is matched by the ignore policy. *)
Lemma scan_not_ignored (dir : fsnode) :
  forall rel e, In e (scanDirectory dir rel) -> shouldIgnoreFile (name e) (path e) = false.
Proof.
  induction dir as [bytes| | |items IH] using fsnode_induction; intros rel e H;
    try (now destruct H).
  change (In e (scanLoop rel items)) in H.
  induction IH as [|[item node] items Hnode _ IHitems]; [now destruct H|].
  rewrite scanLoop_cons in H.
  destruct (shouldIgnoreFile item (relativeOf rel item)) eqn:E; [now apply IHitems|].
  destruct node as [bytes|listing|].
  - destruct H as [<-|H]; [exact E | now apply IHitems].
  - destruct H as [<-|H]; [exact E|].
    apply in_app_iff in H as [H|H]; [eapply Hnode, H | now apply IHitems].
  - now destruct H.
Qed.

Lemma Contains_relativeOf (rel item w : string) :
  Contains item w -> Contains (relativeOf rel item) w.
Proof.
  intros H. destruct rel as [|c rel]; [exact H|].
  unfold relativeOf. now apply Contains_append_l, Contains_append_l.
Qed.

Lemma Contains_nonempty (s w : string) : Contains s w -> w <> EmptyString -> s <> EmptyString.
Proof.
  intros (a & b & ->) H E. destruct a; [|discriminate].
  destruct w; [now elim H | discriminate].
Qed.

Lemma looseWords_nonempty (w : string) : In w looseWords -> w <> EmptyString.
Proof.
  unfold looseWords. simpl. intros H E. subst w.
  repeat (destruct H as [H|H]; [discriminate|]). exact H.
Qed.

Lemma looseWords_patterns (w : string) : In w looseWords -> In (lit false w) ignorePatterns.
Proof.
  unfold looseWords. simpl In at 1. intros H.
  repeat (destruct H as [<-|H];
          [unfold ignorePatterns; simpl In; repeat (first [left; reflexivity | right])|]);
    now destruct H.
Qed.

(** The loose patterns match wherever their word occurs. *)
Lemma loose_word_ignored (w fileName relativePath : string) :
  In w looseWords ->
  Contains fileName w \/ Contains relativePath w ->
  shouldIgnoreFile fileName relativePath = true.
Proof.
  intros Hw H. unfold shouldIgnoreFile. apply existsb_exists.
  exists (lit false w). split; [now apply looseWords_patterns|].
  rewrite !test_lit. apply orb_true_iff.
  destruct H as [H|H]; [left|right]; now apply includes_Contains.
Qed.

(** C7.  The scan is a depth-first walk in listing order: a directory that
    is not ignored contributes its own entry, then the scan of its listing,
    then the entries of its later siblings, and a file contributes its
    entry.  An entry matched by the ignore policy contributes nothing,
    whatever lies below it, and no entry of a result is matched by the
    policy.  On the tree with [.git], [node_modules], [src/index.ts] and
    [README.md] the scan is [src], [src/index.ts], [README.md], and in any
    other listing order of the four top entries it has the same entries. *)
Theorem scan_preorder_skips_ignored :
  (forall rel item listing more,
      shouldIgnoreFile item (relativeOf rel item) = false ->
      scanLoop rel ((item, FsDir listing) :: more) =
      mkFile (relativeOf rel item) item TFolder None
        :: scanDirectory (FsDir listing) (relativeOf rel item) ++ scanLoop rel more)
  /\ (forall rel item bytes more,
         shouldIgnoreFile item (relativeOf rel item) = false ->
         scanLoop rel ((item, FsFile bytes) :: more) =
         mkFile (relativeOf rel item) item TFile (Some bytes) :: scanLoop rel more)
  /\ (forall rel item node pre post,
         shouldIgnoreFile item (relativeOf rel item) = true ->
         scanLoop rel (pre ++ (item, node) :: post) = scanLoop rel (pre ++ post))
  /\ (forall dir rel e,
         In e (scanDirectory dir rel) -> shouldIgnoreFile (name e) (path e) = false)
  /\ scanDirectory Platform.sampleTree "" = sampleScan
  /\ (forall listing,
         Permutation Platform.sampleListing listing ->
         Permutation sampleScan (scanDirectory (FsDir (Some listing)) "")).
Proof.
  repeat split.
  - intros rel item listing more H. now rewrite scanLoop_cons, H.
  - intros rel item bytes more H. now rewrite scanLoop_cons, H.
  - intros rel item node pre post H. now apply scanLoop_ignored.
  - intros dir rel e. apply scan_not_ignored.
  - intros listing HP. change (Permutation sampleScan (scanLoop "" listing)).
    rewrite scanLoop_flat_map.
    + rewrite <- HP. vm_compute. apply Permutation_refl.
    + intros item Hin. apply Permutation_sym in HP.
      apply (Permutation_in _ HP) in Hin. vm_compute in Hin.
      repeat (destruct Hin as [Hin|Hin]; [discriminate|]). now destruct Hin.
Qed.

(** The walk on the sample tree, with the top entries in another order. *)
Lemma scan_preorder_skips_ignored_witness :
  scanLoop "" [("docs", FsDir (Some [("api.md", FsFile 7)])); ("Makefile", FsFile 3)] =
    [ mkFile "docs" "docs" TFolder None; mkFile "docs/api.md" "api.md" TFile (Some 7);
      mkFile "Makefile" "Makefile" TFile (Some 3) ]
  /\ scanLoop "" ([("a.ts", FsFile 1)] ++ (".git", FsBad) :: [("b.ts", FsFile 2)]) =
     scanLoop "" ([("a.ts", FsFile 1)] ++ [("b.ts", FsFile 2)])
  /\ Permutation sampleScan
       (scanDirectory (FsDir (Some (rev Platform.sampleListing))) "").
Proof.
  destruct scan_preorder_skips_ignored as (Hdir & Hfile & Hign & _ & _ & Hperm).
  split; [|split].
  - rewrite (Hdir "" "docs" (Some [("api.md", FsFile 7)]) [("Makefile", FsFile 3)] eq_refl).
    reflexivity.
  - apply (Hign "" ".git" FsBad). reflexivity.
  - apply Hperm. apply Permutation_rev.
Defined.

(** C4, as the code has it.  The [try] of [scanDirectory] encloses the loop
    over a directory, so a [stat] that fails ends the loop over that
    directory: the entries listed before the failing one are kept, the
    failing entry and the entries listed after it are left out, and the scan
    of the parent goes on with the siblings of the directory. *)
Theorem stat_failure_ends_directory (rel item : string) (pre post : list (string * fsnode)) :
  shouldIgnoreFile item (relativeOf rel item) = false ->
  scanLoop rel (pre ++ (item, FsBad) :: post) = scanLoop rel pre
  /\ forall parent dirName siblings,
       rel = relativeOf parent dirName ->
       shouldIgnoreFile dirName rel = false ->
       scanLoop parent ((dirName, FsDir (Some (pre ++ (item, FsBad) :: post))) :: siblings) =
       mkFile rel dirName TFolder None :: scanLoop rel pre ++ scanLoop parent siblings.
Proof.
  intros H. split; [now apply scanLoop_stat_failure|].
  intros parent dirName siblings -> Hd.
  rewrite scanLoop_cons, Hd.
  change (scanDirectory (FsDir (Some (pre ++ (item, FsBad) :: post))) (relativeOf parent dirName))
    with (scanLoop (relativeOf parent dirName) (pre ++ (item, FsBad) :: post)).
  now rewrite scanLoop_stat_failure.
Qed.

Lemma stat_failure_ends_directory_witness :
  scanLoop "lib" ([("a.ts", FsFile 10)] ++ ("b.ts", FsBad) :: [("c.ts", FsFile 20)]) =
    [mkFile "lib/a.ts" "a.ts" TFile (Some 10)]
  /\ scanLoop "" [("lib", FsDir (Some brokenListing)); ("README.md", FsFile 5)] =
     [ mkFile "lib" "lib" TFolder None; mkFile "lib/a.ts" "a.ts" TFile (Some 10);
       mkFile "README.md" "README.md" TFile (Some 5) ].
Proof.
  destruct (stat_failure_ends_directory "lib" "b.ts" [("a.ts", FsFile 10)]
              [("c.ts", FsFile 20)] eq_refl) as [H1 H2].
  split.
  - rewrite H1. reflexivity.
  - unfold brokenListing.
    change [("a.ts", FsFile 10); ("b.ts", FsBad); ("c.ts", FsFile 20)]
      with ([("a.ts", FsFile 10)] ++ ("b.ts", FsBad) :: [("c.ts", FsFile 20)]).
    rewrite (H2 "" "lib" [("README.md", FsFile 5)] eq_refl eq_refl). reflexivity.
Defined.

(** C4 as stated fails: in a directory whose second entry cannot be
    [stat]ed, the third entry, which is not ignored and is a plain file, is
    missing from the result. *)
Lemma later_entries_are_lost :
  shouldIgnoreFile "b.ts" "b.ts" = false
  /\ shouldIgnoreFile "c.ts" "c.ts" = false
  /\ scanDirectory (FsDir (Some brokenListing)) "" = [mkFile "a.ts" "a.ts" TFile (Some 10)]
  /\ ~ In (mkFile "c.ts" "c.ts" TFile (Some 20)) (scanDirectory (FsDir (Some brokenListing)) "").
Proof.
  repeat split; try reflexivity.
  vm_compute. intros [H|[]]. discriminate.
Qed.

(** C10.  Each of the words out, dist, build, target, vendor, venv and
    node_modules is matched anywhere in the name or in the relative path:
    an entry whose name or path contains the word is ignored, so is every
    entry below a directory whose name contains it, the scan of a directory
    is the scan without such an entry, and no entry of a result has the word
    in its name or in its path. *)
Theorem loose_patterns_hide_entries (w : string) :
  In w looseWords ->
  (forall fileName relativePath,
      Contains fileName w \/ Contains relativePath w ->
      shouldIgnoreFile fileName relativePath = true)
  /\ (forall rel dirName child,
         Contains dirName w ->
         shouldIgnoreFile child (relativeOf (relativeOf rel dirName) child) = true)
  /\ (forall rel item node pre post,
         Contains item w ->
         scanLoop rel (pre ++ (item, node) :: post) = scanLoop rel (pre ++ post))
  /\ (forall dir rel e,
         In e (scanDirectory dir rel) -> ~ Contains (name e) w /\ ~ Contains (path e) w).
Proof.
  intros Hw. split; [|split; [|split]].
  - intros fileName relativePath. now apply loose_word_ignored.
  - intros rel dirName child H. apply (loose_word_ignored w); [exact Hw|]. right.
    pose proof (Contains_relativeOf rel dirName w H) as K.
    pose proof (Contains_nonempty _ _ K (looseWords_nonempty w Hw)) as N.
    destruct (relativeOf rel dirName) as [|c d]; [now elim N|].
    unfold relativeOf. now apply Contains_append_r.
  - intros rel item node pre post H. apply scanLoop_ignored.
    apply (loose_word_ignored w); [exact Hw|]. now left.
  - intros dir rel e Hin. apply scan_not_ignored in Hin.
    split; intros H;
      rewrite (loose_word_ignored w) in Hin; try discriminate; try exact Hw; auto.
Qed.

Lemma loose_patterns_hide_entries_witness :
  shouldIgnoreFile "layout.ts" "src/layout.ts" = true
  /\ shouldIgnoreFile "main.ts" (relativeOf (relativeOf "src" "checkout") "main.ts") = true
  /\ scanLoop "src" ([("app.ts", FsFile 1)] ++ ("checkout", FsDir (Some [("main.ts", FsFile 2)]))
                       :: [("cart.ts", FsFile 3)]) =
     scanLoop "src" ([("app.ts", FsFile 1)] ++ [("cart.ts", FsFile 3)]).
Proof.
  assert (Hw : In "out" looseWords) by (simpl; auto).
  destruct (loose_patterns_hide_entries "out" Hw) as (H1 & H2 & H3 & _).
  split; [|split].
  - apply H1. left. exists "lay", ".ts". reflexivity.
  - apply H2. exists "check", "". reflexivity.
  - apply H3. exists "check", "". reflexivity.
Defined.

(** The examples of C10, run through the ignore check and the scan. *)
Example loose_patterns_examples :
  shouldIgnoreFile "layout.ts" "layout.ts" = true
  /\ shouldIgnoreFile "distance.py" "lib/distance.py" = true
  /\ shouldIgnoreFile "main.ts" "checkout/main.ts" = true
  /\ scanDirectory (FsDir (Some [ ("layout.ts", FsFile 1); ("distance.py", FsFile 2);
                                  ("checkout", FsDir (Some [("main.ts", FsFile 3)]));
                                  ("app.ts", FsFile 4) ])) ""
     = [mkFile "app.ts" "app.ts" TFile (Some 4)].
Proof. repeat split; vm_compute; reflexivity. Qed.

End ScannerFacts.

(* ================================================================== *)
(** * Relevance filter *)
(* ================================================================== *)

Section FilterFacts.

Lemma arrayIncludes_In (xs : list string) (x : string) :
  arrayIncludes xs x = true <-> In x xs.
Proof.
  unfold arrayIncludes. rewrite existsb_exists. split.
  - intros (y & Hy & E). apply String.eqb_eq in E. now subst.
  - intros H. exists x. split; [exact H | apply String.eqb_refl].
Qed.

(** The predicate of the filter says what the specification says. *)
Lemma isRelevant_iff (file : CodebaseFile) : isRelevant file = true <-> Relevant file.
Proof.
  unfold isRelevant, Relevant, ContainsCI.
  rewrite andb_true_iff, !orb_true_iff, arrayIncludes_In, !includes_Contains,
    negb_true_iff, truthy_false, toLowerCase_empty.
  destruct (type file); simpl; intuition discriminate.
Qed.

Lemma filter_Subseq {A : Type} (f : A -> bool) (l : list A) : Subseq (filter f l) l.
Proof.
  induction l as [|x l IH]; simpl; [constructor|].
  destruct (f x); now constructor.
Qed.

(** C9.  The relevance filter keeps exactly the entries that are files and
    have an extension of the allow-list (compared in lower case), or a name
    that contains readme, config, package or makefile in any letter case, or
    no extension; it keeps them in the order of the input.  Of [a.png]
    (file), [a.ts] (file) and [notes] (folder) it keeps [a.ts]. *)
Theorem relevantFilter_exact :
  (forall files file,
      In file (relevantFilter files) <-> In file files /\ Relevant file)
  /\ (forall files, Subseq (relevantFilter files) files)
  /\ (forall files more,
         relevantFilter (files ++ more) = relevantFilter files ++ relevantFilter more)
  /\ relevantFilter [ mkFile "a.png" "a.png" TFile None; mkFile "a.ts" "a.ts" TFile None;
                      mkFile "notes" "notes" TFolder None ]
     = [mkFile "a.ts" "a.ts" TFile None].
Proof.
  split; [|split; [|split]].
  - intros files file. unfold relevantFilter. now rewrite filter_In, isRelevant_iff.
  - intros files. apply filter_Subseq.
  - intros files more. apply filter_app.
  - reflexivity.
Qed.

Lemma relevantFilter_exact_witness :
  In (mkFile "docs/README" "README" TFile (Some 9))
     (relevantFilter [ mkFile "docs" "docs" TFolder None;
                       mkFile "docs/README" "README" TFile (Some 9);
                       mkFile "docs/logo.webp" "logo.webp" TFile (Some 4) ])
  /\ ~ In (mkFile "docs/logo.webp" "logo.webp" TFile (Some 4))
          (relevantFilter [ mkFile "docs" "docs" TFolder None;
                            mkFile "docs/README" "README" TFile (Some 9);
                            mkFile "docs/logo.webp" "logo.webp" TFile (Some 4) ]).
Proof.
  destruct relevantFilter_exact as (H & _).
  split.
  - apply H. split; [simpl; auto|].
    split; [reflexivity|]. right. left. exists "", "". reflexivity.
  - intros K. apply H in K as [_ [_ K]]. unfold ContainsCI in K.
    repeat rewrite <- includes_Contains in K. vm_compute in K.
    intuition discriminate.
Defined.

(** C9 as stated fails: a file with an extension of the allow-list written
    in upper case is kept, although its extension as written is not on the
    list and is not empty, and its name contains none of the four words. *)
Lemma upper_case_extension_is_kept :
  let file := mkFile "src/A.TS" "A.TS" TFile (Some 120) in
  relevantFilter [file] = [file]
  /\ Path.extname (path file) = ".TS"
  /\ Relevant file
  /\ ~ RelevantAsWritten file.
Proof.
  intros file. split; [reflexivity|]. split; [reflexivity|]. split.
  - split; [reflexivity|]. left. vm_compute. auto.
  - intros [_ K]. unfold ContainsCI in K.
    repeat rewrite <- includes_Contains in K. vm_compute in K.
    intuition discriminate.
Qed.

End FilterFacts.

(* ================================================================== *)
(** * GitLab controller *)
(* ================================================================== *)

Section ControllerFacts.

Variable w : World.

(** [connectToGitLab] answers 200 or 400; with 400 nothing is stored and
    nothing is done. *)
Lemma connect_outcomes (cur : option Connection) (req : GitLabConnectRequest) :
  (exists body, connectToGitLab w cur req = (cur, mkResponse 400 body, []))
  \/ (exists url token body ev,
        repoUrl req = Some url /\ accessToken req = Some token /\
        JS.truthy url = true /\ JS.truthy token = true /\
        JS.truthy (JS.trim url) = true /\ isValidGitLabUrl w url = true /\
        JS.truthy (JS.trim token) = true /\ (String.length token <? 10)%nat = false /\
        connectToGitLab w cur req =
          (Some (mkConnection (JS.trim url) (JS.trim token)), mkResponse 200 body, ev)).
Proof.
  unfold connectToGitLab.
  destruct (repoUrl req) as [url|]; [|left; eexists; reflexivity].
  destruct (accessToken req) as [token|]; [|left; eexists; reflexivity].
  destruct (JS.truthy url) eqn:E1; [|left; eexists; reflexivity].
  destruct (JS.truthy token) eqn:E2; [|left; eexists; reflexivity].
  destruct (JS.truthy (JS.trim url)) eqn:E3; [|left; eexists; reflexivity].
  destruct (isValidGitLabUrl w url) eqn:E4; [|left; eexists; reflexivity].
  destruct (JS.truthy (JS.trim token)) eqn:E5; [|left; eexists; reflexivity].
  destruct (String.length token <? 10)%nat eqn:E6; [left; eexists; reflexivity|].
  right. exists url, token. eexists. eexists. repeat split; try assumption; reflexivity.
Qed.

(** C5.  A connect call whose token is shorter than ten characters is
    answered with status 400, performs no effect, and leaves the stored
    connection, or its absence, as it was. *)
Theorem connect_rejects_short_token
    (cur : option Connection) (req : GitLabConnectRequest) (token : string) :
  accessToken req = Some token ->
  String.length token < 10 ->
  stored (connectToGitLab w cur req) = cur
  /\ status (sent (connectToGitLab w cur req)) = 400
  /\ effects (connectToGitLab w cur req) = [].
Proof.
  intros Ht Hl.
  destruct (connect_outcomes cur req) as [[body ->]|H]; [now repeat split|].
  destruct H as (url & token' & body & ev & _ & Ht' & _ & _ & _ & _ & _ & Hlen & _).
  rewrite Ht in Ht'. injection Ht' as <-.
  apply Nat.ltb_ge in Hlen. lia.
Qed.

(** The answers of the two gateway handlers to an upstream error. *)
Lemma filesError_categories (e : AxiosError) (r : AxiosResponse) :
  errResponse e = Some r ->
  (upstreamStatus r = 401 ->
     filesError e = mkResponse 401 (errorBody "Authentication failed"
                       "Invalid access token or insufficient permissions"))
  /\ (upstreamStatus r = 403 ->
        filesError e = mkResponse 403 (errorBody "Access denied"
                          "Insufficient permissions to access this repository"))
  /\ (upstreamStatus r = 404 ->
        filesError e = mkResponse 404 (errorBody "Repository not found"
                          "Repository or branch not found"))
  /\ (upstreamStatus r <> 401 -> upstreamStatus r <> 403 -> upstreamStatus r <> 404 ->
      upstreamStatus r <> 0 ->
        exists message,
          filesError e = mkResponse (upstreamStatus r)
                           (errorBody "GitLab API error"
                              ("GitLab API request failed: " ++ message))
          /\ (message = errMessage e \/ upstreamMessage r = Some message)).
Proof.
  intros Hr. unfold filesError. rewrite Hr. cbn [option_map statusIs].
  split; [|split; [|split]]; try (intros ->; reflexivity).
  intros H1 H3 H4 H0.
  exists (if present (upstreamMessage r) then withDefault (upstreamMessage r) "" else errMessage e).
  split.
  - apply Nat.eqb_neq in H1, H3, H4. rewrite H1, H3, H4. unfold statusOr500.
    destruct (upstreamStatus r); [now elim H0 | reflexivity].
  - destruct (upstreamMessage r) as [m|]; simpl; [|now left].
    destruct (JS.truthy m); [now right | now left].
Qed.

(** Which message the listing passes on with another upstream status: the
    upstream's own when it gave a non-empty one, the error's otherwise. *)
Lemma filesError_message (e : AxiosError) (r : AxiosResponse) :
  errResponse e = Some r ->
  upstreamStatus r <> 401 -> upstreamStatus r <> 403 -> upstreamStatus r <> 404 ->
  upstreamStatus r <> 0 ->
  (forall m, upstreamMessage r = Some m -> m <> EmptyString ->
             filesError e = mkResponse (upstreamStatus r)
                              (errorBody "GitLab API error"
                                 ("GitLab API request failed: " ++ m)))
  /\ (upstreamMessage r = None \/ upstreamMessage r = Some EmptyString ->
      filesError e = mkResponse (upstreamStatus r)
                       (errorBody "GitLab API error"
                          ("GitLab API request failed: " ++ errMessage e))).
Proof.
  intros Hr H1 H3 H4 H0. unfold filesError. rewrite Hr. cbn [option_map statusIs].
  apply Nat.eqb_neq in H1, H3, H4. rewrite H1, H3, H4. unfold statusOr500.
  destruct (upstreamStatus r) as [|n]; [now elim H0|]. split.
  - intros m Hm Hne. rewrite Hm. cbn [present withDefault].
    apply truthy_iff in Hne. now rewrite Hne.
  - intros [Hm|Hm]; rewrite Hm; reflexivity.
Qed.

Lemma contentError_categories (e : AxiosError) (r : AxiosResponse) :
  errResponse e = Some r ->
  (upstreamStatus r = 401 ->
     contentError e = mkResponse 401 (errorBody "Authentication failed"
                         "Invalid access token or insufficient permissions"))
  /\ (upstreamStatus r = 404 ->
        contentError e = mkResponse 404 (errorBody "File not found"
                            "File not found in repository or branch"))
  /\ (upstreamStatus r <> 401 -> upstreamStatus r <> 404 -> upstreamStatus r <> 0 ->
        exists message,
          contentError e = mkResponse (upstreamStatus r)
                             (errorBody "GitLab API error"
                                ("Failed to fetch file content: " ++ message))
          /\ (message = errMessage e \/ upstreamMessage r = Some message)).
Proof.
  intros Hr. unfold contentError. rewrite Hr. cbn [option_map statusIs].
  split; [|split]; try (intros ->; reflexivity).
  intros H1 H4 H0.
  exists (if present (upstreamMessage r) then withDefault (upstreamMessage r) "" else errMessage e).
  split.
  - apply Nat.eqb_neq in H1, H4. rewrite H1, H4. unfold statusOr500.
    destruct (upstreamStatus r); [now elim H0 | reflexivity].
  - destruct (upstreamMessage r) as [m|]; simpl; [|now left].
    destruct (JS.truthy m); [now right | now left].
Qed.

(** An upstream error of the tree listing reaches the caller through
    [filesError], one of the raw-file fetch through [contentError]. *)
Lemma getRepositoryFiles_on_error (conn : Connection) (query : FilesQuery) (e : AxiosError) :
  (forall url hs, treeGet w url hs = RejectedAxios e) ->
  extractProjectIdFromUrl w (connRepoUrl conn) <> None ->
  sent (getRepositoryFiles w (Some conn) query) = filesError e.
Proof.
  intros Hup Hid. unfold getRepositoryFiles.
  destruct (extractProjectIdFromUrl w (connRepoUrl conn)); [|now elim Hid].
  now rewrite Hup.
Qed.

Lemma getRepositoryFileContent_on_error
    (conn : Connection) (req : ContentRequest) (e : AxiosError) :
  (forall url hs, rawGet w url hs = RejectedAxios e) ->
  present (p_filePath req) = true ->
  extractProjectIdFromUrl w (connRepoUrl conn) <> None ->
  sent (getRepositoryFileContent w (Some conn) req) = contentError e.
Proof.
  intros Hup Hp Hid. unfold getRepositoryFileContent. rewrite Hp. cbn [negb].
  destruct (extractProjectIdFromUrl w (connRepoUrl conn)); [|now elim Hid].
  now rewrite Hup.
Qed.

(** C6.  Once the request has passed validation, the answer to the probe
    has no bearing on what is stored or sent: with either answer the
    trimmed pair is stored and the same 200 reply is sent. *)
Theorem probe_outcome_is_not_observable
    (probe1 probe2 : string -> headers -> reply string)
    (cur : option Connection) (req : GitLabConnectRequest) :
  passesValidation w req ->
  stored (connectToGitLab (withProbe probe1 w) cur req)
    = stored (connectToGitLab (withProbe probe2 w) cur req)
  /\ sent (connectToGitLab (withProbe probe1 w) cur req)
     = sent (connectToGitLab (withProbe probe2 w) cur req)
  /\ status (sent (connectToGitLab (withProbe probe1 w) cur req)) = 200
  /\ exists url token,
       repoUrl req = Some url /\ accessToken req = Some token /\
       stored (connectToGitLab (withProbe probe1 w) cur req)
         = Some (mkConnection (JS.trim url) (JS.trim token)).
Proof.
  intros (url & token & Hu & Ht & H1 & H2 & H3 & H4 & H5 & H6).
  apply truthy_iff in H1, H2, H3, H5. apply Nat.ltb_ge in H6.
  unfold connectToGitLab. rewrite Hu, Ht, H1, H2, H3, H5, H6.
  change (isValidGitLabUrl (withProbe probe1 w) url) with (isValidGitLabUrl w url).
  change (isValidGitLabUrl (withProbe probe2 w) url) with (isValidGitLabUrl w url).
  rewrite H4. cbn [negb orb stored sent fst snd status].
  repeat split. now exists url, token.
Qed.

(** C3, as the code has it.  [connectToGitLab] answers 200 only for a URL
    that the platform parses, whose scheme is https and that has the marker
    in its host or anywhere in its text; a URL that fails to parse, has
    another scheme, or has the marker neither in its host nor in its text
    is answered with 400 and nothing is stored. *)
Theorem connect_needs_https_and_marker
    (cur : option Connection) (req : GitLabConnectRequest) :
  (status (sent (connectToGitLab w cur req)) = 200 ->
   exists url u,
     repoUrl req = Some url /\ parseURL w url = Some u /\ protocol u = "https:" /\
     (Contains (hostname u) "gitlab" \/ Contains url "gitlab"))
  /\ (forall url,
         repoUrl req = Some url ->
         (forall u, parseURL w url = Some u ->
                    protocol u <> "https:" \/
                    (~ Contains (hostname u) "gitlab" /\ ~ Contains url "gitlab")) ->
         status (sent (connectToGitLab w cur req)) = 400
         /\ stored (connectToGitLab w cur req) = cur).
Proof.
  assert (V : forall url, isValidGitLabUrl w url = true ->
              exists u, parseURL w url = Some u /\ protocol u = "https:" /\
                        (Contains (hostname u) "gitlab" \/ Contains url "gitlab")).
  { intros url H. unfold isValidGitLabUrl in H.
    destruct (parseURL w url) as [u|]; [|discriminate].
    apply andb_true_iff in H as [Hp Hm]. apply String.eqb_eq in Hp.
    apply orb_true_iff in Hm. rewrite !includes_Contains in Hm. now exists u. }
  destruct (connect_outcomes cur req) as [[body E]|H].
  - rewrite E. split; [discriminate | now intros].
  - destruct H as (url & token & body & ev & Hu & _ & _ & _ & _ & Hv & _ & _ & E).
    rewrite E. apply V in Hv as (u & Hp & Hs & Hm). split.
    + intros _. now exists url, u.
    + intros url' Hu' Hbad. rewrite Hu in Hu'. injection Hu' as <-.
      destruct (Hbad u Hp) as [K|[K1 K2]]; [now elim K | tauto].
Qed.

End ControllerFacts.

(** A token of length five against an earlier connection. *)
Lemma connect_rejects_short_token_witness :
  stored (connectToGitLab (Platform.world RejectedOther RejectedOther RejectedOther
                                          (fun _ => None))
            (Some earlier) (mkConnect (Some "https://gitlab.com/team/site") (Some "glpat")))
  = Some earlier.
Proof.
  apply (connect_rejects_short_token
           (Platform.world RejectedOther RejectedOther RejectedOther (fun _ => None))
           (Some earlier) (mkConnect (Some "https://gitlab.com/team/site") (Some "glpat"))
           "glpat" eq_refl).
  simpl. lia.
Defined.

(** A probe that succeeds against a probe that is refused. *)
Lemma probe_outcome_is_not_observable_witness :
  let w := Platform.world RejectedOther RejectedOther RejectedOther (fun _ => None) in
  let req := mkConnect (Some " https://gitlab.com/team/site ") (Some "glpat-0123456789") in
  sent (connectToGitLab (withProbe (fun _ _ => Resolved "<html>") w) None req)
  = sent (connectToGitLab (withProbe (fun _ _ => RejectedAxios forbidden) w) None req)
  /\ stored (connectToGitLab (withProbe (fun _ _ => Resolved "<html>") w) None req)
     = stored (connectToGitLab (withProbe (fun _ _ => RejectedAxios forbidden) w) None req).
Proof.
  intros w req.
  assert (V : passesValidation w req).
  { exists " https://gitlab.com/team/site ", "glpat-0123456789".
    repeat split; try discriminate; try reflexivity. simpl. lia. }
  destruct (probe_outcome_is_not_observable w (fun _ _ => Resolved "<html>")
              (fun _ _ => RejectedAxios forbidden) None req V) as (H1 & H2 & _).
  split; assumption.
Defined.

(** The probe is part of the model: its answer shows in the console. *)
Example probe_outcome_is_logged :
  let w := Platform.world RejectedOther RejectedOther RejectedOther (fun _ => None) in
  let req := mkConnect (Some "https://gitlab.com/team/site") (Some "glpat-0123456789") in
  effects (connectToGitLab (withProbe (fun _ _ => Resolved "<html>") w) None req)
  <> effects (connectToGitLab (withProbe (fun _ _ => RejectedAxios forbidden) w) None req)
  /\ In (HttpGet "https://gitlab.com/team/site" [("PRIVATE-TOKEN", "glpat-0123456789")])
        (effects (connectToGitLab w None req)).
Proof.
  split.
  - vm_compute. intros H. discriminate.
  - vm_compute. auto.
Qed.

Lemma connect_needs_https_and_marker_witness :
  let w := Platform.world RejectedOther RejectedOther RejectedOther (fun _ => None) in
  (exists url u,
      Some "https://gitlab.com/team/site" = Some url /\ parseURL w url = Some u /\
      protocol u = "https:" /\ (Contains (hostname u) "gitlab" \/ Contains url "gitlab"))
  /\ status (sent (connectToGitLab w (Some earlier)
                     (mkConnect (Some "http://gitlab.com/team/site")
                                (Some "glpat-0123456789")))) = 400.
Proof.
  intros w. split.
  - apply (connect_needs_https_and_marker w None
             (mkConnect (Some "https://gitlab.com/team/site") (Some "glpat-0123456789"))).
    reflexivity.
  - destruct (connect_needs_https_and_marker w (Some earlier)
                (mkConnect (Some "http://gitlab.com/team/site") (Some "glpat-0123456789")))
      as [_ H].
    apply (H "http://gitlab.com/team/site" eq_refl).
    intros u Hu. vm_compute in Hu. injection Hu as <-. left. discriminate.
Defined.

(** C3 as stated fails: a URL with the marker in its path only, on a host
    without the marker, is accepted and stored. *)
Lemma marker_in_path_is_accepted :
  let w := Platform.world RejectedOther RejectedOther RejectedOther (fun _ => None) in
  let url := "https://example.com/gitlab/repo" in
  (exists u, parseURL w url = Some u /\ hostname u = "example.com"
             /\ ~ Contains (hostname u) "gitlab")
  /\ status (sent (connectToGitLab w None (mkConnect (Some url) (Some "glpat-0123456789"))))
     = 200
  /\ stored (connectToGitLab w None (mkConnect (Some url) (Some "glpat-0123456789")))
     = Some (mkConnection url "glpat-0123456789").
Proof.
  intros w url. split; [|split; reflexivity].
  eexists. split; [reflexivity|]. split; [reflexivity|].
  apply includes_false. reflexivity.
Qed.

(** C2 at the failing input: the raw-file fetch answers an upstream 403
    with the generic upstream error, where the tree listing answers the same
    upstream reply with the access-denied category. *)
Theorem file_fetch_403_is_generic :
  sent (getRepositoryFileContent
          (Platform.world RejectedOther RejectedOther (RejectedAxios forbidden) (fun _ => None))
          (Some earlier) (mkContentRequest (Some "README.md") None None))
  = mkResponse 403 (errorBody "GitLab API error" "Failed to fetch file content: 403 Forbidden")
  /\ sent (getRepositoryFiles
             (Platform.world RejectedOther (RejectedAxios forbidden) RejectedOther (fun _ => None))
             (Some earlier) (mkFilesQuery None None None))
     = mkResponse 403 (errorBody "Access denied"
                                 "Insufficient permissions to access this repository").
Proof. split; reflexivity. Qed.


(* ================================================================== *)
(** * Chat handler *)
(* ================================================================== *)

Section ChatFacts.

Variable w : World.

(** Without selected files [processWithSelectedFiles] throws at once. *)
Lemma processWithSelectedFiles_no_files (request : ChatRequest) :
  selectedFiles request = None \/ selectedFiles request = Some [] ->
  processWithSelectedFiles w request =
  (Throw "Failed to process selected files", [Log "File Processing Error"]).
Proof.
  intros [H|H]; unfold processWithSelectedFiles; rewrite H; reflexivity.
Qed.

Lemma processDocumentRequest_no_files (request : ChatRequest) :
  action request = "process_with_files" ->
  selectedFiles request = None \/ selectedFiles request = Some [] ->
  processDocumentRequest w request =
  (Throw "Failed to process AI request",
   [Log "File Processing Error"; Log "AI Service Error"]).
Proof.
  intros Ha H. unfold processDocumentRequest. rewrite Ha. cbn [String.eqb Ascii.eqb].
  change ("process_with_files" =? "analyze_codebase")%string with false.
  change ("process_with_files" =? "process_with_files")%string with true.
  cbv iota. now rewrite processWithSelectedFiles_no_files.
Qed.

(** C1, as the code has it.  A process_with_files request without selected
    files is refused before any file is touched and before the model is
    called: the only effects are console lines and the stored connection is
    what it was.  The refusal is the generic 500 of the handler's [catch]
    (a request without a message is refused with 400 before that). *)
Theorem no_files_selected_fails_before_io
    (cur : option Connection) (body : ChatBody) :
  b_action body = Some "process_with_files" ->
  b_selectedFiles body = None \/ b_selectedFiles body = Some [] ->
  stored (serve w cur (PostChat body)) = cur
  /\ Forall isLog (effects (serve w cur (PostChat body)))
  /\ (present (b_message body) = true ->
      sent (serve w cur (PostChat body)) =
      mkResponse 500
        (JObj ([("success", JBool false); ("error", JStr "Failed to process AI request")]
                 ++ (if development w
                     then [("details", JStr "Failed to process AI request")] else []))))
  /\ (present (b_message body) = false ->
      status (sent (serve w cur (PostChat body))) = 400).
Proof.
  intros Ha Hs. unfold serve, chatWithAI. rewrite Ha.
  destruct (present (b_message body)) eqn:Hm; cbn [negb orb present JS.truthy withDefault].
  - change (arrayIncludes validActions "process_with_files") with true.
    change ("process_with_files" =? "analyze_codebase")%string with false.
    cbn [negb ret].
    rewrite processDocumentRequest_no_files by (try reflexivity; exact Hs).
    cbn [stored sent effects fst snd app].
    repeat split; try discriminate.
    repeat constructor.
  - cbn [stored sent effects fst snd status]. repeat split; try discriminate. constructor.
Qed.

End ChatFacts.

Lemma no_files_selected_fails_before_io_witness :
  let w := Platform.world RejectedOther RejectedOther RejectedOther (fun _ => Some "ok") in
  let body := mkChatBody (Some "Document the API") None None (Some "process_with_files") None in
  stored (serve w (Some earlier) (PostChat body)) = Some earlier
  /\ Forall isLog (effects (serve w (Some earlier) (PostChat body)))
  /\ status (sent (serve w (Some earlier) (PostChat body))) = 500.
Proof.
  intros w body.
  destruct (no_files_selected_fails_before_io w (Some earlier) body eq_refl (or_introl eq_refl))
    as (H1 & H2 & H3 & _).
  split; [exact H1|]. split; [exact H2|]. rewrite (H3 eq_refl). reflexivity.
Defined.

(** C1 as stated fails: with an empty list of selected files the reply has
    status 500, not 400. *)
Lemma no_files_selected_is_500 :
  let w := Platform.world RejectedOther RejectedOther RejectedOther (fun _ => Some "ok") in
  let body :=
    mkChatBody (Some "Document the API") None None (Some "process_with_files") (Some []) in
  status (sent (serve w None (PostChat body))) = 500
  /\ status (sent (serve w None (PostChat body))) <> 400.
Proof. split; [reflexivity | discriminate]. Qed.

(** With files selected the handler does read the disk and call the model. *)
Example selected_files_are_read :
  let w := Platform.world RejectedOther RejectedOther RejectedOther
                          (fun _ => Some "EXPLANATION: done") in
  let body := mkChatBody (Some "Document the API") None None (Some "process_with_files")
                         (Some ["src/index.ts"]) in
  status (sent (serve w None (PostChat body))) = 200
  /\ In (FsReadFile "src/index.ts") (effects (serve w None (PostChat body)))
  /\ exists prompt, In (Generate prompt) (effects (serve w None (PostChat body))).
Proof.
  split; [reflexivity|]. split.
  - vm_compute. auto.
  - eexists. vm_compute. do 3 right. left. reflexivity.
Qed.

(* ================================================================== *)
(** * Further facts: the connection and the gateway *)
(* ================================================================== *)

Section ConnectionFacts.

Lemma trimEnd_idem (s : string) : JS.trimEnd (JS.trimEnd s) = JS.trimEnd s.
Proof.
  induction s as [|c s IH]; [reflexivity|].
  cbn [JS.trimEnd]. destruct (JS.trimEnd s) as [|a t] eqn:E.
  - destruct (JS.isSpace c) eqn:Ec; [reflexivity|]. simpl. now rewrite Ec.
  - cbn [JS.trimEnd]. cbn [JS.trimEnd] in IH. now rewrite IH.
Qed.

Lemma trimEnd_keeps_head (c : ascii) (s : string) :
  JS.isSpace c = false -> exists r, JS.trimEnd (String c s) = String c r.
Proof.
  intros H. cbn [JS.trimEnd]. destruct (JS.trimEnd s) as [|a t].
  - rewrite H. now exists EmptyString.
  - now exists (String a t).
Qed.

Lemma trimStart_fixed_head (c : ascii) (s : string) :
  JS.trimStart (String c s) = String c s -> JS.isSpace c = false.
Proof.
  simpl. destruct (JS.isSpace c); [|reflexivity]. intros H.
  pose proof (trimStart_length s) as L. rewrite H in L. simpl in L. lia.
Qed.

(** [trim] leaves a trimmed text alone. *)
Lemma trim_idem (s : string) : JS.trim (JS.trim s) = JS.trim s.
Proof.
  unfold JS.trim. set (t := JS.trimStart s).
  assert (Ht : JS.trimStart t = t) by apply trimStart_idem.
  assert (K : JS.trimStart (JS.trimEnd t) = JS.trimEnd t).
  { destruct t as [|c t']; [reflexivity|].
    pose proof (trimStart_fixed_head c t' Ht) as Hc.
    destruct (trimEnd_keeps_head c t' Hc) as [r ->]. simpl. now rewrite Hc. }
  rewrite K. apply trimEnd_idem.
Qed.

Variable w : World.

(** A request that passes the three guards is stored, trimmed, and answered
    with 200, whatever was stored before. *)
Lemma connect_accepts (cur : option Connection) (req : GitLabConnectRequest) :
  passesValidation w req ->
  exists url token,
    repoUrl req = Some url /\ accessToken req = Some token /\
    JS.trim url <> EmptyString /\ JS.trim token <> EmptyString /\
    stored (connectToGitLab w cur req) = Some (mkConnection (JS.trim url) (JS.trim token)) /\
    status (sent (connectToGitLab w cur req)) = 200.
Proof.
  intros (url & token & Hu & Ht & H1 & H2 & H3 & H4 & H5 & H6).
  exists url, token. repeat (split; [assumption|]).
  apply truthy_iff in H1, H2, H3, H5. apply Nat.ltb_ge in H6.
  unfold connectToGitLab. rewrite Hu, Ht, H1, H2, H3, H4, H5, H6. split; reflexivity.
Qed.

(** X1.  After a connect that passes validation, one disconnect succeeds
    and clears the record, and a second disconnect is refused with 400. *)
Theorem connect_then_disconnect_twice (cur : option Connection) (req : GitLabConnectRequest) :
  passesValidation w req ->
  status (sent (disconnectFromGitLab w (stored (connectToGitLab w cur req)))) = 200
  /\ stored (disconnectFromGitLab w (stored (connectToGitLab w cur req))) = None
  /\ sent (disconnectFromGitLab w
             (stored (disconnectFromGitLab w (stored (connectToGitLab w cur req)))))
     = mkResponse 400 (errorBody "Not connected" "No active GitLab connection found").
Proof.
  intros V. destruct (connect_accepts cur req V) as (url & token & _ & _ & _ & _ & -> & _).
  repeat split.
Qed.

(** The two gateway handlers and the chat handler leave the record alone. *)
Lemma gateway_reads_only (cur : option Connection) (q : FilesQuery) (r : ContentRequest) :
  stored (getRepositoryFiles w cur q) = cur
  /\ stored (getRepositoryFileContent w cur r) = cur.
Proof.
  unfold getRepositoryFiles, getRepositoryFileContent.
  destruct cur as [conn|]; [|split; reflexivity].
  destruct (present (p_filePath r)); cbn [negb];
    destruct (extractProjectIdFromUrl w (connRepoUrl conn));
    try destruct (treeGet w _ _); try destruct (rawGet w _ _); split; reflexivity.
Qed.

(** X2.  The stored connection changes only through a connect that is
    answered with 200 or through a disconnect of an existing connection:
    every other request, and every refused connect, leaves it as it was. *)
Theorem connection_changes_only_by_connect_or_disconnect
    (cur : option Connection) (rq : request) :
  stored (serve w cur rq) <> cur ->
  (exists body, rq = PostConnect body /\ status (sent (serve w cur rq)) = 200)
  \/ (rq = PostDisconnect /\ cur <> None).
Proof.
  intros H. destruct rq as [|body| |q|r|body|]; cbn [serve] in *.
  - now elim H.
  - left. exists body. split; [reflexivity|].
    destruct (connect_outcomes w cur body) as [[b E]|(u & t & b & ev & _ & _ & _ & _ & _ & _ & _ & _ & E)];
      rewrite E in *; [now elim H | reflexivity].
  - right. split; [reflexivity|]. intros ->. now elim H.
  - elim H. apply gateway_reads_only; exact (mkContentRequest None None None).
  - elim H. apply (gateway_reads_only cur (mkFilesQuery None None None) r).
  - elim H. now destruct (chatWithAI w body).
  - now elim H.
Qed.

End ConnectionFacts.

Lemma connect_then_disconnect_twice_witness :
  let w := Platform.world RejectedOther RejectedOther RejectedOther (fun _ => None) in
  let req := mkConnect (Some "https://gitlab.com/team/site") (Some "glpat-0123456789") in
  status (sent (disconnectFromGitLab w (stored (connectToGitLab w (Some earlier) req)))) = 200
  /\ stored (disconnectFromGitLab w (stored (connectToGitLab w (Some earlier) req))) = None.
Proof.
  intros w req.
  assert (V : passesValidation w req).
  { exists "https://gitlab.com/team/site", "glpat-0123456789".
    repeat split; try discriminate; try reflexivity. simpl. lia. }
  destruct (connect_then_disconnect_twice w (Some earlier) req V) as (H1 & H2 & _).
  split; assumption.
Defined.

Lemma connection_changes_only_by_connect_or_disconnect_witness :
  (exists body, PostDisconnect = PostConnect body /\
                status (sent (serve (Platform.world RejectedOther RejectedOther RejectedOther
                                                    (fun _ => None))
                                    (Some earlier) PostDisconnect)) = 200)
  \/ (PostDisconnect = PostDisconnect /\ Some earlier <> None).
Proof.
  apply (connection_changes_only_by_connect_or_disconnect
           (Platform.world RejectedOther RejectedOther RejectedOther (fun _ => None))
           (Some earlier) PostDisconnect).
  discriminate.
Defined.

Section GatewayFacts.

Lemma serve_keeps_Trimmed (w : World) (cur : option Connection) (rq : request) :
  Trimmed cur -> Trimmed (stored (serve w cur rq)).
Proof.
  intros H. destruct rq as [|body| |q|r|body|]; cbn [serve]; try exact H.
  - destruct (connect_outcomes w cur body)
      as [[b E]|(u & t & b & ev & _ & _ & _ & _ & Hu & _ & Ht & _ & E)]; rewrite E.
    + exact H.
    + cbn [stored fst Trimmed connRepoUrl connAccessToken].
      rewrite !trim_idem. apply truthy_iff in Hu, Ht. auto.
  - now destruct cur.
  - now rewrite (proj1 (gateway_reads_only w cur q (mkContentRequest None None None))).
  - now rewrite (proj2 (gateway_reads_only w cur (mkFilesQuery None None None) r)).
  - now destruct (chatWithAI w body).
Qed.

(** X3.  Whatever requests a process serves, in whatever worlds, the
    connection it holds is either absent or a pair of trimmed, non-empty
    texts. *)
Theorem stored_connection_is_trimmed (session : list (World * request)) :
  Trimmed (serveAll None session).
Proof.
  assert (G : forall cur, Trimmed cur -> Trimmed (serveAll cur session)).
  { induction session as [|[w rq] session IH]; intros cur H; [exact H|].
    cbn [serveAll]. apply IH, serve_keeps_Trimmed, H. }
  apply G. exact I.
Qed.

Variable w : World.

Lemma count_app (f : event -> bool) (a b : list event) :
  count f (a ++ b) = count f a + count f b.
Proof. unfold count. now rewrite filter_app, length_app. Qed.

(** X4.  A gateway request reaches the upstream service at most once, and
    not at all without a stored connection, without a project path in the
    stored URL or, for the raw-file fetch, without a file path; in those
    cases the reply is a 400 and nothing at all is done. *)
Theorem gateway_calls_upstream_at_most_once
    (cur : option Connection) (q : FilesQuery) (r : ContentRequest) :
  count isHttpGet (effects (getRepositoryFiles w cur q)) <= 1
  /\ count isHttpGet (effects (getRepositoryFileContent w cur r)) <= 1
  /\ (cur = None ->
      getRepositoryFiles w cur q = (None, notConnected, [])
      /\ getRepositoryFileContent w cur r = (None, notConnected, []))
  /\ (forall conn,
         cur = Some conn -> extractProjectIdFromUrl w (connRepoUrl conn) = None ->
         getRepositoryFiles w cur q = (cur, noProjectId, [])
         /\ status (sent (getRepositoryFileContent w cur r)) = 400
         /\ effects (getRepositoryFileContent w cur r) = [])
  /\ (forall conn,
         cur = Some conn -> present (p_filePath r) = false ->
         getRepositoryFileContent w cur r =
         (cur, mkResponse 400 (errorBody "Missing file path" "File path parameter is required"),
          [])).
Proof.
  unfold getRepositoryFiles, getRepositoryFileContent.
  destruct cur as [conn|].
  - split; [|split; [|split; [discriminate|split]]].
    + destruct (extractProjectIdFromUrl w (connRepoUrl conn)); [|unfold count, effects; simpl; lia].
      destruct (treeGet w _ _); cbn [effects snd]; rewrite count_app; unfold count; simpl; lia.
    + destruct (present (p_filePath r)); cbn [negb]; [|unfold count, effects; simpl; lia].
      destruct (extractProjectIdFromUrl w (connRepoUrl conn)); [|unfold count, effects; simpl; lia].
      destruct (rawGet w _ _); cbn [effects snd]; rewrite count_app; unfold count; simpl; lia.
    + intros c [= <-] E. rewrite E. split; [reflexivity|].
      destruct (present (p_filePath r)); cbn [negb]; split; reflexivity.
    + intros c [= <-] E. now rewrite E.
  - split; [unfold count, effects; simpl; lia|].
    split; [unfold count, effects; simpl; lia|]. split; [now split|].
    split; intros c; discriminate.
Qed.

End GatewayFacts.

Lemma gateway_calls_upstream_at_most_once_witness :
  let w := Platform.world RejectedOther RejectedOther RejectedOther (fun _ => None) in
  let cur := Some (mkConnection "https://gitlab.com" "glpat-0123456789") in
  getRepositoryFiles w cur (mkFilesQuery None None None) = (cur, noProjectId, [])
  /\ getRepositoryFileContent w (Some earlier) (mkContentRequest (Some "") None None) =
     (Some earlier,
      mkResponse 400 (errorBody "Missing file path" "File path parameter is required"), []).
Proof.
  intros w cur. split.
  - destruct (gateway_calls_upstream_at_most_once w cur (mkFilesQuery None None None)
                (mkContentRequest None None None)) as (_ & _ & _ & H & _).
    apply (H _ eq_refl). reflexivity.
  - destruct (gateway_calls_upstream_at_most_once w (Some earlier) (mkFilesQuery None None None)
                (mkContentRequest (Some "") None None)) as (_ & _ & _ & _ & H).
    apply (H _ eq_refl). reflexivity.
Defined.

Section UpstreamFacts.

Variable w : World.

(** X5.  With a connection and a project path, the tree listing turns a
    rejected upstream call into one reply: 401, 403 and 404 become the
    authentication, access and not-found replies; any other upstream status
    is passed on with the generic upstream error and the upstream message
    when the upstream gave a non-empty one, and with the error's own message
    when the upstream gave none or an empty one; an error
    without an upstream reply, such as a timeout, becomes a 500 with the
    generic upstream error; any other exception becomes the internal 500. *)
Theorem listing_reports_upstream_errors (conn : Connection) (query : FilesQuery) :
  extractProjectIdFromUrl w (connRepoUrl conn) <> None ->
  (forall e,
      (forall url hs, treeGet w url hs = RejectedAxios e) ->
      (errResponse e = None ->
       sent (getRepositoryFiles w (Some conn) query) =
       mkResponse 500 (errorBody "GitLab API error"
                         ("GitLab API request failed: " ++ errMessage e)))
      /\ (forall r,
             errResponse e = Some r ->
             (upstreamStatus r = 401 ->
              sent (getRepositoryFiles w (Some conn) query) =
              mkResponse 401 (errorBody "Authentication failed"
                                "Invalid access token or insufficient permissions"))
             /\ (upstreamStatus r = 403 ->
                 sent (getRepositoryFiles w (Some conn) query) =
                 mkResponse 403 (errorBody "Access denied"
                                   "Insufficient permissions to access this repository"))
             /\ (upstreamStatus r = 404 ->
                 sent (getRepositoryFiles w (Some conn) query) =
                 mkResponse 404 (errorBody "Repository not found"
                                   "Repository or branch not found"))
             /\ (upstreamStatus r <> 401 -> upstreamStatus r <> 403 ->
                 upstreamStatus r <> 404 -> upstreamStatus r <> 0 ->
                 (forall m,
                     upstreamMessage r = Some m -> m <> EmptyString ->
                     sent (getRepositoryFiles w (Some conn) query) =
                     mkResponse (upstreamStatus r)
                       (errorBody "GitLab API error" ("GitLab API request failed: " ++ m)))
                 /\ (upstreamMessage r = None \/ upstreamMessage r = Some EmptyString ->
                     sent (getRepositoryFiles w (Some conn) query) =
                     mkResponse (upstreamStatus r)
                       (errorBody "GitLab API error"
                          ("GitLab API request failed: " ++ errMessage e))))))
  /\ ((forall url hs, treeGet w url hs = RejectedOther) ->
      sent (getRepositoryFiles w (Some conn) query) =
      mkResponse 500 (errorBody "Internal server error" "Failed to fetch repository files")).
Proof.
  intros Hid. split.
  - intros e Hup. rewrite (getRepositoryFiles_on_error w conn query e Hup Hid). split.
    + intros Hn. unfold filesError. rewrite Hn. reflexivity.
    + intros r Hr. destruct (filesError_categories e r Hr) as (K1 & K3 & K4 & _).
      split; [exact K1|]. split; [exact K3|]. split; [exact K4|].
      intros H1 H3 H4 H0. now apply filesError_message.
  - intros Hup. unfold getRepositoryFiles.
    destruct (extractProjectIdFromUrl w (connRepoUrl conn)); [|now elim Hid].
    now rewrite Hup.
Qed.

(** X6.  With a connection, a file path and a project path, the raw-file
    fetch turns a rejected upstream call into one reply: 401 and 404 become
    the authentication and file-not-found replies; any other upstream status
    is passed on with the generic upstream error; an error without an
    upstream reply becomes a 500 with the generic upstream error; any other
    exception becomes the internal 500. *)
Theorem fetch_reports_upstream_errors (conn : Connection) (req : ContentRequest) :
  present (p_filePath req) = true ->
  extractProjectIdFromUrl w (connRepoUrl conn) <> None ->
  (forall e,
      (forall url hs, rawGet w url hs = RejectedAxios e) ->
      (errResponse e = None ->
       sent (getRepositoryFileContent w (Some conn) req) =
       mkResponse 500 (errorBody "GitLab API error"
                         ("Failed to fetch file content: " ++ errMessage e)))
      /\ (forall r,
             errResponse e = Some r ->
             (upstreamStatus r = 401 ->
              sent (getRepositoryFileContent w (Some conn) req) =
              mkResponse 401 (errorBody "Authentication failed"
                                "Invalid access token or insufficient permissions"))
             /\ (upstreamStatus r = 404 ->
                 sent (getRepositoryFileContent w (Some conn) req) =
                 mkResponse 404 (errorBody "File not found"
                                   "File not found in repository or branch"))
             /\ (upstreamStatus r <> 401 -> upstreamStatus r <> 404 ->
                 upstreamStatus r <> 0 ->
                 exists message,
                   sent (getRepositoryFileContent w (Some conn) req) =
                   mkResponse (upstreamStatus r)
                     (errorBody "GitLab API error"
                        ("Failed to fetch file content: " ++ message))
                   /\ (message = errMessage e \/ upstreamMessage r = Some message))))
  /\ ((forall url hs, rawGet w url hs = RejectedOther) ->
      sent (getRepositoryFileContent w (Some conn) req) =
      mkResponse 500 (errorBody "Internal server error" "Failed to fetch file content")).
Proof.
  intros Hp Hid. split.
  - intros e Hup. rewrite (getRepositoryFileContent_on_error w conn req e Hup Hp Hid). split.
    + intros Hn. unfold contentError. rewrite Hn. reflexivity.
    + intros r Hr. apply contentError_categories, Hr.
  - intros Hup. unfold getRepositoryFileContent. rewrite Hp. cbn [negb].
    destruct (extractProjectIdFromUrl w (connRepoUrl conn)); [|now elim Hid].
    now rewrite Hup.
Qed.

Lemma dropGitSuffix_suffix (p : string) : dropGitSuffix (p ++ ".git") = p.
Proof.
  induction p as [|c p IH]; [reflexivity|].
  change (String c p ++ ".git")%string with (String c (p ++ ".git")).
  cbn [dropGitSuffix].
  replace (String c (p ++ ".git") =? ".git")%string with false; [now rewrite IH|].
  symmetry. apply String.eqb_neq. intros E.
  apply (f_equal String.length) in E. simpl in E. rewrite length_append in E. simpl in E. lia.
Qed.

Lemma dropGitSuffix_other (s : string) : ~ EndsWith s ".git" -> dropGitSuffix s = s.
Proof.
  induction s as [|c s IH]; intros H; [reflexivity|].
  cbn [dropGitSuffix].
  destruct (String.eqb_spec (String c s) ".git") as [E|_].
  - elim H. exists EmptyString. exact E.
  - f_equal. apply IH. intros [a ->]. apply H. now exists (String c a).
Qed.

(** X7.  The project identifier is the path of the stored URL without its
    leading slash and without one trailing [.git]; it is never empty: a URL
    that does not parse, or whose path is empty, [/] or [/.git], has no
    project identifier. *)
Theorem project_id_is_the_path (url : string) :
  (parseURL w url = None -> extractProjectIdFromUrl w url = None)
  /\ (forall id, extractProjectIdFromUrl w url = Some id -> id <> EmptyString)
  /\ (forall u,
         parseURL w url = Some u ->
         (forall p, pathname u = ("/" ++ p ++ ".git")%string -> p <> EmptyString ->
                    extractProjectIdFromUrl w url = Some p)
         /\ (forall p, pathname u = ("/" ++ p)%string -> ~ EndsWith p ".git" ->
                       p <> EmptyString -> extractProjectIdFromUrl w url = Some p)
         /\ (pathname u = "" \/ pathname u = "/" \/ pathname u = "/.git" ->
             extractProjectIdFromUrl w url = None)).
Proof.
  unfold extractProjectIdFromUrl. split; [now intros ->|]. split.
  - intros id. destruct (parseURL w url) as [u|]; [|discriminate].
    destruct (JS.truthy _) eqn:E; [|discriminate].
    intros [= <-]. now apply truthy_iff.
  - intros u ->. split; [|split].
    + intros p -> Hp. cbn [dropLeadingSlash append Ascii.eqb Bool.eqb].
      rewrite dropGitSuffix_suffix. apply truthy_iff in Hp. now rewrite Hp.
    + intros p -> He Hp. cbn [dropLeadingSlash append Ascii.eqb Bool.eqb].
      rewrite dropGitSuffix_other by exact He. apply truthy_iff in Hp. now rewrite Hp.
    + intros [->|[->| ->]]; reflexivity.
Qed.

End UpstreamFacts.

Lemma listing_reports_upstream_errors_witness :
  sent (getRepositoryFiles
          (Platform.world RejectedOther
             (RejectedAxios (mkAxiosError (Some (mkAxiosResponse 429 (Some "Too many requests")))
                                          "Request failed with status code 429"))
             RejectedOther (fun _ => None))
          (Some earlier) (mkFilesQuery None (Some "develop") None))
  = mkResponse 429 (errorBody "GitLab API error"
                      "GitLab API request failed: Too many requests").
Proof.
  set (e := mkAxiosError (Some (mkAxiosResponse 429 (Some "Too many requests")))
                         "Request failed with status code 429").
  set (w := Platform.world RejectedOther (RejectedAxios e) RejectedOther (fun _ => None)).
  assert (Hid : extractProjectIdFromUrl w (connRepoUrl earlier) <> None) by discriminate.
  destruct (listing_reports_upstream_errors w earlier (mkFilesQuery None (Some "develop") None) Hid)
    as [H _].
  destruct (H e (fun _ _ => eq_refl)) as [_ K].
  destruct (K (mkAxiosResponse 429 (Some "Too many requests")) eq_refl) as (_ & _ & _ & Kother).
  destruct Kother as [Km _]; try discriminate.
  apply (Km "Too many requests"); [reflexivity | discriminate].
Defined.

Lemma fetch_reports_upstream_errors_witness :
  sent (getRepositoryFileContent
          (Platform.world RejectedOther RejectedOther
             (RejectedAxios (mkAxiosError None "timeout of 15000ms exceeded"))
             (fun _ => None))
          (Some earlier) (mkContentRequest (Some "src/index.ts") None None))
  = mkResponse 500 (errorBody "GitLab API error"
                      "Failed to fetch file content: timeout of 15000ms exceeded").
Proof.
  set (e := mkAxiosError None "timeout of 15000ms exceeded").
  set (w := Platform.world RejectedOther RejectedOther (RejectedAxios e) (fun _ => None)).
  assert (Hid : extractProjectIdFromUrl w (connRepoUrl earlier) <> None) by discriminate.
  destruct (fetch_reports_upstream_errors w earlier
              (mkContentRequest (Some "src/index.ts") None None) eq_refl Hid) as [H _].
  destruct (H e (fun _ _ => eq_refl)) as [K _].
  apply K. reflexivity.
Defined.

Lemma project_id_is_the_path_witness :
  extractProjectIdFromUrl
    (Platform.world RejectedOther RejectedOther RejectedOther (fun _ => None))
    "https://gitlab.com/team/docs.git" = Some "team/docs"
  /\ extractProjectIdFromUrl
       (Platform.world RejectedOther RejectedOther RejectedOther (fun _ => None))
       "https://gitlab.com" = None.
Proof.
  set (w := Platform.world RejectedOther RejectedOther RejectedOther (fun _ => None)).
  split.
  - destruct (project_id_is_the_path w "https://gitlab.com/team/docs.git") as (_ & _ & H).
    destruct (H _ eq_refl) as (K & _). apply K; [reflexivity | discriminate].
  - destruct (project_id_is_the_path w "https://gitlab.com") as (_ & _ & H).
    destruct (H _ eq_refl) as (_ & _ & K). apply K. right. left. reflexivity.
Defined.

(* ================================================================== *)
(** * Further facts: the AI service *)
(* ================================================================== *)

Section FetchFacts.

Variable w : World.

(** What the body of the loop of [fetchFileContents] does for one path. *)
Lemma fetchOne_facts (filePath : string) :
  exists block ev,
    fetchOne w filePath = (Ok block, ev)
    /\ Describes w filePath block
    /\ existsProbes ev = [filePath]
    /\ (forall q, In (FsReadFile q) ev ->
                  q = filePath /\
                  exists bytes text,
                    lookupFile w filePath = Regular bytes text /\ bytes <= 1024 * 1024)
    /\ (forall q, In (FsStat q) ev -> q = filePath /\ lookupFile w filePath <> Absent)
    /\ count isGenerate ev = 0 /\ count isHttpGet ev = 0.
Proof.
  unfold fetchOne. destruct (lookupFile w filePath) as [| | |bytes text] eqn:E.
  - eexists. eexists. split; [reflexivity|]. split; [now apply Describes_absent|].
    split; [reflexivity|]. split; [|split; [|split; reflexivity]];
      intros q [H|H]; try discriminate; now destruct H.
  - eexists. eexists. split; [reflexivity|].
    split; [apply Describes_unreadable; now left|].
    split; [reflexivity|]. split; [|split; [|split; reflexivity]].
    + intros q [H|[H|[H|[]]]]; discriminate.
    + intros q [H|[H|[H|[]]]]; try discriminate. injection H as <-. split; [reflexivity | discriminate].
  - eexists. eexists. split; [reflexivity|]. split; [now apply Describes_directory|].
    split; [reflexivity|]. split; [|split; [|split; reflexivity]].
    + intros q [H|[H|[]]]; discriminate.
    + intros q [H|[H|[]]]; try discriminate. injection H as <-. split; [reflexivity | discriminate].
  - destruct (Nat.ltb_spec (1024 * 1024) bytes) as [L|L].
    + eexists. eexists. split; [reflexivity|].
      split; [apply (Describes_large w filePath bytes text); [exact E | exact L]|].
      split; [reflexivity|]. split; [|split; [|split; reflexivity]].
      * intros q [H|[H|[]]]; discriminate.
      * intros q [H|[H|[]]]; try discriminate. injection H as <-. split; [reflexivity | discriminate].
    + destruct text as [content|].
      * eexists. eexists. split; [reflexivity|].
        split; [apply (Describes_content w filePath bytes content); [exact E | exact L]|].
        split; [reflexivity|]. split; [|split; [|split; reflexivity]].
        -- intros q [H|[H|[H|[]]]]; try discriminate. injection H as <-.
           split; [reflexivity|]. exists bytes, (Some content). exact (conj eq_refl L).
        -- intros q [H|[H|[H|[]]]]; try discriminate. injection H as <-. split; [reflexivity | discriminate].
      * eexists. eexists. split; [reflexivity|].
        split; [apply Describes_unreadable; right; exists bytes; split; [exact E | exact L]|].
        split; [reflexivity|]. split; [|split; [|split; reflexivity]].
        -- intros q [H|[H|[H|[H|[]]]]]; try discriminate. injection H as <-.
           split; [reflexivity|]. exists bytes, None. exact (conj eq_refl L).
        -- intros q [H|[H|[H|[H|[]]]]]; try discriminate. injection H as <-. split; [reflexivity | discriminate].
Qed.

Lemma existsProbes_app (a b : list event) :
  existsProbes (a ++ b) = existsProbes a ++ existsProbes b.
Proof.
  induction a as [|e a IH]; [reflexivity|].
  destruct e; simpl; rewrite IH; reflexivity.
Qed.

Lemma fetchEach_facts (filePaths : list string) :
  exists blocks ev,
    fetchEach w filePaths = (Ok blocks, ev)
    /\ Forall2 (Describes w) filePaths blocks
    /\ existsProbes ev = filePaths
    /\ (forall q, In (FsReadFile q) ev ->
                  In q filePaths /\
                  exists bytes text, lookupFile w q = Regular bytes text /\ bytes <= 1024 * 1024)
    /\ (forall q, In (FsStat q) ev -> In q filePaths /\ lookupFile w q <> Absent)
    /\ count isGenerate ev = 0 /\ count isHttpGet ev = 0.
Proof.
  induction filePaths as [|p more IH].
  - exists [], []. split; [reflexivity|]. split; [constructor|]. split; [reflexivity|].
    split; [intros q []|]. split; [intros q []|]. split; reflexivity.
  - destruct (fetchOne_facts p) as (b & ev1 & E1 & D1 & P1 & R1 & S1 & G1 & H1).
    destruct IH as (bs & ev2 & E2 & D2 & P2 & R2 & S2 & G2 & H2).
    exists (b :: bs), (ev1 ++ ev2 ++ []).
    split; [cbn [fetchEach]; unfold bind at 1; rewrite E1; unfold bind, ret; now rewrite E2|].
    rewrite app_nil_r.
    split; [now constructor|].
    split; [rewrite existsProbes_app, P1, P2; reflexivity|].
    split; [|split; [|split]].
    + intros q Hq. apply in_app_iff in Hq as [Hq|Hq].
      * destruct (R1 q Hq) as [-> K]. split; [now left | exact K].
      * destruct (R2 q Hq) as [K1 K2]. split; [now right | exact K2].
    + intros q Hq. apply in_app_iff in Hq as [Hq|Hq].
      * destruct (S1 q Hq) as [-> K]. split; [now left | exact K].
      * destruct (S2 q Hq) as [K1 K2]. split; [now right | exact K2].
    + rewrite count_app, G1, G2. reflexivity.
    + rewrite count_app, H1, H2. reflexivity.
Qed.

(** X8.  [fetchFileContents] never gives up on a batch: it returns the
    blocks joined by line breaks, one block for each selected path and in
    the order of the selection, each block labelled with its path and
    holding the file's text, or a placeholder for a missing path, a
    directory, a file above 1 MiB or a file that cannot be read; and it
    probes each selected path exactly once, in order. *)
Theorem fetch_describes_every_path (filePaths : list string) :
  exists blocks ev,
    fetchFileContents w filePaths = (Ok (String.concat nl blocks), ev)
    /\ Forall2 (Describes w) filePaths blocks
    /\ existsProbes ev = filePaths.
Proof.
  destruct (fetchEach_facts filePaths) as (bs & ev & E & D & P & _).
  exists bs, (ev ++ []). unfold fetchFileContents, bind, ret. rewrite E, app_nil_r.
  repeat split; assumption.
Qed.

(** X9.  [fetchFileContents] reads the text of a path only when the path
    was selected, exists, is a regular file and has at most 1048576 bytes;
    it asks for the [stat] of selected, existing paths only. *)
Theorem fetch_reads_only_small_files (filePaths : list string) (q : string) :
  (In (FsReadFile q) (snd (fetchFileContents w filePaths)) ->
   In q filePaths /\
   exists bytes text, lookupFile w q = Regular bytes text /\ bytes <= 1024 * 1024)
  /\ (In (FsStat q) (snd (fetchFileContents w filePaths)) ->
      In q filePaths /\ lookupFile w q <> Absent).
Proof.
  destruct (fetchEach_facts filePaths) as (bs & ev & E & _ & _ & R & S & _).
  unfold fetchFileContents, bind, ret. rewrite E. cbn [snd]. rewrite app_nil_r.
  split; [apply R | apply S].
Qed.

End FetchFacts.

Lemma fetch_reads_only_small_files_witness :
  In "src/index.ts" ["nope"; "src"; "src/index.ts"]
  /\ exists bytes text,
       lookupFile (Platform.world RejectedOther RejectedOther RejectedOther (fun _ => None))
                  "src/index.ts" = Regular bytes text
       /\ bytes <= 1024 * 1024.
Proof.
  apply (fetch_reads_only_small_files
           (Platform.world RejectedOther RejectedOther RejectedOther (fun _ => None))
           ["nope"; "src"; "src/index.ts"] "src/index.ts").
  vm_compute. do 5 right. left. reflexivity.
Defined.

(** A batch with a missing path and a directory, run. *)
Example fetch_batch_example :
  fst (fetchFileContents
         (Platform.world RejectedOther RejectedOther RejectedOther (fun _ => None))
         ["nope"; "src"])
  = Ok (nl ++ "FILE: nope" ++ nl ++ "[Error: File not found]" ++ nl ++ nl
           ++ nl ++ "FILE: src" ++ nl ++ "[Directory - skipped]" ++ nl)%string.
Proof. vm_compute. reflexivity. Qed.


Section ReplyParserFacts.

(** What an iteration over a character class leaves: the capture, and a
    rest that is the input after some of its leading characters. *)
Lemma star_cls_facts (g : bool) (f : ascii -> bool) (fuel : nat) (st st' : mstate) :
  In st' (star g (run (Cls f)) fuel st) ->
  cap st' = cap st /\ exists x, rest st = (x ++ rest st')%string.
Proof.
  revert st; induction fuel as [|n IH]; intros st H.
  - destruct H as [<-|[]]. split; [reflexivity | now exists EmptyString].
  - rewrite star_step in H. cbv zeta in H.
    assert (K : In st' (flat_map (fun s1 => if (pos st <? pos s1)%nat
                                            then star g (run (Cls f)) n s1 else [])
                                 (run (Cls f) st)) ->
                cap st' = cap st /\ exists x, rest st = (x ++ rest st')%string).
    { intros Hin. apply in_flat_map in Hin as (s1 & H1 & H2).
      destruct st as [p s c]. destruct s as [|a s]; [destruct H1|].
      rewrite run_cls in H1. destruct (f a); [|destruct H1].
      destruct H1 as [<-|[]]. cbn [pos] in H2.
      destruct (p <? S p)%nat; [|destruct H2].
      apply IH in H2 as [Hc [x Hx]]. cbn [cap rest] in *. split; [exact Hc|].
      exists (String a x). now rewrite Hx. }
    destruct g.
    + apply in_app_iff in H as [H|[<-|[]]]; [now apply K|].
      split; [reflexivity | now exists EmptyString].
    + destruct H as [<-|H]; [|now apply K].
      split; [reflexivity | now exists EmptyString].
Qed.

(** Every match of the content pattern starts at [CONTENT:], is followed
    by the opening fence, and sets group 1. *)
Lemma run_content (p : nat) (s : string) (st : mstate) :
  In st (run contentRe (MState p s None)) ->
  (exists t, s = ("CONTENT:" ++ t)%string /\ Contains t "```markdown")
  /\ exists g, cap st = Some g.
Proof.
  unfold contentRe. rewrite run_seq, run_lit, stripWord_exact.
  destruct (prefix "CONTENT:" s) eqn:E; [|intros []].
  apply prefix_split in E as [t ->].
  rewrite substring_skip by (rewrite length_append; lia).
  cbn [flat_map]. rewrite app_nil_r, run_seq. intros H.
  apply in_flat_map in H as (s2 & H2 & H).
  rewrite run_star in H2. apply star_cls_facts in H2 as [_ [x2 Hx2]]. cbn [rest] in Hx2.
  rewrite run_seq in H. apply in_flat_map in H as (s3 & H3 & H).
  destruct s2 as [p2 r2 c2]. rewrite run_lit, stripWord_exact in H3. cbn [rest] in Hx2.
  destruct (prefix "```markdown" r2) eqn:E2; [|destruct H3].
  apply prefix_split in E2 as [t2 ->]. split.
  - exists t. split; [reflexivity|]. exists x2, t2. exact Hx2.
  - destruct H3 as [<-|[]].
    rewrite run_seq in H. apply in_flat_map in H as (s4 & _ & H).
    rewrite run_seq in H. apply in_flat_map in H as (s5 & H5 & H).
    rewrite run_grp in H5. apply in_map_iff in H5 as (s5' & <- & _).
    rewrite run_seq in H. apply in_flat_map in H as (s6 & H6 & H).
    rewrite run_star in H6. apply star_cls_facts in H6 as [Hc6 _]. cbn [cap] in Hc6.
    destruct s6 as [p6 r6 c6]. rewrite run_lit in H. cbn [cap] in Hc6.
    destruct (stripWord false "```" r6); [|destruct H].
    destruct H as [<-|[]]. cbn [cap]. rewrite Hc6. eexists. reflexivity.
Qed.

Lemma exec_content (text : string) :
  exec contentRe text = None \/
  exists g, exec contentRe text = Some (Some g)
            /\ Contains text "CONTENT:" /\ Contains text "```markdown".
Proof.
  unfold exec. destruct (searchFrom contentRe 0 text) as [st|] eqn:E; [right|now left].
  apply searchFrom_run in E as (pre & s' & j & -> & Hin).
  apply run_content in Hin as [(t & -> & Hf) (g & Hg)].
  exists g. rewrite Hg. split; [reflexivity|]. split.
  - now exists pre, t.
  - apply Contains_append_l, Contains_append_l. exact Hf.
Qed.

(** X10.  [parseAIResponse] returns for every text and action (it never
    raises).  For chat the text is the explanation as it is and there is no
    content.  For the other actions the explanation is the trimmed text
    between [EXPLANATION:] and [CONTENT:] (or the end), and the whole text
    when [EXPLANATION:] is absent; there is no content when the text has no
    [CONTENT:] marker or no opening markdown fence. *)
Theorem parseAIResponse_total (text action : string) :
  exists parsed,
    parseAIResponse text action = Some parsed
    /\ (action = "chat" -> parsed = mkParsed text None)
    /\ (action <> "chat" ->
        explanation parsed = sectionOr "EXPLANATION:" "CONTENT:" text text
        /\ (~ Contains text "EXPLANATION:" -> explanation parsed = text)
        /\ (~ Contains text "CONTENT:" \/ ~ Contains text "```markdown" ->
            content parsed = None)).
Proof.
  unfold parseAIResponse. destruct (String.eqb_spec action "chat") as [->|Hn].
  - eexists. split; [reflexivity|]. split; [reflexivity | intros H; now elim H].
  - unfold explanationRe. rewrite exec_section.
    unfold sectionOr, sectionText.
    destruct (textAfter "EXPLANATION:" text) as [t|] eqn:Et; cbn [onGroup1].
    + assert (Hex : ~ ~ Contains text "EXPLANATION:")
        by (intros H; apply textAfter_absent in H; congruence).
      destruct (exec_content text) as [->|(g & -> & Hc & Hf)].
      * eexists. split; [reflexivity|]. split; [intros H; now elim Hn|]. intros _.
        cbn [explanation content]. split; [reflexivity|]. split; [|reflexivity].
        intros H. now elim Hex.
      * eexists. split; [reflexivity|]. split; [intros H; now elim Hn|]. intros _.
        cbn [explanation content]. split; [reflexivity|]. split.
        -- intros H. now elim Hex.
        -- intros [H|H]; now elim H.
    + destruct (exec_content text) as [->|(g & -> & Hc & Hf)].
      * eexists. split; [reflexivity|]. split; [intros H; now elim Hn|]. intros _.
        cbn [explanation content]. repeat split.
      * eexists. split; [reflexivity|]. split; [intros H; now elim Hn|]. intros _.
        cbn [explanation content]. split; [reflexivity|]. split; [reflexivity|].
        intros [H|H]; now elim H.
Qed.

End ReplyParserFacts.

Lemma parseAIResponse_total_witness :
  exists parsed,
    parseAIResponse "I would add a Setup section." "chat" = Some parsed
    /\ parsed = mkParsed "I would add a Setup section." None.
Proof.
  destruct (parseAIResponse_total "I would add a Setup section." "chat") as (p & E & H & _).
  exists p. split; [exact E | apply H; reflexivity].
Defined.

Section FenceFacts.

(** White space and then the closing fence: there is a match exactly where
    the input without its leading white space starts with the fence. *)
Lemma run_closing (p : nat) (s : string) (c : option string) :
  if prefix "```" (JS.trimStart s)
  then exists st tl,
         run (Seq (Star true ws) (lit false "```")) (MState p s c) = st :: tl /\ cap st = c
  else run (Seq (Star true ws) (lit false "```")) (MState p s c) = [].
Proof.
  rewrite run_seq, run_star. cbn [rest].
  destruct (prefix "```" (JS.trimStart s)) eqn:E.
  - destruct (star_ws_head (S (String.length s)) s p c) as (p' & tl & ->); [lia|].
    cbn [flat_map]. rewrite run_lit, stripWord_exact, E.
    eexists. eexists. split; reflexivity.
  - apply flat_map_nil. intros st' H. destruct st' as [p' r' c'].
    apply star_ws_rest in H. cbn [rest] in H. rewrite run_lit, stripWord_exact.
    destruct H as [->|(a & r & -> & Ha)]; [now rewrite E|].
    destruct (prefix "```" (String a r)) eqn:P; [|reflexivity].
    apply prefix_split in P as [t P]. injection P as -> _. discriminate.
Qed.

Lemma beforeFence_eq (s : string) :
  beforeFence s =
  if prefix "```" (JS.trimStart s) then Some EmptyString
  else match s with
       | EmptyString => None
       | String a s' => option_map (String a) (beforeFence s')
       end.
Proof. destruct s; reflexivity. Qed.

(** The lazy group followed by white space and the closing fence stops at
    the first place from which they follow. *)
Lemma capture_fence (pre s g : string) (p0 : nat) (c : option string) :
  beforeFence s = Some g ->
  exists st tl,
    flat_map (run (Seq (Star true ws) (lit false "```")))
      (map (fun st' => MState (pos st') (rest st')
                         (Some (substring 0 (pos st' - p0) (pre ++ s))))
           (suffixStates (p0 + String.length pre) s c))
    = st :: tl /\ cap st = Some (pre ++ g)%string.
Proof.
  revert pre g; induction s as [|a s IH]; intros pre g H; rewrite beforeFence_eq in H.
  - simpl in H. discriminate.
  - cbn [suffixStates map flat_map pos rest].
    pose proof (run_closing (p0 + String.length pre) (String a s)
                  (Some (substring 0 (p0 + String.length pre - p0) (pre ++ String a s)))) as R.
    destruct (prefix "```" (JS.trimStart (String a s))).
    + injection H as <-. destruct R as (st & tl & -> & Hc).
      eexists. eexists. split; [reflexivity|]. rewrite Hc.
      replace (p0 + String.length pre - p0) with (String.length pre) by lia.
      now rewrite substring_take, append_nil_r.
    + rewrite R. cbn [app].
      destruct (beforeFence s) as [g'|] eqn:Eg; [|discriminate]. injection H as <-.
      destruct (IH (pre ++ String a EmptyString)%string g' eq_refl) as (st & tl & H1 & H2).
      rewrite length_append in H1. simpl in H1.
      replace (p0 + (String.length pre + 1)) with (S (p0 + String.length pre)) in H1 by lia.
      rewrite append_assoc in H1. simpl in H1.
      exists st, tl. split; [exact H1|]. rewrite H2, append_assoc. reflexivity.
Qed.

(** The search skips what precedes the leftmost marker. *)
Lemma searchFrom_first (m : string) (r : regex) (pre t : string) (i : nat) :
  FirstAt pre m ->
  searchFrom (Seq (lit false m) r) i (pre ++ m ++ t) =
  searchFrom (Seq (lit false m) r) (i + String.length pre) (m ++ t).
Proof.
  revert i; induction pre as [|c pre IH]; intros i H.
  - simpl. now rewrite Nat.add_0_r.
  - change (String c pre ++ m ++ t)%string with (String c (pre ++ m ++ t)).
    cbn [searchFrom].
    change (String c (pre ++ m ++ t)) with (String c pre ++ m ++ t)%string.
    rewrite run_seq, run_lit, stripWord_exact, (FirstAt_no_early _ _ _ _ H).
    cbn [flat_map]. rewrite IH by (eapply FirstAt_tail, H).
    simpl String.length. now rewrite Nat.add_succ_r.
Qed.

Lemma searchFrom_head (r : regex) (i : nat) (s : string) (st : mstate) (tl : list mstate) :
  run r (MState i s None) = st :: tl -> searchFrom r i s = Some st.
Proof. intros H. destruct s; cbn [searchFrom]; now rewrite H. Qed.

(** The content pattern run where its marker starts: after the opening
    fence, the capture is the text before the closing fence. *)
Lemma run_content_at (ws1 v g : string) (i : nat) :
  Blank ws1 ->
  beforeFence (JS.trimStart v) = Some g ->
  exists st tl,
    run contentRe (MState i ("CONTENT:" ++ ws1 ++ "```markdown" ++ v) None) = st :: tl
    /\ cap st = Some g.
Proof.
  intros Hb Hg. unfold contentRe.
  rewrite run_seq, run_lit, stripWord_append. cbn [flat_map]. rewrite app_nil_r.
  rewrite run_seq, run_star. cbn [rest].
  destruct (star_ws_head (S (String.length (ws1 ++ "```markdown" ++ v)))
              (ws1 ++ "```markdown" ++ v) (i + String.length "CONTENT:") None)
    as (p1 & tl1 & ->); [lia|].
  change ("```markdown" ++ v)%string with (String "`" ("``markdown" ++ v)).
  rewrite trimStart_blank by (exact Hb || reflexivity).
  change (String "`" ("``markdown" ++ v)) with ("```markdown" ++ v)%string.
  cbn [flat_map].
  rewrite run_seq, run_lit, stripWord_append. cbn [flat_map]. rewrite app_nil_r.
  rewrite run_seq, run_star. cbn [rest].
  destruct (star_ws_head (S (String.length v)) v (p1 + String.length "```markdown") None)
    as (p2 & tl2 & ->); [lia|].
  cbn [flat_map].
  rewrite run_seq, run_grp, run_star. cbn [rest]. rewrite star_any_lazy by lia.
  unfold consumed. cbn [pos rest].
  destruct (capture_fence EmptyString (JS.trimStart v) g p2 None Hg) as (st & tl & H1 & H2).
  simpl String.length in H1. rewrite Nat.add_0_r in H1.
  change (EmptyString ++ JS.trimStart v)%string with (JS.trimStart v) in H1.
  rewrite H1. exists st. eexists. split; [reflexivity | exact H2].
Qed.

Lemma Blank_cons (c : ascii) (s : string) :
  Blank (String c s) -> JS.isSpace c = true /\ Blank s.
Proof. unfold Blank. simpl. destruct (JS.isSpace c); [now split | discriminate]. Qed.

Lemma Blank_append (a b : string) : Blank a -> Blank b -> Blank (a ++ b).
Proof.
  intros Ha Hb. induction a as [|c a IH]; [exact Hb|].
  apply Blank_cons in Ha as [Hc Ha]. unfold Blank in *. simpl. rewrite Hc. now apply IH.
Qed.

Lemma Blank_trimEnd (b : string) : Blank b -> JS.trimEnd b = EmptyString.
Proof.
  induction b as [|c b IH]; intros H; [reflexivity|].
  apply Blank_cons in H as [Hc Hb]. simpl. now rewrite (IH Hb), Hc.
Qed.

Lemma trimEnd_blank_tail (a b : string) : Blank b -> JS.trimEnd (a ++ b) = JS.trimEnd a.
Proof.
  intros H. induction a as [|x a IH]; [simpl; now apply Blank_trimEnd|].
  simpl. now rewrite IH.
Qed.

Lemma trimStart_nonblank (a r : string) :
  JS.trimStart a <> EmptyString -> JS.trimStart (a ++ r) = (JS.trimStart a ++ r)%string.
Proof.
  induction a as [|c a IH]; intros H; [now elim H|].
  simpl in *. destruct (JS.isSpace c); [now apply IH | reflexivity].
Qed.

(** A non-empty end of a trimmed text is not white space only. *)
Lemma trimmed_tail_nonblank (b1 b2 : string) :
  JS.trim (b1 ++ b2) = (b1 ++ b2)%string -> b2 <> EmptyString ->
  JS.trimStart b2 <> EmptyString.
Proof.
  intros Ht Hn Hb. apply trim_fixed in Ht as [_ Ht].
  rewrite trimEnd_blank_tail in Ht by exact Hb.
  pose proof (trimEnd_length b1) as L. rewrite Ht, length_append in L.
  destruct b2; [now elim Hn | simpl in L; lia].
Qed.

Lemma beforeFence_stop (b rest' : string) :
  prefix "```" (JS.trimStart rest') = true ->
  (forall b1 b2, b = (b1 ++ b2)%string -> b2 <> EmptyString ->
                 prefix "```" (JS.trimStart (b2 ++ rest')) = false) ->
  beforeFence (b ++ rest') = Some b.
Proof.
  intros Hr. induction b as [|a b IH]; intros H.
  - change (EmptyString ++ rest')%string with rest'. now rewrite beforeFence_eq, Hr.
  - rewrite beforeFence_eq, (H EmptyString (String a b) eq_refl) by discriminate.
    cbn [append]. rewrite IH; [reflexivity|].
    intros b1 b2 -> Hn. now apply (H (String a b1) b2).
Qed.

(** A trimmed body that has the closing fence nowhere before its end is
    what precedes the fence. *)
Lemma beforeFence_body (body ws3 post : string) :
  Blank ws3 -> JS.trim body = body -> FirstAt (body ++ ws3) "```" ->
  beforeFence (body ++ ws3 ++ "```" ++ post) = Some body.
Proof.
  intros Hb Ht Hf. apply beforeFence_stop.
  - change ("```" ++ post)%string with (String "`" ("``" ++ post)).
    rewrite trimStart_blank by (exact Hb || reflexivity).
    change (String "`" ("``" ++ post)) with ("```" ++ post)%string. apply prefix_append.
  - intros b1 b2 -> Hn.
    pose proof (trimmed_tail_nonblank b1 b2 Ht Hn) as Hnb.
    destruct (prefix "```" (JS.trimStart (b2 ++ ws3 ++ "```" ++ post))) eqn:P; [|reflexivity].
    rewrite trimStart_nonblank in P by exact Hnb.
    destruct (trimStart_split b2) as [sp Hsp].
    replace (JS.trimStart b2 ++ ws3 ++ "```" ++ post)%string
      with ((JS.trimStart b2 ++ ws3 ++ "```") ++ post)%string in P
      by (now rewrite !append_assoc).
    apply prefix_shorten in P as [y Hy]; [|rewrite !length_append; simpl; lia].
    assert (E : (((b1 ++ b2) ++ ws3) ++ "```")%string = ((b1 ++ sp) ++ "```" ++ y)%string).
    { rewrite <- Hy. rewrite Hsp at 1. now rewrite !append_assoc. }
    apply Hf in E. apply (f_equal String.length) in E.
    pose proof (f_equal String.length Hsp) as L2.
    repeat rewrite length_append in E. rewrite length_append in L2.
    destruct (JS.trimStart b2); [now elim Hnb | simpl in L2; lia].
Qed.

(** X11.  A reply whose leftmost [CONTENT:] marker is followed, across
    white space, by a markdown fence gives the fenced text as content: the
    trimmed body between the opening fence and the first closing fence. *)
Theorem fenced_content_is_extracted
    (pre ws1 ws2 body ws3 post action : string) :
  action <> "chat" ->
  FirstAt pre "CONTENT:" ->
  Blank ws1 -> Blank ws2 -> Blank ws3 ->
  JS.trim body = body ->
  FirstAt (body ++ ws3) "```" ->
  exists parsed,
    parseAIResponse
      (pre ++ "CONTENT:" ++ ws1 ++ "```markdown" ++ ws2 ++ body ++ ws3 ++ "```" ++ post)
      action = Some parsed
    /\ content parsed = Some body.
Proof.
  intros Ha Hpre H1 H2 H3 Ht Hf. unfold parseAIResponse.
  destruct (String.eqb_spec action "chat") as [E|_]; [now elim Ha|].
  set (text := (pre ++ "CONTENT:" ++ ws1 ++ "```markdown" ++ ws2 ++ body ++ ws3
                    ++ "```" ++ post)%string).
  assert (G : exists g, exec contentRe text = Some (Some g) /\ JS.trim g = body).
  { assert (B : exists g, beforeFence (JS.trimStart (ws2 ++ body ++ ws3 ++ "```" ++ post))
                          = Some g /\ JS.trim g = body).
    { destruct body as [|c b].
      - exists EmptyString. split; [|reflexivity].
        change (EmptyString ++ ws3 ++ "```" ++ post)%string with (ws3 ++ "```" ++ post)%string.
        change ("```" ++ post)%string with (String "`" ("``" ++ post)).
        rewrite <- append_assoc.
        rewrite trimStart_blank by (now apply Blank_append || reflexivity).
        rewrite beforeFence_eq.
        change (JS.trimStart (String "`" ("``" ++ post))) with ("```" ++ post)%string.
        now rewrite prefix_append.
      - exists (String c b). split; [|exact Ht].
        pose proof (proj1 (trim_fixed _ Ht)) as Hs. apply trimStart_fixed_head in Hs.
        change (String c b ++ ws3 ++ "```" ++ post)%string
          with (String c (b ++ ws3 ++ "```" ++ post)).
        rewrite trimStart_blank by assumption.
        change (String c (b ++ ws3 ++ "```" ++ post))
          with (String c b ++ ws3 ++ "```" ++ post)%string.
        now apply beforeFence_body. }
    destruct B as (g & Hg & Htg). exists g. split; [|exact Htg].
    unfold exec, text. unfold contentRe at 1. rewrite searchFrom_first by exact Hpre.
    destruct (run_content_at ws1 (ws2 ++ body ++ ws3 ++ "```" ++ post) g
                (0 + String.length pre) H1 Hg) as (st & tl & Hr & Hc).
    fold contentRe. now rewrite (searchFrom_head _ _ _ _ _ Hr), Hc. }
  destruct G as (g & -> & Hg).
  unfold explanationRe. rewrite exec_section.
  destruct (textAfter "EXPLANATION:" text); cbn [onGroup1];
    eexists; (split; [reflexivity|]); cbn [content]; now rewrite Hg.
Qed.

End FenceFacts.

(** The reply of the specification's example, through the theorem. *)
Lemma fenced_content_is_extracted_witness :
  exists parsed,
    parseAIResponse
      ("EXPLANATION:" ++ nl ++ "Did X" ++ nl ++ nl ++ "CONTENT:" ++ nl ++ "```markdown"
         ++ nl ++ "# Title" ++ nl ++ "```" ++ "")%string "edit" = Some parsed
    /\ content parsed = Some "# Title".
Proof.
  apply (fenced_content_is_extracted
           ("EXPLANATION:" ++ nl ++ "Did X" ++ nl ++ nl)%string nl nl "# Title" nl "" "edit").
  - discriminate.
  - apply FirstAt_check. reflexivity.
  - reflexivity.
  - reflexivity.
  - reflexivity.
  - reflexivity.
  - apply FirstAt_check. reflexivity.
Defined.

Example parseAIResponse_example :
  parseAIResponse
    ("EXPLANATION:" ++ nl ++ "Did X" ++ nl ++ nl ++ "CONTENT:" ++ nl ++ "```markdown"
       ++ nl ++ "# Title" ++ nl ++ "```")%string "edit"
  = Some (mkParsed "Did X" (Some "# Title")).
Proof. vm_compute. reflexivity. Qed.


(* ================================================================== *)
(** * Further facts: the chat handler *)
(* ================================================================== *)

Ltac tally := unfold count; cbn [filter isGenerate isHttpGet isFs List.length app].

Ltac close_facts :=
  split; [lia|]; split; [lia|];
  split; [first [intros [? ?]; discriminate | intros _; lia]|];
  split; [first [intros _; lia | intros ?H; now elim H]|];
  now intros ? [= <-].

Section ServiceFacts.

Variable w : World.

Lemma parseAIResponse_some (text action : string) :
  exists parsed, parseAIResponse text action = Some parsed.
Proof.
  unfold parseAIResponse. destruct (action =? "chat")%string; [eexists; reflexivity|].
  unfold explanationRe. rewrite exec_section.
  destruct (exec_content text) as [->|(g & -> & _)];
    destruct (textAfter "EXPLANATION:" text); cbn [onGroup1]; eexists; reflexivity.
Qed.

(** [analyzeCodebaseForTask]: one call of the model, and a result whenever
    the model answers. *)
Lemma analyze_outcome (request : ChatRequest) :
  match generateContent w (analyzePrompt request (listFiles (codebaseFiles request))) with
  | Some reply =>
      exists fa,
        parseFileAnalysis reply = Some fa /\
        relevantFiles fa = listedFiles reply /\
        analyzeCodebaseForTask w request =
        (Ok (mkChatResponse
               ("I've analyzed your codebase and identified "
                  ++ natToString (List.length (relevantFiles fa))
                  ++ " files that would be most helpful for creating comprehensive technical documentation. Please review my suggestions below.")
               None "analyze_codebase" (Some fa) (Some true)),
         [Generate (analyzePrompt request (listFiles (codebaseFiles request)))])
  | None =>
      analyzeCodebaseForTask w request =
      (Throw "Failed to analyze codebase",
       [Generate (analyzePrompt request (listFiles (codebaseFiles request)));
        Log "Codebase Analysis Error"])
  end.
Proof.
  unfold analyzeCodebaseForTask, generate.
  destruct (generateContent w _) as [reply|]; [|reflexivity].
  destruct (parseFileAnalysis_shape reply) as (conf & E & _).
  eexists. split; [exact E|]. split; [reflexivity|].
  unfold bind, emit, ret, tryCatch, orTypeError. rewrite E. reflexivity.
Qed.

(** [processWithSelectedFiles] with a non-empty selection: the files are
    fetched, then the model is called once. *)
Lemma files_outcome (request : ChatRequest) (first : string) (more : list string) :
  selectedFiles request = Some (first :: more) ->
  exists fileContents ev r logs,
    fetchFileContents w (first :: more) = (Ok fileContents, ev)
    /\ processWithSelectedFiles w request =
       (r, ev ++ Generate (filesPrompt request fileContents) :: logs)
    /\ Forall isLog logs
    /\ (forall e, r = Throw e -> e = "Failed to process selected files")
    /\ ((exists res, r = Ok res) <->
        generateContent w (filesPrompt request fileContents) <> None)
    /\ count isGenerate ev = 0 /\ count isHttpGet ev = 0.
Proof.
  intros Hs.
  destruct (fetchEach_facts w (first :: more)) as (bs & ev & E & _ & _ & _ & _ & Cg & Ch).
  assert (F : fetchFileContents w (first :: more) = (Ok (String.concat nl bs), ev ++ [])).
  { unfold fetchFileContents, bind, ret. now rewrite E. }
  rewrite app_nil_r in F.
  exists (String.concat nl bs), ev.
  unfold processWithSelectedFiles. rewrite Hs, F.
  unfold generate, bind, emit, ret, tryCatch, orTypeError, throw. cbv beta iota zeta.
  destruct (generateContent w (filesPrompt request (String.concat nl bs))) as [reply|].
  - destruct (parseAIResponse_some reply "edit") as [parsed P]. rewrite P.
    eexists. exists []. split; [reflexivity|].
    cbn [app]. rewrite ?app_nil_r.
    split; [reflexivity|]. split; [constructor|]. split; [discriminate|].
    split; [split; [discriminate | intros _; eexists; reflexivity]|]. now split.
  - eexists. exists [Log "File Processing Error"]. split; [reflexivity|].
    cbn [app]. rewrite ?app_nil_r, <- ?app_assoc. cbn [app].
    split; [reflexivity|]. split; [repeat constructor|].
    split; [now intros e [= <-]|].
    split; [split; [intros [res H]; discriminate | intros H; now elim H]|]. now split.
Qed.

Lemma count_logs (f : event -> bool) (logs : list event) :
  (forall line, f (Log line) = false) -> Forall isLog logs -> count f logs = 0.
Proof.
  intros Hf H. induction H as [|e logs He _ IH]; [reflexivity|].
  destruct e; try now destruct He. unfold count in *. simpl. now rewrite Hf.
Qed.

(** What [processDocumentRequest] does, whatever the request. *)
Lemma processDocumentRequest_facts (request : ChatRequest) :
  exists r t,
    processDocumentRequest w request = (r, t)
    /\ count isGenerate t <= 1
    /\ count isHttpGet t = 0
    /\ ((exists res, r = Ok res) -> count isGenerate t = 1)
    /\ (action request <> "process_with_files" -> count isFs t = 0)
    /\ (forall e, r = Throw e -> e = "Failed to process AI request").
Proof.
  unfold processDocumentRequest.
  destruct (String.eqb_spec (action request) "analyze_codebase") as [Ea|Na].
  - pose proof (analyze_outcome request) as A.
    destruct (generateContent w _) as [reply|].
    + destruct A as (fa & _ & _ & ->). eexists. eexists. split; [reflexivity|].
      tally. close_facts.
    + rewrite A. eexists. eexists. split; [reflexivity|]. tally. close_facts.
  - destruct (String.eqb_spec (action request) "process_with_files") as [Ep|Np].
    + destruct (selectedFiles request) as [[|first more]|] eqn:Es.
      * rewrite processWithSelectedFiles_no_files by (now right).
        eexists. eexists. split; [reflexivity|]. tally. close_facts.
      * destruct (files_outcome request first more Es)
          as (fc & ev & r & logs & _ & -> & Hl & Ht & Hok & Cg & Ch).
        assert (Gl : count isGenerate (Generate (filesPrompt request fc) :: logs) = 1).
        { change (Generate (filesPrompt request fc) :: logs)
            with ([Generate (filesPrompt request fc)] ++ logs).
          rewrite count_app, (count_logs isGenerate logs) by (auto || reflexivity).
          reflexivity. }
        assert (Hh : count isHttpGet (Generate (filesPrompt request fc) :: logs) = 0).
        { change (Generate (filesPrompt request fc) :: logs)
            with ([Generate (filesPrompt request fc)] ++ logs).
          rewrite count_app, (count_logs isHttpGet logs) by (auto || reflexivity).
          reflexivity. }
        destruct r as [res|e]; unfold tryCatch, bind, emit, throw; cbv beta iota zeta.
        -- eexists. eexists. split; [reflexivity|].
           rewrite !count_app, Cg, Ch, Gl, Hh. close_facts.
        -- eexists. eexists. split; [reflexivity|].
           cbn [app]. rewrite ?app_nil_r, !count_app, Cg, Ch, Gl, Hh.
           tally. close_facts.
      * rewrite processWithSelectedFiles_no_files by (now left).
        eexists. eexists. split; [reflexivity|]. tally. close_facts.
    + unfold generate, bind, emit, ret, tryCatch, orTypeError, throw.
      destruct (action request =? "edit")%string;
        [|destruct (action request =? "generate")%string;
          [|destruct (action request =? "chat")%string]];
        cbv beta iota zeta;
        try (destruct (generateContent w _) as [text|];
             [destruct (parseAIResponse_some text (action request)) as [parsed ->]|]);
        (eexists; eexists; split; [reflexivity|]); tally; close_facts.
Qed.

End ServiceFacts.

Section HandlerFacts.

Variable w : World.

(** The three ways [chatWithAI] ends. *)
Lemma chatWithAI_cases (body : ChatBody) :
  ((present (b_message body) = false \/ present (b_action body) = false
    \/ arrayIncludes validActions (withDefault (b_action body) "") = false)
   /\ exists b, chatWithAI w body = (mkResponse 400 b, []))
  \/ (present (b_message body) = true /\ b_action body = Some "analyze_codebase"
      /\ codebaseRoot w = None
      /\ chatWithAI w body =
         (mkResponse 500
            (JObj [("success", JBool false);
                   ("error", JStr "Failed to fetch codebase files");
                   ("details",
                    JStr "Please ensure the codebase folder exists and contains files")]),
          [FsExists "docs/codebase"; Log "Error in fetchCodebaseFiles";
           Log "Error fetching codebase files"]))
  \/ (present (b_message body) = true /\ present (b_action body) = true
      /\ arrayIncludes validActions (withDefault (b_action body) "") = true
      /\ exists request pre r t,
           processDocumentRequest w request = (r, t)
           /\ action request = withDefault (b_action body) ""
           /\ message request = withDefault (b_message body) ""
           /\ count isGenerate pre = 0 /\ count isHttpGet pre = 0
           /\ (action request <> "analyze_codebase" ->
               pre = [] /\ selectedFiles request = b_selectedFiles body)
           /\ (forall dir, codebaseRoot w = Some dir ->
                           action request = "analyze_codebase" ->
                           codebaseFiles request = Some (relevantFilter (scanDirectory dir "")))
           /\ ((exists res,
                  r = Ok res /\
                  chatWithAI w body =
                  (mkResponse 200 (JObj [("success", JBool true);
                                         ("data", chatResponseJson res)]),
                   pre ++ t))
               \/ (exists e b,
                     r = Throw e /\
                     chatWithAI w body =
                     (mkResponse 500 b, pre ++ t ++ [Log "AI Controller Error"])))).
Proof.
  unfold chatWithAI.
  destruct (present (b_message body)) eqn:Hm; cbn [negb orb];
    [|left; split; [now left | eexists; reflexivity]].
  destruct (present (b_action body)) eqn:Ha; cbn [negb orb];
    [|left; split; [right; now left | eexists; reflexivity]].
  destruct (arrayIncludes validActions (withDefault (b_action body) "")) eqn:Hv; cbn [negb];
    [|left; split; [right; now right | eexists; reflexivity]].
  right.
  destruct (String.eqb_spec (withDefault (b_action body) "") "analyze_codebase") as [Ea|Na].
  - unfold fetchCodebase, fetchCodebaseFiles, bind, emit, ret, throw.
    destruct (codebaseRoot w) as [dir|] eqn:Hr; cbv beta iota zeta; cbn [app].
    + right. repeat (split; [reflexivity|]).
      set (request := mkChat _ _ _ _ _ _).
      set (pre := [FsExists "docs/codebase"; FsScan "docs/codebase";
                       Log ("Found "
                              ++ natToString (List.length (relevantFilter (scanDirectory dir "")))
                              ++ " relevant files in codebase")]).
      destruct (processDocumentRequest w request) as [[res|e] t] eqn:P.
      * exists request, pre, (Ok res), t. split; [exact P|].
        split; [reflexivity|]. split; [reflexivity|].
        split; [reflexivity|]. split; [reflexivity|].
        split; [intros H; now elim H|]. split; [now intros d [= <-] _|].
        left. exists res. split; reflexivity.
      * exists request, pre, (Throw e), t. split; [exact P|].
        split; [reflexivity|]. split; [reflexivity|].
        split; [reflexivity|]. split; [reflexivity|].
        split; [intros H; now elim H|]. split; [now intros d [= <-] _|].
        right. exists e. eexists. split; reflexivity.
    + left. split; [reflexivity|]. split; [|split; reflexivity].
      destruct (b_action body) as [a|]; [|discriminate]. cbn [withDefault] in Ea. now subst.
  - right. repeat (split; [reflexivity|]). unfold ret.
    set (request := mkChat _ _ _ _ _ _).
    destruct (processDocumentRequest w request) as [[res|e] t] eqn:P.
    + exists request, [], (Ok res), t. split; [exact P|].
      split; [reflexivity|]. split; [reflexivity|].
      split; [reflexivity|]. split; [reflexivity|].
      split; [now intros _|]. split; [intros d _ H; now elim Na|].
      left. exists res. split; reflexivity.
    + exists request, [], (Throw e), t. split; [exact P|].
      split; [reflexivity|]. split; [reflexivity|].
      split; [reflexivity|]. split; [reflexivity|].
      split; [now intros _|]. split; [intros d _ H; now elim Na|].
      right. exists e. eexists. split; reflexivity.
Qed.

(** X12.  A chat request calls the model at most once and never calls the
    upstream source-control service; a 200 reply comes from exactly one
    model call; the edit, generate and chat actions touch no file. *)
Theorem one_model_call_per_request (body : ChatBody) :
  count isGenerate (snd (chatWithAI w body)) <= 1
  /\ count isHttpGet (snd (chatWithAI w body)) = 0
  /\ (status (fst (chatWithAI w body)) = 200 ->
      count isGenerate (snd (chatWithAI w body)) = 1)
  /\ (forall a, b_action body = Some a -> In a ["edit"; "generate"; "chat"] ->
                count isFs (snd (chatWithAI w body)) = 0).
Proof.
  destruct (chatWithAI_cases body)
    as [[_ [b ->]]|[(_ & Ha & _ & ->)|(_ & _ & _ & request & pre & r & t & P & Hact & _ & Pg & Ph
                                        & Hpre & _ & Hend)]].
  - cbn [fst snd status]. tally. repeat split; try lia; discriminate.
  - cbn [fst snd status]. tally. split; [lia|]. split; [lia|]. split; [discriminate|].
    intros a Ha' Hin. rewrite Ha in Ha'. injection Ha' as <-.
    destruct Hin as [H|[H|[H|[]]]]; discriminate H.
  - destruct (processDocumentRequest_facts w request) as (r' & t' & P' & Fg & Fh & Fok & Ffs & _).
    rewrite P in P'. injection P' as <- <-.
    assert (Hfs : forall a, b_action body = Some a -> In a ["edit"; "generate"; "chat"] ->
                            pre = [] /\ count isFs t = 0).
    { intros a Ha Hin. rewrite Ha in Hact. cbn [withDefault] in Hact.
      assert (N1 : action request <> "analyze_codebase")
        by (rewrite Hact; intros ->; destruct Hin as [H|[H|[H|[]]]]; discriminate H).
      assert (N2 : action request <> "process_with_files")
        by (rewrite Hact; intros ->; destruct Hin as [H|[H|[H|[]]]]; discriminate H).
      split; [apply Hpre, N1 | apply Ffs, N2]. }
    destruct Hend as [(res & -> & ->)|(e & b & -> & ->)]; cbn [fst snd status].
    + rewrite !count_app, Pg, Ph, Fh. split; [lia|]. split; [lia|].
      split; [intros _; rewrite Fok by (now exists res); lia|].
      intros a Ha Hin. destruct (Hfs a Ha Hin) as [-> K]. exact K.
    + split; [|split; [|split; [discriminate|]]].
      * rewrite !count_app, Pg. change (count isGenerate [Log "AI Controller Error"]) with 0.
        lia.
      * rewrite !count_app, Ph, Fh. reflexivity.
      * intros a Ha Hin. destruct (Hfs a Ha Hin) as [-> K]. cbn [app].
        rewrite count_app, K. reflexivity.
Qed.

(** X13.  A chat request is answered with 200, 400 or 500.  It is answered
    with 400 exactly when the message or the action is missing or empty or
    the action is not one of the five known actions, and then nothing at
    all is done. *)
Theorem chat_status_taxonomy (body : ChatBody) :
  (status (fst (chatWithAI w body)) = 200 \/ status (fst (chatWithAI w body)) = 400
   \/ status (fst (chatWithAI w body)) = 500)
  /\ (status (fst (chatWithAI w body)) = 400 <->
      present (b_message body) = false \/ present (b_action body) = false
      \/ arrayIncludes validActions (withDefault (b_action body) "") = false)
  /\ (status (fst (chatWithAI w body)) = 400 -> snd (chatWithAI w body) = []).
Proof.
  destruct (chatWithAI_cases body)
    as [[Hinv [b ->]]|[(Hm & Ha & _ & ->)|(Hm & Ha & Hv & request & pre & r & t & _ & _ & _ & _
                                           & _ & _ & _ & Hend)]].
  - cbn [fst snd status]. split; [right; now left|]. split; [|reflexivity].
    split; [intros _; exact Hinv | reflexivity].
  - cbn [fst snd status]. split; [right; now right|]. split; [|discriminate].
    split; [discriminate|]. rewrite Hm, Ha. cbn [present JS.truthy withDefault].
    intros [H|[H|H]]; discriminate.
  - assert (V : ~ (present (b_message body) = false \/ present (b_action body) = false
                   \/ arrayIncludes validActions (withDefault (b_action body) "") = false))
      by (rewrite Hm, Ha, Hv; intros [H|[H|H]]; discriminate).
    destruct Hend as [(res & _ & ->)|(e & b & _ & ->)]; cbn [fst snd status].
    + split; [now left|]. split; [|discriminate]. split; [discriminate | intros H; now elim V].
    + split; [right; now right|]. split; [|discriminate].
      split; [discriminate | intros H; now elim V].
Qed.

(** X14.  An analyze_codebase request with a message: without the codebase
    folder it is answered with the 500 of the codebase fetch and the model
    is not called; with the folder, whatever text the model answers gives a
    200 reply that asks for confirmation and carries the parsed analysis,
    with fifteen files at most; a model call that fails gives a 500. *)
Theorem analysis_replies (body : ChatBody) :
  b_action body = Some "analyze_codebase" ->
  present (b_message body) = true ->
  (codebaseRoot w = None ->
   status (fst (chatWithAI w body)) = 500
   /\ count isGenerate (snd (chatWithAI w body)) = 0)
  /\ (forall dir,
         codebaseRoot w = Some dir ->
         let request :=
           mkChat (withDefault (b_message body) "") (b_currentContent body)
                  (b_filePath body) "analyze_codebase" (b_selectedFiles body)
                  (Some (relevantFilter (scanDirectory dir ""))) in
         let prompt := analyzePrompt request (listFiles (codebaseFiles request)) in
         (forall reply,
             generateContent w prompt = Some reply ->
             exists fa text,
               parseFileAnalysis reply = Some fa
               /\ relevantFiles fa = listedFiles reply
               /\ List.length (relevantFiles fa) <= 15
               /\ fst (chatWithAI w body) =
                  mkResponse 200
                    (JObj [("success", JBool true);
                           ("data",
                            chatResponseJson
                              (mkChatResponse text None "analyze_codebase"
                                              (Some fa) (Some true)))]))
         /\ (generateContent w prompt = None ->
             status (fst (chatWithAI w body)) = 500)).
Proof.
  intros Ha Hm. split.
  - intros Hr. unfold chatWithAI. rewrite Hm, Ha. cbn [negb orb present JS.truthy withDefault].
    change (arrayIncludes validActions "analyze_codebase") with true.
    change ("analyze_codebase" =? "analyze_codebase")%string with true. cbn [negb].
    unfold fetchCodebase, fetchCodebaseFiles, bind, emit, ret, throw. rewrite Hr.
    cbv beta iota zeta. cbn [fst snd status app]. split; reflexivity.
  - intros dir Hr request prompt.
    assert (E : chatWithAI w body =
                match processDocumentRequest w request with
                | (Ok result, t') =>
                    (mkResponse 200 (JObj [("success", JBool true);
                                           ("data", chatResponseJson result)]),
                     [FsExists "docs/codebase"; FsScan "docs/codebase";
                      Log ("Found " ++ natToString
                                         (List.length (relevantFilter (scanDirectory dir "")))
                                    ++ " relevant files in codebase")] ++ t')
                | (Throw errorMessage, t') =>
                    (mkResponse 500
                       (JObj ([("success", JBool false);
                               ("error", JStr "Failed to process AI request")]
                                ++ (if development w
                                    then [("details", JStr errorMessage)] else []))),
                     [FsExists "docs/codebase"; FsScan "docs/codebase";
                      Log ("Found " ++ natToString
                                         (List.length (relevantFilter (scanDirectory dir "")))
                                    ++ " relevant files in codebase")]
                       ++ t' ++ [Log "AI Controller Error"])
                end).
    { unfold chatWithAI. rewrite Hm, Ha. cbn [negb orb present JS.truthy withDefault].
      change (arrayIncludes validActions "analyze_codebase") with true.
      change ("analyze_codebase" =? "analyze_codebase")%string with true. cbn [negb].
      unfold fetchCodebase, fetchCodebaseFiles, bind, emit, ret, throw. rewrite Hr.
      cbv beta iota zeta. cbn [app]. reflexivity. }
    assert (P : processDocumentRequest w request =
                tryCatch (analyzeCodebaseForTask w request)
                         (fun _ => emit (Log "AI Service Error") ;;
                                   throw "Failed to process AI request")) by reflexivity.
    pose proof (analyze_outcome w request) as A. fold prompt in A.
    split.
    + intros reply Hg. rewrite Hg in A. destruct A as (fa & Hp & Hl & Ho).
      exists fa. eexists. split; [exact Hp|]. split; [exact Hl|].
      split; [rewrite Hl; apply firstn_le_length|].
      rewrite E, P, Ho. reflexivity.
    + intros Hg. rewrite Hg in A. rewrite E, P, A. reflexivity.
Qed.

End HandlerFacts.

Lemma one_model_call_per_request_witness :
  count isFs
    (snd (chatWithAI (Platform.world RejectedOther RejectedOther RejectedOther
                                     (fun _ => Some "Use headings."))
                     (mkChatBody (Some "How do I structure this?") None None (Some "chat") None)))
  = 0
  /\ count isGenerate
       (snd (chatWithAI (Platform.world RejectedOther RejectedOther RejectedOther
                                        (fun _ => Some "Use headings."))
                        (mkChatBody (Some "How do I structure this?") None None (Some "chat")
                                    None)))
     = 1.
Proof.
  set (w := Platform.world RejectedOther RejectedOther RejectedOther
                           (fun _ => Some "Use headings.")).
  set (body := mkChatBody (Some "How do I structure this?") None None (Some "chat") None).
  destruct (one_model_call_per_request w body) as (_ & _ & H200 & Hfs).
  split.
  - apply (Hfs "chat" eq_refl). simpl. auto.
  - apply H200. reflexivity.
Defined.

Lemma chat_status_taxonomy_witness :
  snd (chatWithAI (Platform.world RejectedOther RejectedOther RejectedOther (fun _ => None))
                  (mkChatBody (Some "Summarise") None None (Some "summarise") None)) = [].
Proof.
  set (w := Platform.world RejectedOther RejectedOther RejectedOther (fun _ => None)).
  set (body := mkChatBody (Some "Summarise") None None (Some "summarise") None).
  destruct (chat_status_taxonomy w body) as (_ & H400 & Hnone).
  apply Hnone, H400. right. right. reflexivity.
Defined.

Lemma analysis_replies_witness :
  exists fa text,
    parseFileAnalysis fullReply = Some fa
    /\ List.length (relevantFiles fa) <= 15
    /\ fst (chatWithAI (Platform.world RejectedOther RejectedOther RejectedOther
                                       (fun _ => Some fullReply))
                       (mkChatBody (Some "Document the API") None None
                                   (Some "analyze_codebase") None))
       = mkResponse 200
           (JObj [("success", JBool true);
                  ("data", chatResponseJson
                             (mkChatResponse text None "analyze_codebase" (Some fa) (Some true)))]).
Proof.
  set (w := Platform.world RejectedOther RejectedOther RejectedOther (fun _ => Some fullReply)).
  set (body := mkChatBody (Some "Document the API") None None (Some "analyze_codebase") None).
  destruct (analysis_replies w body eq_refl eq_refl) as [_ H].
  destruct (H Platform.sampleTree eq_refl) as [K _].
  destruct (K fullReply eq_refl) as (fa & text & Hp & _ & Hl & Hs).
  exists fa, text. repeat split; assumption.
Defined.


(* ================================================================== *)
(** * Further facts: the scanner and its ignore table *)
(* ================================================================== *)

Section WalkFacts.

Lemma Listed_cons (x : string * fsnode) (items : list (string * fsnode))
    (rel : string) (e : CodebaseFile) :
  Listed items rel e -> Listed (x :: items) rel e.
Proof.
  intros H. destruct H as [items rel item node Hin Hn Hi | items rel item sub e Hin Hi Hs].
  - apply Listed_here; [now right | exact Hn | exact Hi].
  - eapply Listed_below; [right; exact Hin | exact Hi | exact Hs].
Qed.

(** Every entry of a scan is reached by the walk. *)
Lemma scan_Listed (dir : fsnode) :
  forall rel e, In e (scanDirectory dir rel) ->
                exists items, dir = FsDir (Some items) /\ Listed items rel e.
Proof.
  induction dir as [bytes| | |items IH] using fsnode_induction; intros rel e H;
    try (now destruct H).
  exists items. split; [reflexivity|].
  change (In e (scanLoop rel items)) in H.
  induction IH as [|[item node] items Hnode _ IHitems]; [now destruct H|].
  rewrite scanLoop_cons in H.
  destruct (shouldIgnoreFile item (relativeOf rel item)) eqn:E;
    [now apply Listed_cons, IHitems|].
  destruct node as [bytes|listing|].
  - destruct H as [<-|H]; [|now apply Listed_cons, IHitems].
    apply (Listed_here _ rel item (FsFile bytes)); [now left | discriminate | exact E].
  - destruct H as [<-|H].
    + apply (Listed_here _ rel item (FsDir listing)); [now left | discriminate | exact E].
    + apply in_app_iff in H as [H|H]; [|now apply Listed_cons, IHitems].
      cbn [snd] in Hnode. destruct (Hnode _ _ H) as (sub & [= ->] & Hs).
      eapply Listed_below; [now left | exact E | exact Hs].
  - now destruct H.
Qed.

(** Where every [stat] succeeds, every entry that the walk reaches is in
    the scan. *)
Lemma Listed_scan (items : list (string * fsnode)) (rel : string) (e : CodebaseFile) :
  Listed items rel e -> Healthy items rel -> In e (scanLoop rel items).
Proof.
  induction 1 as [items rel item node Hin Hn Hi | items rel item sub e Hin Hi Hs IH];
    intros Hh; inversion Hh as [? ? Hstat Hbelow]; subst;
    rewrite scanLoop_flat_map by exact Hstat; apply in_flat_map.
  - exists (item, node). split; [exact Hin|]. cbn [scanEntry]. rewrite Hi.
    destruct node; [now left | now left | now elim Hn].
  - exists (item, FsDir (Some sub)). split; [exact Hin|]. cbn [scanEntry]. rewrite Hi.
    right. apply IH, (Hbelow item sub Hin Hi).
Qed.

(** X15.  The scan returns only entries that the walk reaches: entries that
    are not ignored, whose [stat] succeeds and that lie below directories
    that are not ignored.  In a tree where every [stat] succeeds it returns
    all of them, and a directory that cannot be listed costs only its own
    contents: its entry is kept and the scan goes on with its siblings. *)
Theorem scan_covers_the_walk (items : list (string * fsnode)) (rel : string) :
  (forall e, In e (scanLoop rel items) -> Listed items rel e)
  /\ (Healthy items rel -> forall e, Listed items rel e -> In e (scanLoop rel items))
  /\ (forall item more,
         items = (item, FsDir None) :: more ->
         shouldIgnoreFile item (relativeOf rel item) = false ->
         scanLoop rel items = mkFile (relativeOf rel item) item TFolder None :: scanLoop rel more).
Proof.
  split; [|split].
  - intros e H. destruct (scan_Listed (FsDir (Some items)) rel e H) as (its & [= <-] & L).
    exact L.
  - intros Hh e L. now apply Listed_scan.
  - intros item more -> Hi. now rewrite scanLoop_cons, Hi.
Qed.

Lemma Listed_shape (items : list (string * fsnode)) (rel : string) (e : CodebaseFile) :
  Listed items rel e ->
  (exists mid, path e = (rel ++ mid ++ name e)%string)
  /\ ((type e = TFolder /\ size e = None) \/ (type e = TFile /\ exists n, size e = Some n)).
Proof.
  induction 1 as [items rel item node Hin Hn Hi | items rel item sub e Hin Hi Hs IH].
  - split.
    + destruct node; cbn [entryOf path name]; (destruct rel as [|c rel];
        [exists EmptyString; reflexivity | exists "/"; reflexivity]).
    + destruct node; cbn [entryOf type size]; [right|left|left]; try (now split).
      split; [reflexivity | now exists bytes].
  - destruct IH as [[mid Hp] Ht]. split; [|exact Ht]. rewrite Hp.
    destruct rel as [|c rel]; cbn [relativeOf].
    + exists (item ++ mid)%string. now rewrite append_assoc.
    + exists ("/" ++ item ++ mid)%string. now rewrite !append_assoc.
Qed.

(** X16.  Every entry of a scan has a path that lies under the scanned
    directory and ends with the entry's name; a folder entry has no size
    and a file entry has one. *)
Theorem scanned_entries_are_well_formed (dir : fsnode) (rel : string) (e : CodebaseFile) :
  In e (scanDirectory dir rel) ->
  (exists mid, path e = (rel ++ mid ++ name e)%string)
  /\ ((type e = TFolder /\ size e = None) \/ (type e = TFile /\ exists n, size e = Some n)).
Proof.
  intros H. destruct (scan_Listed dir rel e H) as (items & _ & L).
  eapply Listed_shape, L.
Qed.

End WalkFacts.

Lemma scan_covers_the_walk_witness :
  In (mkFile "src/index.ts" "index.ts" TFile (Some 1270))
     (scanLoop "" Platform.sampleListing)
  /\ scanLoop "" [("private", FsDir None); ("README.md", FsFile 5)] =
     [mkFile "private" "private" TFolder None; mkFile "README.md" "README.md" TFile (Some 5)].
Proof.
  split.
  - destruct (scan_covers_the_walk Platform.sampleListing "") as (_ & H & _).
    apply H.
    + constructor.
      * intros item Hin. vm_compute in Hin.
        repeat (destruct Hin as [Hin|Hin]; [discriminate|]). now destruct Hin.
      * intros item sub Hin Hi. vm_compute in Hin.
        destruct Hin as [Hin|[Hin|[Hin|[Hin|[]]]]]; try discriminate;
          injection Hin as <- <-; try discriminate.
        constructor.
        -- intros i Hi'. vm_compute in Hi'. destruct Hi' as [Hi'|[]]. discriminate.
        -- intros i s Hi'. vm_compute in Hi'. destruct Hi' as [Hi'|[]]. discriminate.
    + apply (Listed_below _ "" "src" [("index.ts", FsFile 1270)]);
        [vm_compute; auto | reflexivity|].
      apply (Listed_here _ "src" "index.ts" (FsFile 1270));
        [now left | discriminate | reflexivity].
  - destruct (scan_covers_the_walk [("private", FsDir None); ("README.md", FsFile 5)] "")
      as (_ & _ & H).
    rewrite (H "private" [("README.md", FsFile 5)] eq_refl eq_refl). reflexivity.
Defined.

Lemma scanned_entries_are_well_formed_witness :
  (exists mid, "src/index.ts" = ("" ++ mid ++ "index.ts")%string)
  /\ ((TFile = TFolder /\ Some 1270 = @None nat)
      \/ (TFile = TFile /\ exists n, Some 1270 = Some n)).
Proof.
  apply (scanned_entries_are_well_formed Platform.sampleTree ""
           (mkFile "src/index.ts" "index.ts" TFile (Some 1270))).
  vm_compute. auto.
Defined.

Section IgnoreFacts.

Lemma searchFrom_hit (r : regex) (i : nat) (s : string) :
  run r (MState i s None) <> [] -> searchFrom r i s <> None.
Proof.
  intros H. destruct s; cbn [searchFrom];
    destruct (run r (MState i _ None)); try discriminate; now elim H.
Qed.

(** A pattern that matches at some index is found by the search. *)
Lemma searchFrom_found (r : regex) (a s : string) :
  forall i, run r (MState (i + String.length a) s None) <> [] ->
            searchFrom r i (a ++ s) <> None.
Proof.
  induction a as [|c a IH]; intros i H.
  - cbn [String.length] in H. rewrite Nat.add_0_r in H.
    change (EmptyString ++ s)%string with s. now apply searchFrom_hit.
  - change (String c a ++ s)%string with (String c (a ++ s)). cbn [searchFrom].
    destruct (run r (MState i (String c (a ++ s)) None)); [|discriminate].
    apply IH. cbn [String.length] in H. now rewrite Nat.add_succ_r in H.
Qed.

Lemma test_found (r : regex) (a s : string) :
  run r (MState (String.length a) s None) <> [] -> test r (a ++ s) = true.
Proof.
  intros H. unfold test.
  destruct (searchFrom r 0 (a ++ s)) eqn:E; [reflexivity|].
  now elim (searchFrom_found r a s 0 H).
Qed.

Lemma stripWord_lower (w e t : string) :
  JS.toLowerCase e = JS.toLowerCase w -> stripWord true w (e ++ t) = Some t.
Proof.
  revert e; induction w as [|c w IH]; intros e H.
  - destruct e; [reflexivity | discriminate].
  - destruct e as [|a e]; [discriminate|].
    cbn [JS.toLowerCase] in H. injection H as Hc He.
    change (String a e ++ t)%string with (String a (e ++ t)). cbn [stripWord].
    rewrite charMatches_lower, Hc, Ascii.eqb_refl. now apply IH.
Qed.

Lemma run_alts_in (rs : list regex) (r : regex) (st st' : mstate) :
  In r rs -> In st' (run r st) -> In st' (run (alts rs) st).
Proof.
  induction rs as [|r0 rs IH]; intros Hr H; [now destruct Hr|].
  destruct rs as [|r1 rs].
  - destruct Hr as [->|[]]. exact H.
  - change (alts (r0 :: r1 :: rs)) with (Alt r0 (alts (r1 :: rs))).
    cbn [run]. apply in_or_app.
    destruct Hr as [->|Hr]; [now left | right; now apply IH].
Qed.

(** The anchored patterns match every text with the ending. *)
Lemma ending_matches (w a : string) :
  test (Seq (lit false w) Eol) (a ++ w) = true.
Proof.
  apply test_found. rewrite run_seq, run_lit.
  rewrite <- (append_nil_r w) at 2. rewrite stripWord_append. discriminate.
Qed.

(** The extension patterns match every text that ends with a dot and one
    of the extensions in any letter case. *)
Lemma extension_matches (exts : list string) (x stem ext : string) :
  In x exts -> JS.toLowerCase ext = JS.toLowerCase x ->
  test (Seq (Chr true ".") (Seq (Grp (alts (map (lit true) exts))) Eol))
       (stem ++ "." ++ ext) = true.
Proof.
  intros Hx He. apply test_found.
  change ("." ++ ext)%string with (String "." ext).
  rewrite run_seq.
  change (run (Chr true ".") (MState (String.length stem) (String "." ext) None))
    with [MState (S (String.length stem)) ext None].
  cbn [flat_map]. rewrite app_nil_r.
  set (st := MState (S (String.length stem)) ext None).
  assert (H : In (MState (pos st + String.length x) EmptyString (cap st))
                 (run (alts (map (lit true) exts)) st)).
  { apply (run_alts_in _ (lit true x)); [now apply in_map|].
    unfold st. cbn [pos cap]. rewrite run_lit. rewrite <- (append_nil_r ext).
    rewrite (stripWord_lower x ext EmptyString He). now left. }
  rewrite run_seq. rewrite run_grp.
  intros E.
  apply (in_map (fun st' => MState (pos st') (rest st') (Some (consumed st st')))) in H.
  assert (Hin : In (MState (pos st + String.length x) EmptyString
                           (Some (consumed st (MState (pos st + String.length x)
                                                      EmptyString (cap st)))))
                   (flat_map (run Eol)
                      (map (fun st' => MState (pos st') (rest st') (Some (consumed st st')))
                           (run (alts (map (lit true) exts)) st)))).
  { apply in_flat_map. eexists. split; [exact H|]. now left. }
  rewrite E in Hin. now destruct Hin.
Qed.

Lemma not_ignored_tests (fileName relativePath : string) (pattern : regex) :
  shouldIgnoreFile fileName relativePath = false ->
  In pattern ignorePatterns ->
  test pattern fileName = false /\ test pattern relativePath = false.
Proof.
  intros H Hp. apply orb_false_iff.
  destruct (test pattern fileName || test pattern relativePath) eqn:E; [|reflexivity].
  assert (T : shouldIgnoreFile fileName relativePath = true).
  { apply existsb_exists. exists pattern. now split. }
  rewrite T in H. discriminate.
Qed.

Lemma ignoredEndings_patterns (w : string) :
  In w ignoredEndings -> In (Seq (lit false w) Eol) ignorePatterns.
Proof.
  unfold ignoredEndings. simpl In at 1. intros H.
  repeat (destruct H as [<-|H];
          [unfold ignorePatterns; simpl In; repeat (first [left; reflexivity | right])|]);
    now destruct H.
Qed.

Lemma ignoredExtensions_lower (x : string) :
  In x ignoredExtensions -> JS.toLowerCase x = x.
Proof.
  assert (H : forallb (fun x => String.eqb (JS.toLowerCase x) x) ignoredExtensions = true)
    by (vm_compute; reflexivity).
  rewrite forallb_forall in H. intros Hx. now apply String.eqb_eq, H.
Qed.

Lemma ignoredExtensions_patterns (x : string) :
  In x ignoredExtensions ->
  exists exts, In x exts
               /\ In (Seq (Chr true ".") (Seq (Grp (alts (map (lit true) exts))) Eol))
                     ignorePatterns.
Proof.
  intros H.
  change ignoredExtensions
    with (["exe"; "dll"; "so"; "dylib"; "bin"; "img"; "iso"]
          ++ ["jpg"; "jpeg"; "png"; "gif"; "bmp"; "svg"; "ico"; "mp4"; "mp3"; "wav"; "avi"])
    in H.
  apply in_app_or in H as [H|H]; eexists; (split; [exact H|]);
    unfold ignorePatterns; simpl In; repeat (first [left; reflexivity | right]).
Qed.

(** What the ignore policy lets through: no text that starts with a dot,
    none with an anchored ending, none with an ignored extension. *)
Lemma not_ignored_text (fileName relativePath s : string) :
  shouldIgnoreFile fileName relativePath = false ->
  s = fileName \/ s = relativePath ->
  JS.startsWith s "." = false
  /\ (forall w, In w ignoredEndings -> ~ EndsWith s w)
  /\ (forall stem ext, s = (stem ++ "." ++ ext)%string ->
                       ~ In (JS.toLowerCase ext) ignoredExtensions).
Proof.
  intros H Hs.
  assert (T : forall pattern, In pattern ignorePatterns -> test pattern s = false).
  { intros pattern Hp. destruct (not_ignored_tests _ _ _ H Hp) as [T1 T2].
    now destruct Hs as [->| ->]. }
  split; [|split].
  - destruct (JS.startsWith s ".") eqn:E; [|reflexivity].
    unfold JS.startsWith in E. apply prefix_split in E as [t ->].
    rewrite <- (T (Seq Bol (Chr false "."))) by now left. reflexivity.
  - intros w Hw [a ->].
    specialize (T _ (ignoredEndings_patterns w Hw)).
    rewrite ending_matches in T. discriminate.
  - intros stem ext -> Hx.
    destruct (ignoredExtensions_patterns _ Hx) as (exts & Hin & Hp).
    specialize (T _ Hp).
    rewrite (extension_matches exts _ stem ext Hin) in T; [discriminate|].
    symmetry. apply ignoredExtensions_lower, Hx.
Qed.

(** X17.  No entry of a scan, at any depth, has a name or a path that
    starts with a dot, that ends with [.log], [package-lock.json],
    [yarn.lock] or [composer.lock], or that ends with a dot and one of the
    binary or media extensions in any letter case. *)
Theorem scan_hides_dotfiles_and_binaries (dir : fsnode) (rel : string) (e : CodebaseFile) :
  In e (scanDirectory dir rel) ->
  forall s, s = name e \/ s = path e ->
    JS.startsWith s "." = false
    /\ (forall w, In w ignoredEndings -> ~ EndsWith s w)
    /\ (forall stem ext, s = (stem ++ "." ++ ext)%string ->
                         ~ In (JS.toLowerCase ext) ignoredExtensions).
Proof.
  intros H s Hs. eapply not_ignored_text; [|exact Hs].
  eapply scan_not_ignored, H.
Qed.

(** X18.  The codebase listing handed to the model: a missing codebase
    folder is the one error; a codebase path that is a file, or a folder
    that cannot be listed, gives the empty listing; and every entry of a
    listing is a file of the scan, in scan order, with a size, a path that
    ends with its name, relevant, and not matched by the ignore policy. *)
Theorem codebase_listing_has_only_relevant_files :
  fetchCodebaseFiles None = Throw "Could not fetch codebase files from local folder"
  /\ (forall bytes, fetchCodebaseFiles (Some (FsFile bytes)) = Ok [])
  /\ fetchCodebaseFiles (Some (FsDir None)) = Ok []
  /\ (forall dir files,
         fetchCodebaseFiles (Some dir) = Ok files ->
         Subseq files (scanDirectory dir "")
         /\ forall e, In e files ->
                      type e = TFile
                      /\ (exists n, size e = Some n)
                      /\ EndsWith (path e) (name e)
                      /\ Relevant e
                      /\ shouldIgnoreFile (name e) (path e) = false).
Proof.
  split; [reflexivity|]. split; [reflexivity|]. split; [reflexivity|].
  intros dir files [= <-]. split; [apply filter_Subseq|].
  intros e He. unfold relevantFilter in He. apply filter_In in He as [Hs Hr].
  apply isRelevant_iff in Hr.
  destruct (scan_Listed dir EmptyString e Hs) as (items & _ & L).
  destruct (Listed_shape _ _ _ L) as [[mid Hp] Ht].
  split; [apply Hr|]. split; [|split; [|split]].
  - destruct Ht as [[Ht _]|[_ Hn]]; [|exact Hn].
    destruct Hr as [Hf _]. rewrite Hf in Ht. discriminate.
  - exists mid. exact Hp.
  - exact Hr.
  - eapply scan_not_ignored, Hs.
Qed.

End IgnoreFacts.

Lemma scan_hides_dotfiles_and_binaries_witness :
  JS.startsWith "README.md" "." = false
  /\ (forall w, In w ignoredEndings -> ~ EndsWith "README.md" w)
  /\ (forall stem ext, "README.md" = (stem ++ "." ++ ext)%string ->
                       ~ In (JS.toLowerCase ext) ignoredExtensions).
Proof.
  apply (scan_hides_dotfiles_and_binaries Platform.sampleTree ""
           (mkFile "README.md" "README.md" TFile (Some 512))).
  - vm_compute. auto.
  - now left.
Defined.

Lemma codebase_listing_has_only_relevant_files_witness :
  Subseq [mkFile "src/index.ts" "index.ts" TFile (Some 1270);
          mkFile "README.md" "README.md" TFile (Some 512)]
         (scanDirectory Platform.sampleTree "").
Proof.
  destruct codebase_listing_has_only_relevant_files as (_ & _ & _ & H).
  apply (H Platform.sampleTree). reflexivity.
Defined.

(* ================================================================== *)
(** * Further facts: where the gateway sends its requests *)
(* ================================================================== *)

Section TargetFacts.

Variable w : World.

(** X19.  Every upstream request of the two gateway handlers goes to the
    API of the host that the stored URL names, for the project that the
    stored URL names, and carries the stored token: the fallback host of
    [getGitLabApiUrl] is never used by them.  The listing asks for the tree
    with the reference (by default [main]) and a page size of 100; the
    raw-file fetch asks for the encoded file path with the reference. *)
Theorem upstream_requests_go_to_the_stored_host
    (conn : Connection) (q : FilesQuery) (r : ContentRequest) (url : string) (hs : headers) :
  (In (HttpGet url hs) (effects (getRepositoryFiles w (Some conn) q)) ->
   exists u id params,
     parseURL w (connRepoUrl conn) = Some u
     /\ extractProjectIdFromUrl w (connRepoUrl conn) = Some id
     /\ url = (protocol u ++ "//" ++ host u ++ "/api/v4/projects/"
               ++ encodeURIComponent w id ++ "/repository/tree?"
               ++ searchParams w params)%string
     /\ In ("ref", withDefault (q_ref q) "main") params
     /\ In ("per_page", "100") params
     /\ In ("PRIVATE-TOKEN", connAccessToken conn) hs)
  /\ (In (HttpGet url hs) (effects (getRepositoryFileContent w (Some conn) r)) ->
      exists u id filePath params,
        parseURL w (connRepoUrl conn) = Some u
        /\ extractProjectIdFromUrl w (connRepoUrl conn) = Some id
        /\ p_filePath r = Some filePath
        /\ url = (protocol u ++ "//" ++ host u ++ "/api/v4/projects/"
                  ++ encodeURIComponent w id ++ "/repository/files/"
                  ++ encodeURIComponent w filePath ++ "/raw?"
                  ++ searchParams w params)%string
        /\ In ("ref", withDefault (c_ref r) "main") params
        /\ In ("PRIVATE-TOKEN", connAccessToken conn) hs).
Proof.
  split.
  - unfold getRepositoryFiles, getGitLabApiUrl.
    destruct (extractProjectIdFromUrl w (connRepoUrl conn)) as [id|] eqn:E;
      [|intros []].
    assert (P : exists u, parseURL w (connRepoUrl conn) = Some u).
    { unfold extractProjectIdFromUrl in E.
      destruct (parseURL w (connRepoUrl conn)) as [u|]; [now exists u | discriminate]. }
    destruct P as [u P]. rewrite P.
    intros H.
    set (params := [("ref", withDefault (q_ref q) "main");
                    ("recursive", withDefault (q_recursive q) "false");
                    ("per_page", "100")]
                   ++ (if JS.truthy (withDefault (q_path q) "")
                          && JS.truthy (JS.trim (withDefault (q_path q) ""))
                       then [("path", withDefault (q_path q) "")] else [])) in *.
    assert (U : url = (((protocol u ++ "//" ++ host u ++ "/api/v4") ++ "/projects/"
                          ++ encodeURIComponent w id ++ "/repository/tree")
                         ++ "?" ++ searchParams w params)%string
                /\ hs = [("PRIVATE-TOKEN", connAccessToken conn);
                         ("Accept", "application/json")]).
    { destruct (treeGet w _ _); cbn [effects snd] in H;
        (apply in_app_iff in H as [[H|[H|[]]]|[H|[]]]; try discriminate H;
         injection H as <- <-; split; reflexivity). }
    destruct U as [-> ->]. exists u, id, params.
    split; [reflexivity|]. split; [reflexivity|].
    split; [rewrite !append_assoc; reflexivity|].
    split; [now left|]. split; [right; right; now left | now left].
  - unfold getRepositoryFileContent, getGitLabApiUrl.
    destruct (p_filePath r) as [filePath|] eqn:F; cbn [present]; [|intros []].
    destruct (JS.truthy filePath); cbn [negb]; [|intros []].
    destruct (extractProjectIdFromUrl w (connRepoUrl conn)) as [id|] eqn:E;
      [|intros []].
    assert (P : exists u, parseURL w (connRepoUrl conn) = Some u).
    { unfold extractProjectIdFromUrl in E.
      destruct (parseURL w (connRepoUrl conn)) as [u|]; [now exists u | discriminate]. }
    destruct P as [u P]. rewrite P.
    intros H.
    set (params := [("ref", withDefault (c_ref r) "main")]
                   ++ (if String.eqb (withDefault (c_lfs r) "false") "true"
                       then [("lfs", "true")] else [])) in *.
    assert (U : url = (((protocol u ++ "//" ++ host u ++ "/api/v4") ++ "/projects/"
                          ++ encodeURIComponent w id ++ "/repository/files/"
                          ++ encodeURIComponent w filePath ++ "/raw")
                         ++ "?" ++ searchParams w params)%string
                /\ hs = [("PRIVATE-TOKEN", connAccessToken conn)]).
    { cbn [withDefault] in H.
      destruct (rawGet w _ _); cbn [effects snd] in H;
        (apply in_app_iff in H as [[H|[H|[]]]|[H|[]]]; try discriminate H;
         injection H as <- <-; split; reflexivity). }
    destruct U as [-> ->]. exists u, id, filePath, params.
    split; [reflexivity|]. split; [reflexivity|]. split; [reflexivity|].
    split; [rewrite !append_assoc; reflexivity|].
    split; now left.
Qed.

End TargetFacts.

Lemma upstream_requests_go_to_the_stored_host_witness :
  let w := Platform.world RejectedOther (Resolved []) RejectedOther (fun _ => None) in
  exists u id params,
    parseURL w (connRepoUrl earlier) = Some u
    /\ extractProjectIdFromUrl w (connRepoUrl earlier) = Some id
    /\ ("https://gitlab.com/api/v4/projects/" ++ encodeURIComponent w "team/docs"
        ++ "/repository/tree?"
        ++ searchParams w [("ref", "main"); ("recursive", "false"); ("per_page", "100")])%string
       = (protocol u ++ "//" ++ host u ++ "/api/v4/projects/"
          ++ encodeURIComponent w id ++ "/repository/tree?"
          ++ searchParams w params)%string
    /\ In ("ref", "main") params
    /\ In ("per_page", "100") params
    /\ In ("PRIVATE-TOKEN", connAccessToken earlier)
          [("PRIVATE-TOKEN", connAccessToken earlier); ("Accept", "application/json")].
Proof.
  intros w.
  destruct (upstream_requests_go_to_the_stored_host w earlier
              (mkFilesQuery None None None) (mkContentRequest None None None)
              ("https://gitlab.com/api/v4/projects/" ++ encodeURIComponent w "team/docs"
               ++ "/repository/tree?"
               ++ searchParams w [("ref", "main"); ("recursive", "false"); ("per_page", "100")])
              [("PRIVATE-TOKEN", connAccessToken earlier); ("Accept", "application/json")])
    as [H _].
  apply H. vm_compute. right. left. reflexivity.
Defined.
